(** * Tiny Tractor Tycoon (Rabbits Edition): the simulation core of
    [farming_sim.py], embedded as Rocq functions.

    Conventions of the embedding.

    - Python [int] is [Z].  Python [float] (timestamps, [grow_time]) is the
      exact rational type [Q]: the arithmetic of the source is read as real
      arithmetic, and two timestamps are compared with [==] / [<=] on [Q].
    - [self] is the record [Game]; a method that mutates [self] becomes a
      function from [Game] to [Game].
    - An uncaught Python exception is [Raise e]; a normal return is [Ok v].
    - The ambient sources of non-determinism, the [random] module and
      [time.time()], are the two tapes of the record [Env]; every call
      consumes one entry of its tape.
    - Rendering, fonts and the pre-rendered surfaces do not touch the
      simulation state and are left out. *)

From Stdlib Require Import ZArith QArith Qround Lia Lqa String.
From stdpp Require Import base list.

Local Open Scope Z_scope.

(* ------------------------------------------------------------------ *)
(** ** Exceptions *)

Inductive exn : Type :=
| IndexError
| KeyError
| ZeroDivisionError
| SystemExit.

Inductive result (A : Type) : Type :=
| Ok (a : A)
| Raise (e : exn).

Arguments Ok {A} a.
Arguments Raise {A} e.

Definition bind {A B : Type} (m : result A) (k : A -> result B) : result B :=
  match m with
  | Ok a => k a
  | Raise e => Raise e
  end.

Notation "'let*' p ':=' m 'in' k" :=
  (bind m (fun p => k))
  (at level 10, p pattern, m at level 100, k at level 200).

(* ------------------------------------------------------------------ *)
(** ** Constants *)

Definition COLS : Z := 8.
Definition ROWS : Z := 6.
Definition RABBIT_MOVE_INT : Q := 0.6.

(* ------------------------------------------------------------------ *)
(** ** Crop data *)

Record CropType : Type := mkCrop {
  key       : string;
  name      : string;
  emojis    : list string;
  grow_time : Q;
  seed_cost : Z;
  reward    : Z
}.

Definition Corn : CropType :=
  mkCrop "1" "Corn" ["🫘"; "🌱"; "🌾"; "🌽"]%string 240 5 12.
Definition Potato : CropType :=
  mkCrop "2" "Potato" ["🥔"; "🌱"; "🌿"; "🥔"]%string 210 4 10.
Definition Tomato : CropType :=
  mkCrop "3" "Tomato" ["🍅"; "🌱"; "🌿"; "🍅"]%string 180 4 10.
Definition Bean : CropType :=
  mkCrop "4" "Bean" ["🫘"; "🌱"; "🌿"; "🫘"]%string 150 3 8.
Definition Cabbage : CropType :=
  mkCrop "5" "Cabbage" ["🥬"; "🌱"; "🌿"; "🥬"]%string 270 6 15.
Definition Broccoli : CropType :=
  mkCrop "6" "Broccoli" ["🥦"; "🌱"; "🌿"; "🥦"]%string 300 7 18.

Definition CROPS : list CropType :=
  [Corn; Potato; Tomato; Bean; Cabbage; Broccoli].

(** Equality of two crops, as the generated [__eq__] of the frozen dataclass
    computes it: field by field, numbers compared by value. *)
Definition crop_eqb (c d : CropType) : bool :=
  String.eqb (key c) (key d)
  && String.eqb (name c) (name d)
  && (if Stdlib.Lists.List.list_eq_dec string_dec (emojis c) (emojis d)
      then true else false)
  && Qeq_bool (grow_time c) (grow_time d)
  && (seed_cost c =? seed_cost d)
  && (reward c =? reward d).

(** [CROP_BY_KEY = {c.key: c for c in CROPS}]: the keys of [CROPS] are
    pairwise distinct, so the entry of a key is the one crop carrying it. *)
Definition CROP_BY_KEY (k : string) : option CropType :=
  List.find (fun c => String.eqb (key c) k) CROPS.

(* ------------------------------------------------------------------ *)
(** ** Python containers *)

(** Position denoted by index [i] in a sequence of length [len]: negative
    indices count from the end, anything else out of range is an error. *)
Definition py_index (len : nat) (i : Z) : option nat :=
  if 0 <=? i then
    if i <? Z.of_nat len then Some (Z.to_nat i) else None
  else
    if - Z.of_nat len <=? i then Some (Z.to_nat (Z.of_nat len + i)) else None.

Definition getitem {A : Type} (l : list A) (i : Z) : result A :=
  match py_index (length l) i with
  | Some n =>
      match l !! n with
      | Some a => Ok a
      | None => Raise IndexError
      end
  | None => Raise IndexError
  end.

Definition setitem {A : Type} (l : list A) (i : Z) (a : A) : result (list A) :=
  match py_index (length l) i with
  | Some n => Ok (<[n := a]> l)
  | None => Raise IndexError
  end.

(** A dict keyed by crops, in insertion order. *)
Abbreviation dict := (list (CropType * Z)) (only parsing).

Fixpoint dict_get (d : dict) (c : CropType) : result Z :=
  match d with
  | [] => Raise KeyError
  | (k, v) :: d' => if crop_eqb k c then Ok v else dict_get d' c
  end.

Fixpoint dict_set (d : dict) (c : CropType) (v : Z) : dict :=
  match d with
  | [] => [(c, v)]
  | (k, w) :: d' =>
      if crop_eqb k c then (k, v) :: d' else (k, w) :: dict_set d' c v
  end.

(* ------------------------------------------------------------------ *)
(** ** Tiles and rabbits *)

Record Tile : Type := mkTile {
  crop       : option CropType;
  planted_at : Q;
  stage      : Z;
  fertilized : bool;
  flash_to   : Q;
  sparkle_t  : Q
}.

(** [Tile()]: the dataclass defaults. *)
Definition Tile0 : Tile := mkTile None 0 0 false 0 0.

(** The fields [x] and [y] of the dataclass [Rabbit]. *)
Record Rabbit : Type := mkRabbit {
  rabbit_x  : Z;
  rabbit_y  : Z;
  next_move : Q
}.

Abbreviation Grid := (list (list Tile)) (only parsing).

(** [grid[a][b]] *)
Definition grid_get (g : Grid) (a b : Z) : result Tile :=
  let* col := getitem g a in
  getitem col b.

(** [grid[a][b] = t]; also the effect on the grid of assigning to fields of
    the tile object stored at [grid[a][b]]. *)
Definition grid_set (g : Grid) (a b : Z) (t : Tile) : result Grid :=
  let* col := getitem g a in
  let* col' := setitem col b t in
  setitem g a col'.

(* ------------------------------------------------------------------ *)
(** ** Game state *)

Record Game : Type := mkGame {
  grid        : Grid;
  x           : Z;
  y           : Z;
  selected    : CropType;
  coins       : Z;
  harvest_log : dict;
  rabbits     : list Rabbit
}.

Definition with_grid (s : Game) (g : Grid) : Game :=
  mkGame g (x s) (y s) (selected s) (coins s) (harvest_log s) (rabbits s).
Definition with_x (s : Game) (v : Z) : Game :=
  mkGame (grid s) v (y s) (selected s) (coins s) (harvest_log s) (rabbits s).
Definition with_y (s : Game) (v : Z) : Game :=
  mkGame (grid s) (x s) v (selected s) (coins s) (harvest_log s) (rabbits s).
Definition with_selected (s : Game) (c : CropType) : Game :=
  mkGame (grid s) (x s) (y s) c (coins s) (harvest_log s) (rabbits s).
Definition with_coins (s : Game) (v : Z) : Game :=
  mkGame (grid s) (x s) (y s) (selected s) v (harvest_log s) (rabbits s).
Definition with_harvest_log (s : Game) (d : dict) : Game :=
  mkGame (grid s) (x s) (y s) (selected s) (coins s) d (rabbits s).
Definition with_rabbits (s : Game) (rs : list Rabbit) : Game :=
  mkGame (grid s) (x s) (y s) (selected s) (coins s) (harvest_log s) rs.

(** The simulation part of [__init__]. *)
Definition init : Game :=
  {| grid := replicate (Z.to_nat COLS) (replicate (Z.to_nat ROWS) Tile0);
     x := 0;
     y := 0;
     selected := Corn;   (* CROPS[0] *)
     coins := 25;
     harvest_log := List.map (fun c => (c, 0)) CROPS;
     rabbits := [] |}.

(* ------------------------------------------------------------------ *)
(** ** Environment: the random generator and the wall clock *)

Record Env : Type := mkEnv {
  rng  : nat -> Z;   (* raw outputs of the generator, in the order drawn *)
  wall : nat -> Q    (* successive readings of time.time() *)
}.

Definition rng_next (e : Env) : Env := mkEnv (fun i => rng e (S i)) (wall e).
Definition wall_next (e : Env) : Env := mkEnv (rng e) (fun i => wall e (S i)).

(** [random.randrange(n)] for [n > 0]: some integer of [0 .. n-1]. *)
Definition randrange (n : Z) (e : Env) : Z * Env :=
  (rng e O mod n, rng_next e).

(** [random.random()]: a multiple of [2^-53] in [[0, 1)]. *)
Definition random (e : Env) : Q * Env :=
  (inject_Z (rng e O mod 2 ^ 53) / inject_Z (2 ^ 53), rng_next e)%Q.

(** [random.choice(seq)] for a non-empty [seq], with [d] its first element. *)
Definition choice {A : Type} (d : A) (seq : list A) (e : Env) : A * Env :=
  (List.nth (Z.to_nat (rng e O mod Z.of_nat (length seq))) seq d, rng_next e).

(** [time.time()] *)
Definition time_time (e : Env) : Q * Env :=
  (wall e O, wall_next e).

(* ------------------------------------------------------------------ *)
(** ** Arithmetic of the source *)

(** [int(q)]: truncation toward zero. *)
Definition py_int (q : Q) : Z := Z.quot (Qnum q) (Zpos (Qden q)).

(** [a / b] *)
Definition py_div (a b : Q) : result Q :=
  if Qeq_bool b 0 then Raise ZeroDivisionError else Ok (a / b)%Q.

(** [max(a, b)]: the first of the two unless the second is greater. *)
Definition py_max (a b : Q) : Q :=
  if Qlt_le_dec a b then b else a.

(* ------------------------------------------------------------------ *)
(** ** Loops *)

(** [for a in l: body], threading the state and stopping at an exception. *)
Fixpoint for_each {A S : Type} (l : list A) (body : A -> S -> result S)
    (s : S) : result S :=
  match l with
  | [] => Ok s
  | a :: l' => let* s' := body a s in for_each l' body s'
  end.

(** [range(n)] *)
Definition range (n : Z) : list Z := seqZ 0 n.

(* ------------------------------------------------------------------ *)
(** ** Player actions *)

(** [handle_action]: plant on an empty tile, harvest a stage-3 tile. *)
Definition handle_action (now : Q) (s : Game) : result Game :=
  let* tile := grid_get (grid s) (x s) (y s) in
  match crop tile with
  | None =>
      let c := selected s in
      if seed_cost c <=? coins s then
        let s1 := with_coins s (coins s - seed_cost c) in
        let* g := grid_set (grid s1) (x s1) (y s1)
                    {| crop := Some c;
                       planted_at := now;
                       stage := 0;
                       fertilized := false;
                       flash_to := now + 0.3;
                       sparkle_t := sparkle_t tile |} in
        Ok (with_grid s1 g)
      else Ok s
  | Some c =>
      if stage tile =? 3 then
        let s1 := with_coins s (coins s + reward c) in
        let* n := dict_get (harvest_log s1) c in
        let s2 := with_harvest_log s1 (dict_set (harvest_log s1) c (n + 1)) in
        let* g := grid_set (grid s2) (x s2) (y s2) Tile0 in
        Ok (with_grid s2 g)
      else Ok s
  end.

(** [handle_fertilizer] *)
Definition handle_fertilizer (now : Q) (s : Game) : result Game :=
  if coins s <? 5 then Ok s
  else
    let* tile := grid_get (grid s) (x s) (y s) in
    match crop tile with
    | Some c =>
        if negb (fertilized tile) then
          let s1 := with_coins s (coins s - 5) in
          let elapsed := (now - planted_at tile)%Q in
          let remaining := py_max (grow_time c - elapsed) 0 in
          let* g := grid_set (grid s1) (x s1) (y s1)
                      {| crop := crop tile;
                         planted_at := planted_at tile - remaining / 2;
                         stage := stage tile;
                         fertilized := true;
                         flash_to := flash_to tile;
                         sparkle_t := now |} in
          Ok (with_grid s1 g)
        else Ok s
    | None => Ok s
    end.

(* ------------------------------------------------------------------ *)
(** ** Rabbits *)

(** The loop of [spawn_rabbit]: one sample, and up to [retries] more while
    the sample is the avoided tile; the last sample is kept in any case. *)
Fixpoint pick_tile (retries : nat) (avoid : Z * Z) (e : Env) : (Z * Z) * Env :=
  let '(rx, e1) := randrange COLS e in
  let '(ry, e2) := randrange ROWS e1 in
  if negb ((rx =? fst avoid) && (ry =? snd avoid)) then ((rx, ry), e2)
  else
    match retries with
    | O => ((rx, ry), e2)
    | S k => pick_tile k avoid e2
    end.

(** [spawn_rabbit]: [for _ in range(30)] is one sample and 29 retries. *)
Definition spawn_rabbit (s : Game) (e : Env) : Game * Env :=
  let '((rx, ry), e1) := pick_tile 29 (x s, y s) e in
  let '(t, e2) := time_time e1 in
  let '(u, e3) := random e2 in
  (with_rabbits s (rabbits s ++ [mkRabbit rx ry (t + u * RABBIT_MOVE_INT)]),
   e3).

(** The four hops of [random.choice] in [update_rabbits]. *)
Definition HOPS : list (Z * Z) := [(0, -1); (0, 1); (-1, 0); (1, 0)].

(** "Move occasionally": the hop of one rabbit, when it is due. *)
Definition hop (now : Q) (r : Rabbit) (e : Env) : Rabbit * Env :=
  if Qle_bool (next_move r) now then
    let '((dx, dy), e') := choice (0, -1) HOPS e in
    (mkRabbit ((rabbit_x r + dx) mod COLS) ((rabbit_y r + dy) mod ROWS)
              (now + RABBIT_MOVE_INT), e')
  else (r, e).

(** "Check for munching": the tile under the rabbit is reset when it holds
    a crop at stage 3. *)
Definition munch (r : Rabbit) (g : Grid) : result Grid :=
  let* tile := grid_get g (rabbit_x r) (rabbit_y r) in
  match crop tile with
  | Some _ =>
      if stage tile =? 3 then grid_set g (rabbit_x r) (rabbit_y r) Tile0
      else Ok g
  | None => Ok g
  end.

(** Body of the loop of [update_rabbits] for one rabbit. *)
Definition rabbit_step (now : Q) (r : Rabbit) (g : Grid) (e : Env)
    : result (Rabbit * Grid * Env) :=
  let '(r1, e1) := hop now r e in
  let* g' := munch r1 g in
  Ok (r1, g', e1).

(** [for rabbit in self.rabbits]: the rabbits are updated in place, in list
    order, each seeing the grid left by the ones before it. *)
Fixpoint rabbits_loop (now : Q) (rs : list Rabbit) (g : Grid) (e : Env)
    : result (list Rabbit * Grid * Env) :=
  match rs with
  | [] => Ok ([], g, e)
  | r :: rs' =>
      let* (r1, g1, e1) := rabbit_step now r g e in
      let* (rs1, g2, e2) := rabbits_loop now rs' g1 e1 in
      Ok (r1 :: rs1, g2, e2)
  end.

(** [update_rabbits] *)
Definition update_rabbits (now : Q) (st : Game * Env) : result (Game * Env) :=
  let '(s, e) := st in
  let* (rs, g, e') := rabbits_loop now (rabbits s) (grid s) e in
  Ok (with_rabbits (with_grid s g) rs, e').

(* ------------------------------------------------------------------ *)
(** ** Growth *)

(** Body of the two nested loops of [update_growth] at tile [(gx, gy)]. *)
Definition grow_cell (now : Q) (gx gy : Z) (st : Game * Env)
    : result (Game * Env) :=
  let '(s, e) := st in
  let* tile := grid_get (grid s) gx gy in
  match crop tile with
  | None => Ok st
  | Some c =>
      if stage tile =? 3 then Ok st
      else
        let elapsed := (now - planted_at tile)%Q in
        let* ratio := py_div elapsed (grow_time c) in
        let new_stage := Z.min (py_int (ratio * 4)) 3 in
        if negb (new_stage =? stage tile) then
          let '(s1, e1) :=
            if new_stage =? 3 then spawn_rabbit s e else (s, e) in
          let* g := grid_set (grid s1) gx gy
                      {| crop := crop tile;
                         planted_at := planted_at tile;
                         stage := new_stage;
                         fertilized := fertilized tile;
                         flash_to := flash_to tile;
                         sparkle_t := sparkle_t tile |} in
          Ok (with_grid s1 g, e1)
        else Ok st
  end.

(** [update_growth] *)
Definition update_growth (now : Q) (st : Game * Env) : result (Game * Env) :=
  for_each (range COLS)
    (fun gx => for_each (range ROWS) (grow_cell now gx)) st.

(* ------------------------------------------------------------------ *)
(** ** Input and the main loop *)

Inductive Key : Type :=
| K_ESCAPE | K_w | K_s | K_a | K_d | K_SPACE | K_f
| K_other (key_name : string).   (* any other key, by [pygame.key.name] *)

Inductive Event : Type :=
| QUIT
| KEYDOWN (k : Key)
| OTHER.

(** The [match event.key] of [handle_input].  [K_ESCAPE] only posts a [QUIT]
    event to the pygame queue, see [posted]. *)
Definition handle_key (now : Q) (k : Key) (s : Game) : result Game :=
  match k with
  | K_ESCAPE => Ok s
  | K_w => Ok (with_y s ((y s - 1) mod ROWS))
  | K_s => Ok (with_y s ((y s + 1) mod ROWS))
  | K_a => Ok (with_x s ((x s - 1) mod COLS))
  | K_d => Ok (with_x s ((x s + 1) mod COLS))
  | K_SPACE => handle_action now s
  | K_f => handle_fertilizer now s
  | K_other nm =>
      match CROP_BY_KEY nm with
      | Some c => Ok (with_selected s c)
      | None => Ok s
      end
  end.

Definition handle_event (now : Q) (ev : Event) (s : Game) : result Game :=
  match ev with
  | QUIT => Raise SystemExit
  | KEYDOWN k => handle_key now k s
  | OTHER => Ok s
  end.

(** [handle_input] on the events returned by [pygame.event.get()]. *)
Definition handle_input (now : Q) (events : list Event) (s : Game)
    : result Game :=
  for_each events (handle_event now) s.

(** The events [handle_input] posts back to the queue. *)
Definition posted (events : list Event) : list Event :=
  flat_map (fun ev => match ev with KEYDOWN K_ESCAPE => [QUIT] | _ => [] end)
           events.

(** One iteration of the loop of [run]; [render] changes no state. *)
Definition tick (events : list Event) (st : Game * Env) : result (Game * Env) :=
  let '(s, e) := st in
  let '(now, e0) := time_time e in
  let* s1 := handle_input now events s in
  let* st2 := update_growth now (s1, e0) in
  update_rabbits now st2.

(** [run], for the iterations whose incoming events are listed. *)
Fixpoint run (arrivals : list (list Event)) (pending : list Event)
    (st : Game * Env) : result (Game * Env) :=
  match arrivals with
  | [] => Ok st
  | a :: rest =>
      let* st' := tick (pending ++ a) st in
      run rest (posted (pending ++ a)) st'
  end.

(* ================================================================== *)
(** * Properties *)

(** ** Well-formed grids and positions *)

Definition grid_ok (g : Grid) : Prop :=
  length g = Z.to_nat COLS /\ Forall (fun col => length col = Z.to_nat ROWS) g.

Definition in_field (a b : Z) : Prop :=
  (0 <= a < COLS) /\ (0 <= b < ROWS).

Definition rabbit_in_field (r : Rabbit) : Prop :=
  in_field (rabbit_x r) (rabbit_y r).

(** Every planted crop of the grid has a positive growing time. *)
Definition crops_grow (g : Grid) : Prop :=
  Forall (Forall (fun t => forall c, crop t = Some c -> (0 < grow_time c)%Q)) g.

Ltac invc H := inversion H; subst; clear H.

(** Closes [exists new, l = l ++ new /\ ...] when nothing was appended. *)
Ltac no_new :=
  exists []; rewrite app_nil_r; repeat split; constructor.

Lemma bind_ok {A B : Type} (m : result A) (k : A -> result B) (b : B) :
  bind m k = Ok b -> exists a, m = Ok a /\ k a = Ok b.
Proof. destruct m; simpl; [eauto | discriminate]. Qed.

Section Containers.
Context {A : Type}.
Implicit Types (l : list A) (i : Z) (a : A).

Lemma py_index_nonneg (len : nat) i :
  0 <= i < Z.of_nat len -> py_index len i = Some (Z.to_nat i).
Proof.
  intros H. unfold py_index.
  destruct (0 <=? i) eqn:E1; [|lia].
  destruct (i <? Z.of_nat len) eqn:E2; [reflexivity | lia].
Qed.

Lemma getitem_lookup l i :
  0 <= i < Z.of_nat (length l) ->
  exists a, l !! Z.to_nat i = Some a /\ getitem l i = Ok a.
Proof.
  intros H. unfold getitem. rewrite py_index_nonneg by assumption.
  destruct (lookup_lt_is_Some_2 l (Z.to_nat i)) as [a Ha]; [lia|].
  exists a. rewrite Ha. auto.
Qed.

Lemma getitem_elem l i a : getitem l i = Ok a -> a ∈ l.
Proof.
  unfold getitem. destruct (py_index _ _); [|discriminate].
  destruct (l !! n) eqn:E; [|discriminate].
  intros [= <-]. eapply list_elem_of_lookup_2; eassumption.
Qed.

Lemma setitem_Forall (P : A -> Prop) l i a l' :
  setitem l i a = Ok l' -> Forall P l -> P a -> Forall P l'.
Proof.
  unfold setitem. destruct (py_index _ _) eqn:E; [|discriminate].
  intros [= <-] Hl Ha. apply Forall_insert; assumption.
Qed.

Lemma setitem_inrange l i a :
  0 <= i < Z.of_nat (length l) ->
  setitem l i a = Ok (<[Z.to_nat i := a]> l).
Proof. intros H. unfold setitem. now rewrite py_index_nonneg. Qed.

Lemma getitem_insert_eq l i a :
  0 <= i < Z.of_nat (length l) ->
  getitem (<[Z.to_nat i := a]> l) i = Ok a.
Proof.
  intros H. unfold getitem. rewrite length_insert, py_index_nonneg by lia.
  rewrite list_lookup_insert_eq by lia. reflexivity.
Qed.

Lemma getitem_insert_ne l i j a :
  0 <= i -> 0 <= j -> i <> j ->
  getitem (<[Z.to_nat i := a]> l) j = getitem l j.
Proof.
  intros Hi Hj Hne. unfold getitem. rewrite length_insert.
  destruct (py_index (length l) j) eqn:E; [|reflexivity].
  destruct (decide (0 <= j < Z.of_nat (length l))) as [Hr|Hr].
  - rewrite py_index_nonneg in E by assumption. invc E.
    rewrite list_lookup_insert_ne by lia. reflexivity.
  - unfold py_index in E.
    destruct (0 <=? j) eqn:E1; [|lia].
    destruct (j <? Z.of_nat (length l)) eqn:E2; [lia | discriminate].
Qed.
End Containers.

(** *** Reading and writing the grid *)

Lemma grid_ok_col (g : Grid) (a : Z) :
  grid_ok g -> 0 <= a < COLS ->
  exists col, g !! Z.to_nat a = Some col /\ getitem g a = Ok col
              /\ length col = Z.to_nat ROWS.
Proof.
  intros [Hlen Hcols] Ha.
  destruct (getitem_lookup g a) as (col & Hl & Hg); [lia|].
  exists col. repeat split; try assumption.
  rewrite Forall_forall in Hcols. apply Hcols.
  eapply list_elem_of_lookup_2; eassumption.
Qed.

Lemma grid_get_total (g : Grid) (a b : Z) :
  grid_ok g -> in_field a b -> exists t, grid_get g a b = Ok t.
Proof.
  intros Hok [Ha Hb].
  destruct (grid_ok_col g a Hok Ha) as (col & _ & Hg & Hlen).
  destruct (getitem_lookup col b) as (t & _ & Ht); [unfold ROWS in *; lia|].
  exists t. unfold grid_get. rewrite Hg. exact Ht.
Qed.

Lemma grid_set_spec (g : Grid) (a b : Z) (t : Tile) :
  grid_ok g -> in_field a b ->
  exists g', grid_set g a b t = Ok g'
    /\ grid_ok g'
    /\ grid_get g' a b = Ok t
    /\ (forall a' b', in_field a' b' -> (a', b') <> (a, b) ->
          grid_get g' a' b' = grid_get g a' b').
Proof.
  intros Hok [Ha Hb].
  destruct (grid_ok_col g a Hok Ha) as (col & Hl & Hg & Hlen).
  assert (Hbr : 0 <= b < Z.of_nat (length col)) by (unfold ROWS in *; lia).
  assert (Har : 0 <= a < Z.of_nat (length g))
    by (destruct Hok as [-> _]; unfold COLS in *; lia).
  exists (<[Z.to_nat a := <[Z.to_nat b := t]> col]> g).
  split; [|split; [|split]].
  - unfold grid_set. rewrite Hg. simpl.
    rewrite (setitem_inrange col b t Hbr). simpl.
    apply setitem_inrange; assumption.
  - destruct Hok as [Hlg Hcols]. split.
    + now rewrite length_insert.
    + apply Forall_insert; [assumption|]. now rewrite length_insert.
  - unfold grid_get. rewrite getitem_insert_eq by assumption. simpl.
    apply getitem_insert_eq; assumption.
  - intros a' b' [Ha' Hb'] Hne. unfold grid_get.
    destruct (decide (a' = a)) as [->|Hna].
    + rewrite getitem_insert_eq by assumption. rewrite Hg. simpl.
      apply getitem_insert_ne; [lia | lia | congruence].
    + rewrite getitem_insert_ne by lia. reflexivity.
Qed.

Lemma grid_get_elem (g : Grid) (a b : Z) (t : Tile) :
  grid_get g a b = Ok t -> exists col, col ∈ g /\ t ∈ col.
Proof.
  unfold grid_get. intros H. apply bind_ok in H as (col & Hc & Ht).
  exists col. split; eapply getitem_elem; eassumption.
Qed.

Lemma grid_set_Forall (P : Tile -> Prop) (g g' : Grid) (a b : Z) (t : Tile) :
  grid_set g a b t = Ok g' -> Forall (Forall P) g -> P t -> Forall (Forall P) g'.
Proof.
  unfold grid_set. intros H Hg Ht.
  apply bind_ok in H as (col & Hc & H).
  apply bind_ok in H as (col' & Hc' & H).
  eapply setitem_Forall; [exact H | exact Hg |].
  eapply setitem_Forall; [exact Hc' | | exact Ht].
  rewrite Forall_forall in Hg. apply Hg. eapply getitem_elem; eassumption.
Qed.

Lemma grid_get_Forall (P : Tile -> Prop) (g : Grid) (a b : Z) (t : Tile) :
  grid_get g a b = Ok t -> Forall (Forall P) g -> P t.
Proof.
  intros H Hg. apply grid_get_elem in H as (col & Hc & Ht).
  rewrite Forall_forall in Hg. specialize (Hg col Hc).
  rewrite Forall_forall in Hg. auto.
Qed.

(** ** Crops as dictionary keys *)

Lemma crop_eqb_true (c d : CropType) :
  crop_eqb c d = true <->
  key c = key d /\ name c = name d /\ emojis c = emojis d
  /\ (grow_time c == grow_time d)%Q
  /\ seed_cost c = seed_cost d /\ reward c = reward d.
Proof.
  unfold crop_eqb.
  rewrite !andb_true_iff, !String.eqb_eq, !Z.eqb_eq, Qeq_bool_iff.
  destruct (Stdlib.Lists.List.list_eq_dec string_dec (emojis c) (emojis d));
    intuition congruence.
Qed.

Lemma crop_eqb_refl (c : CropType) : crop_eqb c c = true.
Proof. apply crop_eqb_true. repeat split; reflexivity. Qed.

Lemma crop_eqb_sym_true (c d : CropType) :
  crop_eqb c d = true -> crop_eqb d c = true.
Proof.
  rewrite !crop_eqb_true. intros (?&?&?&?&?&?).
  repeat split; try congruence; now symmetry.
Qed.

Lemma crop_eqb_sym (c d : CropType) : crop_eqb c d = crop_eqb d c.
Proof.
  destruct (crop_eqb c d) eqn:E1, (crop_eqb d c) eqn:E2; try reflexivity.
  - apply crop_eqb_sym_true in E1. congruence.
  - apply crop_eqb_sym_true in E2. congruence.
Qed.

Lemma crop_eqb_trans (c d f : CropType) :
  crop_eqb c d = true -> crop_eqb d f = true -> crop_eqb c f = true.
Proof.
  rewrite !crop_eqb_true. intros (?&?&?&?&?&?) (?&?&?&?&?&?).
  repeat split; try congruence; etransitivity; eassumption.
Qed.

Lemma dict_get_set_eq (d : list (CropType * Z)) (c : CropType) (v : Z) :
  dict_get (dict_set d c v) c = Ok v.
Proof.
  induction d as [|[k w] d IH]; simpl.
  - now rewrite crop_eqb_refl.
  - destruct (crop_eqb k c) eqn:E; simpl; rewrite E; [reflexivity | exact IH].
Qed.

Lemma dict_get_set_ne (d : list (CropType * Z)) (c c' : CropType) (v : Z) :
  crop_eqb c c' = false ->
  dict_get (dict_set d c v) c' = dict_get d c'.
Proof.
  intros Hne. induction d as [|[k w] d IH]; simpl.
  - now rewrite Hne.
  - destruct (crop_eqb k c) eqn:E; simpl.
    + destruct (crop_eqb k c') eqn:E'; [|reflexivity].
      rewrite (crop_eqb_trans c k c') in Hne; [discriminate | | exact E'].
      now apply crop_eqb_sym_true.
    + destruct (crop_eqb k c'); [reflexivity | exact IH].
Qed.

(** ** Arithmetic of the growth rule *)

(** The rule as the specification words it:
    [stage = min(floor(t / growDuration * 4), 3)]. *)
Definition spec_stage (growDuration t : Q) : Z :=
  Z.min (Qfloor (t / growDuration * 4)) 3.

Lemma py_int_floor (q : Q) : (0 <= q)%Q -> py_int q = Qfloor q.
Proof.
  destruct q as [n d]. unfold Qle, py_int, Qfloor. simpl. intros H.
  apply Z.quot_div_nonneg; lia.
Qed.

Lemma ratio_nonneg (g t : Q) : (0 < g)%Q -> (0 <= t)%Q -> (0 <= t / g * 4)%Q.
Proof.
  intros Hg Ht.
  assert (0 <= t / g)%Q by (apply Qle_shift_div_l; [assumption | lra]).
  lra.
Qed.

Lemma ratio_mono (g t1 t2 : Q) :
  (0 < g)%Q -> (t1 <= t2)%Q -> (t1 / g * 4 <= t2 / g * 4)%Q.
Proof.
  intros Hg Ht.
  assert (t1 / g <= t2 / g)%Q.
  { unfold Qdiv. apply Qmult_le_compat_r; [assumption|].
    apply Qlt_le_weak, Qinv_lt_0_compat, Hg. }
  lra.
Qed.

Lemma spec_stage_mono (g t1 t2 : Q) :
  (0 < g)%Q -> (t1 <= t2)%Q -> spec_stage g t1 <= spec_stage g t2.
Proof.
  intros Hg Ht. unfold spec_stage.
  apply Z.min_le_compat_r, Qfloor_resp_le, ratio_mono; assumption.
Qed.

Lemma spec_stage_range (g t : Q) :
  (0 < g)%Q -> (0 <= t)%Q -> 0 <= spec_stage g t <= 3.
Proof.
  intros Hg Ht. unfold spec_stage. split; [|apply Z.le_min_r].
  apply Z.min_glb; [|lia].
  change 0 with (Qfloor 0). apply Qfloor_resp_le, ratio_nonneg; assumption.
Qed.

Lemma py_div_ok (a b : Q) : (0 < b)%Q -> py_div a b = Ok (a / b)%Q.
Proof.
  intros Hb. unfold py_div.
  destruct (Qeq_bool b 0) eqn:E; [|reflexivity].
  apply Qeq_bool_iff in E. lra.
Qed.

(** ** Plant, harvest, fertilize *)

(** The tile [handle_action] writes when it plants. *)
Definition planted (c : CropType) (now : Q) (old : Tile) : Tile :=
  {| crop := Some c; planted_at := now; stage := 0; fertilized := false;
     flash_to := now + 0.3; sparkle_t := sparkle_t old |}.

(** The tile [handle_fertilizer] writes. *)
Definition fertilized_tile (c : CropType) (now : Q) (old : Tile) : Tile :=
  {| crop := crop old;
     planted_at :=
       planted_at old
       - py_max (grow_time c - (now - planted_at old)) 0 / 2;
     stage := stage old; fertilized := true;
     flash_to := flash_to old; sparkle_t := now |}.

(** [s'] differs from [s] at most in the tile under the cursor, the coins
    and the harvest log. *)
Definition same_but_cursor_tile (s s' : Game) : Prop :=
  x s' = x s /\ y s' = y s /\ selected s' = selected s
  /\ rabbits s' = rabbits s
  /\ grid_ok (grid s')
  /\ forall a b, in_field a b -> (a, b) <> (x s, y s) ->
       grid_get (grid s') a b = grid_get (grid s) a b.

Section Actions.
Variables (now : Q) (s : Game) (tile : Tile).
Hypothesis Hgrid : grid_ok (grid s).
Hypothesis Hcur : in_field (x s) (y s).
Hypothesis Htile : grid_get (grid s) (x s) (y s) = Ok tile.

Lemma plant_affordable :
  crop tile = None -> seed_cost (selected s) <= coins s ->
  exists s', handle_action now s = Ok s'
    /\ coins s' = coins s - seed_cost (selected s)
    /\ grid_get (grid s') (x s) (y s) = Ok (planted (selected s) now tile)
    /\ harvest_log s' = harvest_log s
    /\ same_but_cursor_tile s s'.
Proof.
  intros Hc Hcoins.
  destruct (grid_set_spec (grid s) (x s) (y s)
              (planted (selected s) now tile) Hgrid Hcur)
    as (g' & Hset & Hok' & Hget' & Hframe).
  exists (with_grid (with_coins s (coins s - seed_cost (selected s))) g').
  unfold handle_action. rewrite Htile. simpl. rewrite Hc.
  destruct (seed_cost (selected s) <=? coins s) eqn:E; [|lia].
  simpl. fold (planted (selected s) now tile). rewrite Hset. simpl.
  repeat split; simpl; auto; apply Hok'.
Qed.

Lemma plant_unaffordable :
  crop tile = None -> coins s < seed_cost (selected s) ->
  handle_action now s = Ok s.
Proof.
  intros Hc Hcoins. unfold handle_action. rewrite Htile. simpl. rewrite Hc.
  destruct (seed_cost (selected s) <=? coins s) eqn:E; [lia | reflexivity].
Qed.

Lemma harvest_ripe (c : CropType) (n : Z) :
  crop tile = Some c -> stage tile = 3 ->
  dict_get (harvest_log s) c = Ok n ->
  exists s', handle_action now s = Ok s'
    /\ coins s' = coins s + reward c
    /\ dict_get (harvest_log s') c = Ok (n + 1)
    /\ (forall c', crop_eqb c c' = false ->
          dict_get (harvest_log s') c' = dict_get (harvest_log s) c')
    /\ grid_get (grid s') (x s) (y s) = Ok Tile0
    /\ same_but_cursor_tile s s'.
Proof.
  intros Hc Hst Hlog.
  destruct (grid_set_spec (grid s) (x s) (y s) Tile0 Hgrid Hcur)
    as (g' & Hset & Hok' & Hget' & Hframe).
  exists (with_grid
            (with_harvest_log (with_coins s (coins s + reward c))
               (dict_set (harvest_log s) c (n + 1))) g').
  unfold handle_action. rewrite Htile. simpl. rewrite Hc, Hst. simpl.
  rewrite Hlog. simpl. rewrite Hset. simpl.
  repeat split; simpl; auto using dict_get_set_eq, dict_get_set_ne;
    apply Hok'.
Qed.

Lemma action_unripe (c : CropType) :
  crop tile = Some c -> stage tile <> 3 -> handle_action now s = Ok s.
Proof.
  intros Hc Hst. unfold handle_action. rewrite Htile. simpl. rewrite Hc.
  destruct (stage tile =? 3) eqn:E; [lia | reflexivity].
Qed.

Lemma fertilize_fresh (c : CropType) :
  crop tile = Some c -> fertilized tile = false -> 5 <= coins s ->
  exists s', handle_fertilizer now s = Ok s'
    /\ coins s' = coins s - 5
    /\ grid_get (grid s') (x s) (y s) = Ok (fertilized_tile c now tile)
    /\ harvest_log s' = harvest_log s
    /\ same_but_cursor_tile s s'.
Proof.
  intros Hc Hf Hcoins.
  destruct (grid_set_spec (grid s) (x s) (y s)
              (fertilized_tile c now tile) Hgrid Hcur)
    as (g' & Hset & Hok' & Hget' & Hframe).
  exists (with_grid (with_coins s (coins s - 5)) g').
  unfold handle_fertilizer.
  destruct (coins s <? 5) eqn:E; [lia|].
  rewrite Htile. simpl. rewrite Hc, Hf. simpl.
  unfold fertilized_tile in Hset. rewrite Hc in Hset. rewrite Hset. simpl.
  repeat split; simpl; auto; apply Hok'.
Qed.

Lemma fertilize_again :
  fertilized tile = true -> handle_fertilizer now s = Ok s.
Proof.
  intros Hf. unfold handle_fertilizer.
  destruct (coins s <? 5); [reflexivity|].
  rewrite Htile. simpl. rewrite Hf.
  destruct (crop tile); reflexivity.
Qed.

Lemma fertilize_empty :
  crop tile = None -> handle_fertilizer now s = Ok s.
Proof.
  intros Hc. unfold handle_fertilizer.
  destruct (coins s <? 5); [reflexivity|].
  rewrite Htile. simpl. now rewrite Hc.
Qed.
End Actions.

Lemma fertilize_poor (now : Q) (s : Game) :
  coins s < 5 -> handle_fertilizer now s = Ok s.
Proof.
  intros H. unfold handle_fertilizer.
  destruct (coins s <? 5) eqn:E; [reflexivity | lia].
Qed.

(** ** Spawning a rabbit *)

(** The [k]-th position sampled from the generator state [e]. *)
Definition sample (e : Env) (k : nat) : Z * Z :=
  (rng e (2 * k)%nat mod COLS, rng e (2 * k + 1)%nat mod ROWS).

Lemma sample_in_field (e : Env) (k : nat) :
  in_field (fst (sample e k)) (snd (sample e k)).
Proof.
  unfold sample, in_field, COLS, ROWS. simpl.
  split; apply Z.mod_pos_bound; lia.
Qed.

Lemma same_tile_spec (p q : Z * Z) :
  (fst p =? fst q) && (snd p =? snd q) = true <-> p = q.
Proof.
  destruct p, q. simpl. rewrite andb_true_iff, !Z.eqb_eq.
  split; [intros [-> ->]; reflexivity | intros [= -> ->]; auto].
Qed.

Lemma sample_shift (e : Env) (j : nat) :
  sample (rng_next (rng_next e)) j = sample e (S j).
Proof.
  unfold sample, rng_next. simpl.
  replace (j + S (j + 0))%nat with (S (j + (j + 0)))%nat by lia.
  replace (j + S (j + 0) + 1)%nat with (S (j + (j + 0) + 1))%nat by lia.
  reflexivity.
Qed.

(** [pick_tile] returns the first sample that is not the avoided tile, or
    the last of its [retries + 1] samples when they all are. *)
Lemma pick_tile_spec (retries : nat) (avoid : Z * Z) :
  forall e, exists k,
    (k <= retries)%nat
    /\ (forall j, (j < k)%nat -> sample e j = avoid)
    /\ fst (pick_tile retries avoid e) = sample e k
    /\ (sample e k = avoid -> k = retries)
    /\ wall (snd (pick_tile retries avoid e)) = wall e
    /\ forall i, rng (snd (pick_tile retries avoid e)) i
                 = rng e (2 * S k + i)%nat.
Proof.
  induction retries as [|n IH]; intros e.
  - exists O. cbn [pick_tile randrange].
    destruct (negb _); simpl; repeat split; auto; lia.
  - cbn [pick_tile randrange].
    destruct (negb _) eqn:E.
    + exists O. simpl. repeat split; auto; try lia.
      intros Heq. apply negb_true_iff in E.
      change (rng e 0%nat mod COLS) with (fst (sample e 0)) in E.
      change (rng (rng_next e) 0%nat mod ROWS) with (snd (sample e 0)) in E.
      apply same_tile_spec in Heq. congruence.
    + apply negb_false_iff in E.
      change (rng e 0%nat mod COLS) with (fst (sample e 0)) in E.
      change (rng (rng_next e) 0%nat mod ROWS) with (snd (sample e 0)) in E.
      apply same_tile_spec in E.
      destruct (IH (rng_next (rng_next e))) as (k & Hk & Hpre & Hp & Hlast & Hw & Hr).
      exists (S k). repeat split.
      * lia.
      * intros [|j] Hj; [exact E|]. rewrite <- sample_shift. apply Hpre. lia.
      * rewrite Hp. apply sample_shift.
      * rewrite <- sample_shift. intros H. f_equal. auto.
      * rewrite Hw. reflexivity.
      * intros i. rewrite Hr. simpl. f_equal. lia.
Qed.

Lemma random_unit (e : Env) : (0 <= fst (random e) < 1)%Q.
Proof.
  unfold random. cbn [fst].
  pose proof (Z.mod_pos_bound (rng e 0%nat) (2 ^ 53) ltac:(lia)) as [H0 H1].
  set (m := rng e 0%nat mod 2 ^ 53) in *.
  assert (Hd : (0 < inject_Z (2 ^ 53))%Q)
    by (change (inject_Z 0 < inject_Z (2 ^ 53))%Q; rewrite <- Zlt_Qlt; lia).
  split.
  - apply Qle_shift_div_l; [exact Hd|].
    rewrite Qmult_0_l. change (inject_Z 0 <= inject_Z m)%Q.
    rewrite <- Zle_Qle. exact H0.
  - apply Qlt_shift_div_r; [exact Hd|].
    rewrite Qmult_1_l, <- Zlt_Qlt. exact H1.
Qed.

Lemma spawn_rabbit_spec (s : Game) (e : Env) :
  exists (r : Rabbit) (e' : Env) (k : nat) (off : Q),
    spawn_rabbit s e = (with_rabbits s (rabbits s ++ [r]), e')
    /\ (k < 30)%nat
    /\ (forall j, (j < k)%nat -> sample e j = (x s, y s))
    /\ (rabbit_x r, rabbit_y r) = sample e k
    /\ (sample e k = (x s, y s) -> k = 29%nat)
    /\ next_move r = (wall e O + off)%Q
    /\ (0 <= off < RABBIT_MOVE_INT)%Q.
Proof.
  destruct (pick_tile_spec 29 (x s, y s) e) as (k & Hk & Hpre & Hp & Hlast & Hw & Hr).
  unfold spawn_rabbit.
  destruct (pick_tile 29 (x s, y s) e) as [[rx ry] e1] eqn:E.
  cbn [fst snd] in *.
  unfold time_time.
  destruct (random (wall_next e1)) as [u e3] eqn:Eu.
  exists (mkRabbit rx ry (wall e1 O + u * RABBIT_MOVE_INT)), e3, k,
    (u * RABBIT_MOVE_INT)%Q.
  repeat split; auto; try lia.
  - simpl. rewrite Hw. reflexivity.
  - pose proof (random_unit (wall_next e1)) as [H0 _]. rewrite Eu in H0.
    simpl in H0. unfold RABBIT_MOVE_INT. lra.
  - pose proof (random_unit (wall_next e1)) as [_ H1]. rewrite Eu in H1.
    simpl in H1. unfold RABBIT_MOVE_INT. lra.
Qed.

(** ** The growth update, tile by tile *)

(** The expression [min(int((elapsed / grow_time) * 4), 3)] of the source. *)
Definition new_stage (now : Q) (c : CropType) (t : Tile) : Z :=
  Z.min (py_int ((now - planted_at t) / grow_time c * 4)) 3.

(** What one pass of [update_growth] makes of a tile. *)
Definition grown (now : Q) (t : Tile) : Tile :=
  match crop t with
  | None => t
  | Some c =>
      if stage t =? 3 then t
      else {| crop := crop t; planted_at := planted_at t;
              stage := new_stage now c t; fertilized := fertilized t;
              flash_to := flash_to t; sparkle_t := sparkle_t t |}
  end.

(** The tile reaches stage 3 in this pass. *)
Definition ripens (now : Q) (t : Tile) : bool :=
  match crop t with
  | None => false
  | Some c => negb (stage t =? 3) && (new_stage now c t =? 3)
  end.

Definition ripens_at (now : Q) (g : Grid) (a b : Z) : bool :=
  match grid_get g a b with
  | Ok t => ripens now t
  | Raise _ => false
  end.

Fixpoint sum_over (f : Z -> nat) (l : list Z) : nat :=
  match l with
  | [] => O
  | a :: l' => (f a + sum_over f l')%nat
  end.

(** Number of tiles of the grid that reach stage 3 at time [now]. *)
Definition ripening (now : Q) (g : Grid) : nat :=
  sum_over
    (fun a => sum_over (fun b => if ripens_at now g a b then 1%nat else O)
                       (range ROWS))
    (range COLS).

(** [s'] is [s] up to the grid and the rabbits. *)
Definition same_player (s s' : Game) : Prop :=
  x s' = x s /\ y s' = y s /\ selected s' = selected s
  /\ coins s' = coins s /\ harvest_log s' = harvest_log s.

Lemma same_player_refl (s : Game) : same_player s s.
Proof. repeat split. Qed.

Lemma same_player_trans (s1 s2 s3 : Game) :
  same_player s1 s2 -> same_player s2 s3 -> same_player s1 s3.
Proof.
  unfold same_player. intros (?&?&?&?&?) (?&?&?&?&?).
  repeat split; congruence.
Qed.

Lemma sum_over_ext (f g : Z -> nat) (l : list Z) :
  (forall a, a ∈ l -> f a = g a) -> sum_over f l = sum_over g l.
Proof.
  induction l as [|a l IH]; intros H; simpl; [reflexivity|].
  rewrite (H a), IH; [reflexivity | | apply list_elem_of_here].
  intros b Hb. apply H. now apply list_elem_of_further.
Qed.

Lemma grown_crop (now : Q) (t : Tile) : crop (grown now t) = crop t.
Proof.
  unfold grown. destruct (crop t) eqn:E; [|exact E].
  destruct (stage t =? 3); [exact E | reflexivity].
Qed.

Lemma tile_eta (t : Tile) :
  {| crop := crop t; planted_at := planted_at t; stage := stage t;
     fertilized := fertilized t; flash_to := flash_to t;
     sparkle_t := sparkle_t t |} = t.
Proof. now destruct t. Qed.

Lemma grow_cell_spec (now : Q) (gx gy : Z) (s : Game) (e : Env) (t : Tile) :
  grid_ok (grid s) -> in_field gx gy ->
  grid_get (grid s) gx gy = Ok t ->
  (forall c, crop t = Some c -> (0 < grow_time c)%Q) ->
  exists s' e',
    grow_cell now gx gy (s, e) = Ok (s', e')
    /\ grid_ok (grid s')
    /\ grid_get (grid s') gx gy = Ok (grown now t)
    /\ (forall a b, in_field a b -> (a, b) <> (gx, gy) ->
          grid_get (grid s') a b = grid_get (grid s) a b)
    /\ (forall P, Forall (Forall P) (grid s) -> P (grown now t) ->
          Forall (Forall P) (grid s'))
    /\ same_player s s'
    /\ exists new, rabbits s' = rabbits s ++ new
                   /\ length new = (if ripens now t then 1%nat else O)
                   /\ Forall rabbit_in_field new.
Proof.
  intros Hok Hin Hget Hpos.
  unfold grow_cell, grown, ripens. rewrite Hget. cbn [bind].
  destruct (crop t) as [c|] eqn:Hc.
  2:{ exists s, e. repeat split; auto; try apply Hok.
      no_new. }
  destruct (stage t =? 3) eqn:Hst.
  { exists s, e. repeat split; auto; try apply Hok.
    no_new. }
  rewrite (py_div_ok _ _ (Hpos c eq_refl)). cbn [bind negb andb].
  fold (new_stage now c t).
  destruct (new_stage now c t =? stage t) eqn:Hsame.
  { apply Z.eqb_eq in Hsame. rewrite Hsame, Hst, <- Hc, tile_eta. cbn [negb].
    exists s, e. repeat split; auto; try apply Hok.
    no_new. }
  cbn [negb].
  set (t' := {| crop := Some c; planted_at := planted_at t;
                stage := new_stage now c t; fertilized := fertilized t;
                flash_to := flash_to t; sparkle_t := sparkle_t t |}).
  destruct (new_stage now c t =? 3) eqn:Hripe.
  - destruct (spawn_rabbit_spec s e) as (r & e' & k & _ & Hsp & _ & _ & Hxy & _).
    rewrite Hsp.
    destruct (grid_set_spec (grid s) gx gy t' Hok Hin)
      as (g' & Hset & Hok' & Hget' & Hframe).
    cbn [grid with_rabbits]. rewrite Hset. cbn [bind].
    exists (with_grid (with_rabbits s (rabbits s ++ [r])) g'), e'.
    repeat split; auto; try apply Hok'.
    + intros P HP Ht'. eapply grid_set_Forall; eauto.
    + exists [r]. repeat split. constructor; [|constructor].
      unfold rabbit_in_field. change (rabbit_x r) with (fst (rabbit_x r, rabbit_y r)).
      change (rabbit_y r) with (snd (rabbit_x r, rabbit_y r)) at 2.
      rewrite Hxy. apply sample_in_field.
  - destruct (grid_set_spec (grid s) gx gy t' Hok Hin)
      as (g' & Hset & Hok' & Hget' & Hframe).
    rewrite Hset. cbn [bind].
    exists (with_grid s g'), e.
    repeat split; auto; try apply Hok'.
    + intros P HP Ht'. eapply grid_set_Forall; eauto.
    + no_new.
Qed.

(** The inner loop [for gy in range(ROWS)], over any duplicate-free list of
    rows of column [gx]. *)
Lemma grow_column_spec (now : Q) (gx : Z) (rows : list Z) :
  0 <= gx < COLS -> NoDup rows -> (forall b, b ∈ rows -> 0 <= b < ROWS) ->
  forall s e,
    grid_ok (grid s) -> crops_grow (grid s) ->
    exists s' e',
      for_each rows (grow_cell now gx) (s, e) = Ok (s', e')
      /\ grid_ok (grid s')
      /\ (forall a b t, in_field a b -> grid_get (grid s) a b = Ok t ->
            grid_get (grid s') a b
            = Ok (if decide (a = gx /\ b ∈ rows) then grown now t else t))
      /\ (forall P, (forall t, P t -> P (grown now t)) ->
            Forall (Forall P) (grid s) -> Forall (Forall P) (grid s'))
      /\ same_player s s'
      /\ exists new,
           rabbits s' = rabbits s ++ new
           /\ length new
              = sum_over (fun b => if ripens_at now (grid s) gx b
                                   then 1%nat else O) rows
           /\ Forall rabbit_in_field new.
Proof.
  intros Hgx Hnd. induction Hnd as [|b0 rows Hnotin Hnd IH]; intros Hrows s e Hok Hcg.
  - exists s, e. cbn [for_each sum_over]. repeat split; auto; try apply Hok.
    + intros a b t _ Ht. rewrite Ht.
      destruct (decide _) as [[_ H]|_]; [|reflexivity].
      now apply elem_of_nil in H.
    + no_new.
  - assert (Hin0 : in_field gx b0)
      by (split; [exact Hgx | apply Hrows, list_elem_of_here]).
    destruct (grid_get_total (grid s) gx b0 Hok Hin0) as [t0 Ht0].
    destruct (grow_cell_spec now gx b0 s e t0 Hok Hin0 Ht0)
      as (s1 & e1 & Hrun1 & Hok1 & Hget1 & Hframe1 & HP1 & Hsame1
          & new1 & Hrab1 & Hlen1 & Hnew1).
    { eapply (grid_get_Forall _ _ _ _ _ Ht0 Hcg). }
    assert (Hcg1 : crops_grow (grid s1)).
    { apply HP1; [exact Hcg|]. intros c. rewrite grown_crop.
      eapply (grid_get_Forall _ _ _ _ _ Ht0 Hcg). }
    destruct (IH (fun b Hb => Hrows b (list_elem_of_further _ _ _ Hb))
                 s1 e1 Hok1 Hcg1)
      as (s' & e' & Hrun & Hok' & Hcells & HP & Hsame & new & Hrab & Hlen & Hnew).
    exists s', e'. cbn [for_each]. rewrite Hrun1. cbn [bind].
    split; [exact Hrun|]. split; [exact Hok'|]. split; [|split; [|split]].
    + intros a b t Hin Ht.
      destruct (decide ((a, b) = (gx, b0))) as [[= -> ->]|Hne].
      * rewrite (Hcells gx b0 (grown now t0) Hin Hget1).
        assert (t = t0) as -> by congruence.
        destruct (decide (gx = gx /\ b0 ∈ rows)) as [[_ H]|_]; [contradiction|].
        destruct (decide (gx = gx /\ b0 ∈ b0 :: rows)) as [_|H];
          [reflexivity|].
        exfalso. apply H. split; [reflexivity | apply list_elem_of_here].
      * rewrite (Hcells a b t Hin); [|rewrite Hframe1; assumption].
        destruct (decide (a = gx /\ b ∈ rows)) as [[-> H]|H];
          destruct (decide (_ /\ b ∈ b0 :: rows)) as [[Ha H']|H'];
          try reflexivity.
        -- exfalso. apply H'. split; [reflexivity|].
           now apply list_elem_of_further.
        -- exfalso. subst a. apply elem_of_cons in H' as [->|H'].
           ++ now apply Hne.
           ++ apply H. now split.
    + intros P HPg HPs. apply HP; [exact HPg|]. apply HP1; [exact HPs|].
      apply HPg. eapply grid_get_Forall; eassumption.
    + eapply same_player_trans; eassumption.
    + exists (new1 ++ new). split; [|split; [|now apply Forall_app]].
      * rewrite Hrab, Hrab1. now rewrite app_assoc.
      * rewrite length_app, Hlen1, Hlen. cbn [sum_over].
        unfold ripens_at at 2. rewrite Ht0. f_equal.
        apply sum_over_ext. intros b Hb. unfold ripens_at.
        rewrite Hframe1; [reflexivity | |].
        -- split; [exact Hgx | apply Hrows; now apply list_elem_of_further].
        -- intros [= ->]. contradiction.
Qed.

Lemma range_elem (n k : Z) : k ∈ range n <-> 0 <= k < n.
Proof. unfold range. rewrite elem_of_seqZ. lia. Qed.

(** The outer loop [for gx in range(COLS)], over any duplicate-free list of
    columns. *)
Lemma grow_columns_spec (now : Q) (cols : list Z) :
  NoDup cols -> (forall a, a ∈ cols -> 0 <= a < COLS) ->
  forall s e,
    grid_ok (grid s) -> crops_grow (grid s) ->
    exists s' e',
      for_each cols
        (fun gx => for_each (range ROWS) (grow_cell now gx))
        (s, e) = Ok (s', e')
      /\ grid_ok (grid s')
      /\ (forall a b t, in_field a b -> grid_get (grid s) a b = Ok t ->
            grid_get (grid s') a b
            = Ok (if decide (a ∈ cols) then grown now t else t))
      /\ (forall P, (forall t, P t -> P (grown now t)) ->
            Forall (Forall P) (grid s) -> Forall (Forall P) (grid s'))
      /\ same_player s s'
      /\ exists new,
           rabbits s' = rabbits s ++ new
           /\ length new
              = sum_over
                  (fun a => sum_over (fun b => if ripens_at now (grid s) a b
                                               then 1%nat else O)
                                     (range ROWS)) cols
           /\ Forall rabbit_in_field new.
Proof.
  intros Hnd. induction Hnd as [|a0 cols Hnotin Hnd IH]; intros Hcols s e Hok Hcg.
  - exists s, e. cbn [for_each sum_over]. repeat split; auto; try apply Hok.
    no_new.
  - assert (Ha0 : 0 <= a0 < COLS) by apply Hcols, list_elem_of_here.
    destruct (grow_column_spec now a0 (range ROWS) Ha0 (NoDup_seqZ _ _)
                (fun b Hb => proj1 (range_elem ROWS b) Hb) s e Hok Hcg)
      as (s1 & e1 & Hrun1 & Hok1 & Hcells1 & HP1 & Hsame1
          & new1 & Hrab1 & Hlen1 & Hnew1).
    assert (Hcg1 : crops_grow (grid s1)).
    { apply HP1; [|exact Hcg]. intros t Ht. cbv beta. intros c.
      rewrite grown_crop. apply Ht. }
    destruct (IH (fun a Ha => Hcols a (list_elem_of_further _ _ _ Ha))
                 s1 e1 Hok1 Hcg1)
      as (s' & e' & Hrun & Hok' & Hcells & HP & Hsame & new & Hrab & Hlen & Hnew).
    exists s', e'. cbn [for_each]. rewrite Hrun1. cbn [bind].
    split; [exact Hrun|]. split; [exact Hok'|]. split; [|split; [|split]].
    + intros a b t Hin Ht.
      rewrite (Hcells a b _ Hin (Hcells1 a b t Hin Ht)).
      assert (Hb : b ∈ range ROWS) by (apply range_elem, Hin).
      destruct (decide (a = a0)) as [->|Hne].
      * destruct (decide (a0 = a0 /\ b ∈ range ROWS)) as [_|H];
          [|exfalso; apply H; now split].
        destruct (decide (a0 ∈ cols)) as [H|_]; [contradiction|].
        destruct (decide (a0 ∈ a0 :: cols)) as [_|H]; [reflexivity|].
        exfalso. apply H, list_elem_of_here.
      * destruct (decide (a = a0 /\ b ∈ range ROWS)) as [[H _]|_];
          [contradiction|].
        destruct (decide (a ∈ cols)) as [H|H];
          destruct (decide (a ∈ a0 :: cols)) as [H'|H']; try reflexivity.
        -- exfalso. apply H'. now apply list_elem_of_further.
        -- exfalso. apply elem_of_cons in H' as [->|H']; contradiction.
    + intros P HPg HPs. apply HP; [exact HPg|]. now apply HP1.
    + eapply same_player_trans; eassumption.
    + exists (new1 ++ new). split; [|split; [|now apply Forall_app]].
      * rewrite Hrab, Hrab1. now rewrite app_assoc.
      * rewrite length_app, Hlen1, Hlen. cbn [sum_over]. f_equal.
        apply sum_over_ext. intros a Ha.
        apply sum_over_ext. intros b Hb. unfold ripens_at.
        assert (Hin : in_field a b).
        { split; [apply Hcols; now apply list_elem_of_further
                 | now apply range_elem]. }
        destruct (grid_get_total (grid s) a b Hok Hin) as [t Ht].
        rewrite (Hcells1 a b t Hin Ht), Ht.
        destruct (decide (a = a0 /\ b ∈ range ROWS)) as [[-> _]|_];
          [contradiction | reflexivity].
Qed.

(** [update_growth] on a well-formed grid: no exception; every tile is
    advanced once; one rabbit is appended per tile that reaches stage 3;
    nothing else changes. *)
Lemma update_growth_spec (now : Q) (s : Game) (e : Env) :
  grid_ok (grid s) -> crops_grow (grid s) ->
  exists s' e',
    update_growth now (s, e) = Ok (s', e')
    /\ grid_ok (grid s')
    /\ (forall a b t, in_field a b -> grid_get (grid s) a b = Ok t ->
          grid_get (grid s') a b = Ok (grown now t))
    /\ (forall P, (forall t, P t -> P (grown now t)) ->
          Forall (Forall P) (grid s) -> Forall (Forall P) (grid s'))
    /\ same_player s s'
    /\ exists new, rabbits s' = rabbits s ++ new
                   /\ length new = ripening now (grid s)
                   /\ Forall rabbit_in_field new.
Proof.
  intros Hok Hcg.
  destruct (grow_columns_spec now (range COLS) (NoDup_seqZ _ _)
              (fun a Ha => proj1 (range_elem COLS a) Ha) s e Hok Hcg)
    as (s' & e' & Hrun & Hok' & Hcells & HP & Hsame & new & Hrab & Hlen & Hnew).
  exists s', e'. unfold update_growth.
  split; [exact Hrun|]. split; [exact Hok'|]. split; [|now eauto 6].
  intros a b t Hin Ht. rewrite (Hcells a b t Hin Ht).
  destruct (decide (a ∈ range COLS)) as [_|H]; [reflexivity|].
  exfalso. apply H, range_elem, Hin.
Qed.

(** ** The rabbit update *)

(** A tile a rabbit eats: it holds a crop at stage 3. *)
Definition ripe (t : Tile) : bool :=
  match crop t with
  | Some _ => stage t =? 3
  | None => false
  end.

(** [g'] is [g] with some tiles reset to [Tile()]. *)
Definition munched (g g' : Grid) : Prop :=
  forall a b, in_field a b ->
    grid_get g' a b = grid_get g a b \/ grid_get g' a b = Ok Tile0.

Lemma munched_refl (g : Grid) : munched g g.
Proof. intros a b _. now left. Qed.

Lemma munched_trans (g1 g2 g3 : Grid) :
  munched g1 g2 -> munched g2 g3 -> munched g1 g3.
Proof.
  intros H12 H23 a b Hin.
  destruct (H23 a b Hin) as [H|H]; [|now right].
  rewrite H. now apply H12.
Qed.

Lemma munched_empty (g g' : Grid) (a b : Z) :
  munched g g' -> in_field a b ->
  grid_get g a b = Ok Tile0 -> grid_get g' a b = Ok Tile0.
Proof. intros H Hin Hg. destruct (H a b Hin) as [H1|H1]; congruence. Qed.

Lemma hop_in_field (now : Q) (r : Rabbit) (e : Env) :
  rabbit_in_field r -> rabbit_in_field (fst (hop now r e)).
Proof.
  intros Hr. unfold hop.
  destruct (Qle_bool (next_move r) now); [|exact Hr].
  destruct (choice (0, -1) HOPS e) as [[dx dy] e'].
  unfold rabbit_in_field, in_field, COLS, ROWS. simpl.
  split; apply Z.mod_pos_bound; lia.
Qed.

Lemma hop_stay (now : Q) (r : Rabbit) (e : Env) :
  Qle_bool (next_move r) now = false -> hop now r e = (r, e).
Proof. intros H. unfold hop. now rewrite H. Qed.

Lemma munch_spec (r : Rabbit) (g : Grid) (t : Tile) :
  grid_ok g -> rabbit_in_field r ->
  grid_get g (rabbit_x r) (rabbit_y r) = Ok t ->
  exists g',
    munch r g = Ok g'
    /\ grid_ok g'
    /\ grid_get g' (rabbit_x r) (rabbit_y r) = Ok (if ripe t then Tile0 else t)
    /\ (forall a b, in_field a b -> (a, b) <> (rabbit_x r, rabbit_y r) ->
          grid_get g' a b = grid_get g a b)
    /\ (forall P, P Tile0 -> Forall (Forall P) g -> Forall (Forall P) g').
Proof.
  intros Hok Hin Hget. unfold munch, ripe. rewrite Hget. cbn [bind].
  destruct (crop t) as [c|]; [destruct (stage t =? 3)|].
  - destruct (grid_set_spec g (rabbit_x r) (rabbit_y r) Tile0 Hok Hin)
      as (g' & Hset & Hok' & Hget' & Hframe).
    exists g'. repeat split; auto; try apply Hok'.
    intros P HP0 HP. eapply grid_set_Forall; eassumption.
  - exists g. repeat split; auto; apply Hok.
  - exists g. repeat split; auto; apply Hok.
Qed.

Lemma munch_munched (r : Rabbit) (g g' : Grid) (t : Tile) :
  grid_get g (rabbit_x r) (rabbit_y r) = Ok t ->
  grid_get g' (rabbit_x r) (rabbit_y r) = Ok (if ripe t then Tile0 else t) ->
  (forall a b, in_field a b -> (a, b) <> (rabbit_x r, rabbit_y r) ->
     grid_get g' a b = grid_get g a b) ->
  munched g g'.
Proof.
  intros Hget Hget' Hframe a b Hin.
  destruct (decide ((a, b) = (rabbit_x r, rabbit_y r))) as [[= -> ->]|Hne].
  - rewrite Hget', Hget. destruct (ripe t); auto.
  - left. now apply Hframe.
Qed.

(** The loop of [update_rabbits] on a well-formed grid with all rabbits in
    the field. *)
Lemma rabbits_loop_spec (now : Q) (rs : list Rabbit) :
  Forall rabbit_in_field rs ->
  forall g e, grid_ok g ->
    exists rs' g' e',
      rabbits_loop now rs g e = Ok (rs', g', e')
      /\ grid_ok g'
      /\ munched g g'
      /\ (forall P, P Tile0 -> Forall (Forall P) g -> Forall (Forall P) g')
      /\ length rs' = length rs
      /\ Forall rabbit_in_field rs'
      /\ (forall i r, rs !! i = Some r ->
            Qle_bool (next_move r) now = false ->
            rs' !! i = Some r
            /\ forall t, grid_get g (rabbit_x r) (rabbit_y r) = Ok t ->
                 ripe t = true ->
                 grid_get g' (rabbit_x r) (rabbit_y r) = Ok Tile0)
      /\ (forall r' t, r' ∈ rs' ->
            grid_get g' (rabbit_x r') (rabbit_y r') = Ok t -> ripe t = false).
Proof.
  induction 1 as [|r rs Hr Hrs IH]; intros g e Hok.
  - exists [], g, e. cbn [rabbits_loop].
    split; [reflexivity|]. split; [exact Hok|].
    split; [apply munched_refl|]. split; [auto|]. split; [reflexivity|].
    split; [constructor|]. split.
    + intros i r H. discriminate.
    + intros r' t H. now apply elem_of_nil in H.
  - cbn [rabbits_loop]. unfold rabbit_step.
    pose proof (hop_in_field now r e Hr) as Hin1.
    pose proof (hop_stay now r e) as Hstay.
    destruct (hop now r e) as [r1 e1]. cbn [fst] in Hin1.
    destruct (grid_get_total g _ _ Hok Hin1) as [t1 Ht1].
    destruct (munch_spec r1 g t1 Hok Hin1 Ht1)
      as (g1 & Hm & Hok1 & Hget1 & Hframe1 & HP1).
    pose proof (munch_munched r1 g g1 t1 Ht1 Hget1 Hframe1) as Hmu1.
    destruct (IH g1 e1 Hok1)
      as (rs' & g' & e' & Hrun & Hok' & Hmu & HP & Hlen & Hrs' & Hstill & Hnone).
    rewrite Hm. cbn [bind]. rewrite Hrun. cbn [bind].
    exists (r1 :: rs'), g', e'.
    split; [reflexivity|]. split; [exact Hok'|].
    split; [eapply munched_trans; eassumption|].
    split; [intros P HP0 HPg; apply HP; auto|].
    split; [cbn [length]; now rewrite Hlen|].
    split; [constructor; assumption|]. split.
    + intros [|i] r0 Hi Hdue.
      * cbn in Hi. injection Hi as <-.
        injection (Hstay Hdue) as -> ->. split; [reflexivity|].
        intros t Ht Hripe. apply (munched_empty g1 g'); auto.
        rewrite Hget1. assert (t1 = t) as -> by congruence.
        now rewrite Hripe.
      * cbn in Hi. destruct (Hstill i r0 Hi Hdue) as [Hsame Heat].
        split; [exact Hsame|]. intros t Ht Hripe.
        assert (Hin0 : rabbit_in_field r0).
        { rewrite Forall_forall in Hrs. apply Hrs.
          eapply list_elem_of_lookup_2; eassumption. }
        destruct (Hmu1 _ _ Hin0) as [H1|H1].
        -- apply (Heat t); [congruence | exact Hripe].
        -- apply (munched_empty g1 g'); auto.
    + intros r' t Hr' Ht. apply elem_of_cons in Hr' as [->|Hr'].
      * destruct (Hmu _ _ Hin1) as [H1|H1].
        -- rewrite H1, Hget1 in Ht. destruct (ripe t1) eqn:E;
             injection Ht as <-; [reflexivity | exact E].
        -- rewrite H1 in Ht. now injection Ht as <-.
      * eapply Hnone; eassumption.
Qed.

(** ** A grid is determined by its tiles *)

Lemma getitem_nat {A : Type} (l : list A) (n : nat) (a : A) :
  l !! n = Some a -> getitem l (Z.of_nat n) = Ok a.
Proof.
  intros H. pose proof (lookup_lt_Some _ _ _ H) as Hlt.
  unfold getitem. rewrite py_index_nonneg by lia.
  now rewrite Nat2Z.id, H.
Qed.

Lemma grid_get_nat (g : Grid) (i j : nat) (col : list Tile) (t : Tile) :
  g !! i = Some col -> col !! j = Some t ->
  grid_get g (Z.of_nat i) (Z.of_nat j) = Ok t.
Proof.
  intros Hi Hj. unfold grid_get. rewrite (getitem_nat _ _ _ Hi). cbn [bind].
  now apply getitem_nat.
Qed.

Lemma grid_ok_lookup (g : Grid) (i j : nat) (col : list Tile) (t : Tile) :
  grid_ok g -> g !! i = Some col -> col !! j = Some t ->
  in_field (Z.of_nat i) (Z.of_nat j).
Proof.
  intros [Hlen Hcols] Hi Hj.
  pose proof (lookup_lt_Some _ _ _ Hi) as Hlti.
  pose proof (lookup_lt_Some _ _ _ Hj) as Hltj.
  rewrite Forall_forall in Hcols.
  rewrite (Hcols col) in Hltj by (eapply list_elem_of_lookup_2; eassumption).
  unfold in_field. lia.
Qed.

Lemma Forall_cells (P : Tile -> Prop) (g : Grid) :
  grid_ok g ->
  (forall a b t, in_field a b -> grid_get g a b = Ok t -> P t) ->
  Forall (Forall P) g.
Proof.
  intros Hok H. apply Forall_lookup. intros i col Hi.
  apply Forall_lookup. intros j t Hj.
  apply (H (Z.of_nat i) (Z.of_nat j)).
  - eapply grid_ok_lookup; eassumption.
  - eapply grid_get_nat; eassumption.
Qed.

Lemma grid_ext (g g' : Grid) :
  grid_ok g -> grid_ok g' ->
  (forall a b, in_field a b -> grid_get g' a b = grid_get g a b) ->
  g' = g.
Proof.
  intros Hok Hok' H. apply list_eq. intros i.
  destruct (g !! i) as [col|] eqn:Hi.
  - assert (Hi' : is_Some (g' !! i)).
    { apply lookup_lt_is_Some. destruct Hok' as [-> _], Hok as [<- _].
      eapply lookup_lt_Some; eassumption. }
    destruct Hi' as [col' Hi']. rewrite Hi'. f_equal.
    assert (Hl : length col = Z.to_nat ROWS).
    { destruct Hok as [_ Hc]. rewrite Forall_forall in Hc. apply Hc.
      eapply list_elem_of_lookup_2; eassumption. }
    assert (Hl' : length col' = Z.to_nat ROWS).
    { destruct Hok' as [_ Hc]. rewrite Forall_forall in Hc. apply Hc.
      eapply list_elem_of_lookup_2; eassumption. }
    apply list_eq. intros j.
    destruct (col !! j) as [t|] eqn:Hj.
    + assert (Hj' : is_Some (col' !! j)).
      { apply lookup_lt_is_Some. rewrite Hl', <- Hl.
        eapply lookup_lt_Some; eassumption. }
      destruct Hj' as [t' Hj']. rewrite Hj'. f_equal.
      pose proof (grid_ok_lookup g i j col t Hok Hi Hj) as Hin.
      specialize (H _ _ Hin).
      rewrite (grid_get_nat g' i j col' t' Hi' Hj') in H.
      rewrite (grid_get_nat g i j col t Hi Hj) in H. congruence.
    + apply lookup_ge_None. rewrite Hl', <- Hl. now apply lookup_ge_None.
  - apply lookup_ge_None. destruct Hok' as [-> _], Hok as [<- _].
    now apply lookup_ge_None.
Qed.

Lemma getitem_map {A B : Type} (f : A -> B) (l : list A) (i : Z) (a : A) :
  getitem l i = Ok a -> getitem (List.map f l) i = Ok (f a).
Proof.
  unfold getitem. rewrite length_map.
  destruct (py_index (length l) i) as [n|]; [|discriminate].
  change (List.map f l) with (f <$> l). rewrite list_lookup_fmap.
  destruct (l !! n); [|discriminate]. now intros [= ->].
Qed.

Lemma grid_get_map (f : Tile -> Tile) (g : Grid) (a b : Z) (t : Tile) :
  grid_get g a b = Ok t ->
  grid_get (List.map (List.map f) g) a b = Ok (f t).
Proof.
  unfold grid_get. intros H. apply bind_ok in H as (col & Hc & Ht).
  rewrite (getitem_map _ _ _ _ Hc). cbn [bind]. now apply getitem_map.
Qed.

Lemma grid_ok_map (f : Tile -> Tile) (g : Grid) :
  grid_ok g -> grid_ok (List.map (List.map f) g).
Proof.
  intros [Hlen Hcols]. split; [now rewrite length_map|].
  change (List.map (List.map f) g) with (List.map f <$> g).
  apply Forall_fmap. eapply Forall_impl; [exact Hcols|].
  intros col Hc. cbn. now rewrite length_map.
Qed.

(** The grid after [update_growth]: every tile advanced. *)
Lemma update_growth_grid (now : Q) (s s' : Game) (e e' : Env) :
  grid_ok (grid s) -> crops_grow (grid s) ->
  update_growth now (s, e) = Ok (s', e') ->
  grid s' = List.map (List.map (grown now)) (grid s).
Proof.
  intros Hok Hcg Hrun.
  destruct (update_growth_spec now s e Hok Hcg)
    as (s1 & e1 & Hrun1 & Hok1 & Hcells & _).
  rewrite Hrun in Hrun1. injection Hrun1 as <- <-.
  apply grid_ext; [now apply grid_ok_map | exact Hok1 |].
  intros a b Hin.
  destruct (grid_get_total (grid s) a b Hok Hin) as [t Ht].
  rewrite (Hcells a b t Hin Ht). symmetry. now apply grid_get_map.
Qed.

(** ** Reachable states and their invariant *)

Lemma dict_get_proper (d : list (CropType * Z)) (c c' : CropType) :
  crop_eqb c c' = true -> dict_get d c = dict_get d c'.
Proof.
  intros Heq. induction d as [|[k v] d IH]; simpl; [reflexivity|].
  destruct (crop_eqb k c) eqn:E, (crop_eqb k c') eqn:E'; auto.
  - rewrite (crop_eqb_trans k c c' E Heq) in E'. discriminate.
  - apply crop_eqb_sym_true in Heq.
    rewrite (crop_eqb_trans k c' c E' Heq) in E. discriminate.
Qed.

(** The crop of a tile, if any, is an entry of [CROPS]. *)
Definition catalog_crop (t : Tile) : Prop :=
  forall c, crop t = Some c -> c ∈ CROPS.

Lemma CROPS_positive (c : CropType) :
  c ∈ CROPS -> (0 < grow_time c)%Q /\ 0 < seed_cost c /\ 0 < reward c.
Proof.
  unfold CROPS. rewrite !elem_of_cons, elem_of_nil.
  intros H. repeat destruct H as [->|H]; try contradiction;
    cbn; repeat split; reflexivity.
Qed.

Lemma CROP_BY_KEY_catalog (k : string) (c : CropType) :
  CROP_BY_KEY k = Some c -> c ∈ CROPS.
Proof.
  unfold CROP_BY_KEY. intros H. apply find_some in H as [H _].
  now apply list_elem_of_In.
Qed.

Record Inv (s : Game) : Prop := mkInv {
  inv_coins    : 0 <= coins s;
  inv_grid     : grid_ok (grid s);
  inv_cursor   : in_field (x s) (y s);
  inv_selected : selected s ∈ CROPS;
  inv_tiles    : Forall (Forall catalog_crop) (grid s);
  inv_log      : forall c, c ∈ CROPS ->
                   exists n, dict_get (harvest_log s) c = Ok n /\ 0 <= n;
  inv_rabbits  : Forall rabbit_in_field (rabbits s)
}.

(** States the game can be in: [__init__], then any sequence of key
    presses, growth updates and rabbit updates that raise no exception, at
    any times and with any random draws. *)
Inductive reachable : Game -> Prop :=
| reach_init : reachable init
| reach_key (now : Q) (k : Key) (s s' : Game) :
    reachable s -> handle_key now k s = Ok s' -> reachable s'
| reach_growth (now : Q) (s s' : Game) (e e' : Env) :
    reachable s -> update_growth now (s, e) = Ok (s', e') -> reachable s'
| reach_rabbits (now : Q) (s s' : Game) (e e' : Env) :
    reachable s -> update_rabbits now (s, e) = Ok (s', e') -> reachable s'.

Lemma catalog_grows (g : list (list Tile)) :
  Forall (Forall catalog_crop) g -> crops_grow g.
Proof.
  unfold crops_grow. intros H.
  eapply Forall_impl; [exact H|]. intros col Hcol.
  eapply Forall_impl; [exact Hcol|]. intros t Ht c Hc.
  now apply CROPS_positive, Ht.
Qed.

Lemma cursor_update_Forall (P : Tile -> Prop) (s s' : Game) (t' : Tile) :
  same_but_cursor_tile s s' ->
  grid_get (grid s') (x s) (y s) = Ok t' -> P t' ->
  Forall (Forall P) (grid s) -> Forall (Forall P) (grid s').
Proof.
  intros (_ & _ & _ & _ & Hok' & Hframe) Hget Ht' HP.
  apply Forall_cells; [exact Hok'|]. intros a b t Hin Ht.
  destruct (decide ((a, b) = (x s, y s))) as [[= -> ->]|Hne].
  - congruence.
  - rewrite Hframe in Ht by assumption. eapply grid_get_Forall; eassumption.
Qed.

Lemma Inv_init : Inv init.
Proof.
  split.
  - cbn. lia.
  - split; [reflexivity|]. cbn. repeat constructor.
  - unfold in_field, COLS, ROWS. cbn. lia.
  - cbn. apply list_elem_of_here.
  - cbn. repeat (constructor; try (intros c H; discriminate)).
  - unfold CROPS. intros c. rewrite !elem_of_cons, elem_of_nil.
    intros H. repeat destruct H as [->|H]; try contradiction;
      exists 0; split; (reflexivity || lia).
  - constructor.
Qed.

Lemma Inv_action (now : Q) (s s' : Game) :
  Inv s -> handle_action now s = Ok s' -> Inv s'.
Proof.
  intros [Hcoins Hgrid Hcur Hsel Htiles Hlog Hrab] Hrun.
  destruct (grid_get_total _ _ _ Hgrid Hcur) as [t Ht].
  pose proof (grid_get_Forall _ _ _ _ _ Ht Htiles) as Hcat.
  destruct (crop t) as [c|] eqn:Hc.
  - destruct (decide (stage t = 3)) as [Hst|Hst].
    + pose proof (Hcat c Hc) as Hcc.
      destruct (Hlog c Hcc) as (n & Hn & Hn0).
      destruct (harvest_ripe now s t Hgrid Hcur Ht c n Hc Hst Hn)
        as (s1 & Hrun1 & Hcoins1 & Hlog1 & Hlogne & Hget1 & Hsame).
      rewrite Hrun in Hrun1. injection Hrun1 as <-.
      pose proof Hsame as (Hx & Hy & Hs & Hr & Hok' & _).
      split; try congruence.
      * rewrite Hcoins1. pose proof (CROPS_positive c Hcc). lia.
      * eapply cursor_update_Forall; eauto. intros c0 H0. discriminate.
      * intros c' Hc'. destruct (crop_eqb c c') eqn:E.
        -- exists (n + 1). rewrite <- (dict_get_proper _ c c' E).
           split; [exact Hlog1 | lia].
        -- rewrite (Hlogne c' E). now apply Hlog.
    + rewrite (action_unripe now s t Ht c Hc Hst) in Hrun.
      injection Hrun as <-. now split.
  - destruct (decide (seed_cost (selected s) <= coins s)) as [Hle|Hgt].
    + destruct (plant_affordable now s t Hgrid Hcur Ht Hc Hle)
        as (s1 & Hrun1 & Hcoins1 & Hget1 & Hlog1 & Hsame).
      rewrite Hrun in Hrun1. injection Hrun1 as <-.
      pose proof Hsame as (Hx & Hy & Hs & Hr & Hok' & _).
      split; try congruence.
      * lia.
      * eapply cursor_update_Forall; eauto.
        intros c0 [= <-]. exact Hsel.
      * now rewrite Hlog1.
    + rewrite (plant_unaffordable now s t Ht Hc) in Hrun by lia.
      injection Hrun as <-. now split.
Qed.

Lemma Inv_fertilizer (now : Q) (s s' : Game) :
  Inv s -> handle_fertilizer now s = Ok s' -> Inv s'.
Proof.
  intros HI Hrun. pose proof HI as [Hcoins Hgrid Hcur Hsel Htiles Hlog Hrab].
  destruct (grid_get_total _ _ _ Hgrid Hcur) as [t Ht].
  destruct (decide (coins s < 5)) as [Hpoor|Hrich].
  { rewrite (fertilize_poor now s Hpoor) in Hrun. now injection Hrun as <-. }
  destruct (crop t) as [c|] eqn:Hc.
  2:{ rewrite (fertilize_empty now s t Ht Hc) in Hrun.
      now injection Hrun as <-. }
  destruct (fertilized t) eqn:Hf.
  { rewrite (fertilize_again now s t Ht Hf) in Hrun.
    now injection Hrun as <-. }
  destruct (fertilize_fresh now s t Hgrid Hcur Ht c Hc Hf ltac:(lia))
    as (s1 & Hrun1 & Hcoins1 & Hget1 & Hlog1 & Hsame).
  rewrite Hrun in Hrun1. injection Hrun1 as <-.
  pose proof Hsame as (Hx & Hy & Hs & Hr & Hok' & _).
  split; try congruence.
  - lia.
  - eapply cursor_update_Forall; eauto.
    intros c0 H0. cbn in H0.
    eapply (grid_get_Forall _ _ _ _ _ Ht Htiles). exact H0.
  - now rewrite Hlog1.
Qed.

Lemma Inv_key (now : Q) (k : Key) (s s' : Game) :
  Inv s -> handle_key now k s = Ok s' -> Inv s'.
Proof.
  intros HI Hrun. pose proof HI as [Hcoins Hgrid Hcur Hsel Htiles Hlog Hrab].
  assert (Hmod : forall v, 0 <= v mod COLS < COLS /\ 0 <= v mod ROWS < ROWS)
    by (intros v; unfold COLS, ROWS; split; apply Z.mod_pos_bound; lia).
  destruct k; cbn [handle_key] in Hrun.
  - now injection Hrun as <-.
  - injection Hrun as <-. split; try assumption.
    split; [apply Hcur | apply Hmod].
  - injection Hrun as <-. split; try assumption.
    split; [apply Hcur | apply Hmod].
  - injection Hrun as <-. split; try assumption.
    split; [apply Hmod | apply Hcur].
  - injection Hrun as <-. split; try assumption.
    split; [apply Hmod | apply Hcur].
  - eapply Inv_action; eassumption.
  - eapply Inv_fertilizer; eassumption.
  - destruct (CROP_BY_KEY key_name) as [c|] eqn:E; injection Hrun as <-.
    + split; try assumption. cbn. eapply CROP_BY_KEY_catalog; eassumption.
    + exact HI.
Qed.

Lemma Inv_growth (now : Q) (s s' : Game) (e e' : Env) :
  Inv s -> update_growth now (s, e) = Ok (s', e') -> Inv s'.
Proof.
  intros [Hcoins Hgrid Hcur Hsel Htiles Hlog Hrab] Hrun.
  destruct (update_growth_spec now s e Hgrid (catalog_grows _ Htiles))
    as (s1 & e1 & Hrun1 & Hok1 & Hcells & HP & (Hx & Hy & Hs & Hc & Hl)
        & new & Hnew & _ & Hin).
  rewrite Hrun in Hrun1. injection Hrun1 as <- <-.
  split; try congruence.
  - apply HP; [|exact Htiles]. intros t Ht c. rewrite grown_crop. apply Ht.
  - now rewrite Hl.
  - rewrite Hnew. now apply Forall_app.
Qed.

Lemma Inv_rabbits (now : Q) (s s' : Game) (e e' : Env) :
  Inv s -> update_rabbits now (s, e) = Ok (s', e') -> Inv s'.
Proof.
  intros [Hcoins Hgrid Hcur Hsel Htiles Hlog Hrab] Hrun.
  destruct (rabbits_loop_spec now (rabbits s) Hrab (grid s) e Hgrid)
    as (rs' & g' & e1 & Hrun1 & Hok' & _ & HP & _ & Hrs' & _).
  unfold update_rabbits in Hrun. rewrite Hrun1 in Hrun. cbn in Hrun.
  injection Hrun as <- <-.
  split; cbn; try assumption.
  apply HP; [|exact Htiles]. intros c H. discriminate.
Qed.

Lemma reachable_Inv (s : Game) : reachable s -> Inv s.
Proof.
  induction 1;
    eauto using Inv_init, Inv_key, Inv_growth, Inv_rabbits.
Qed.

(** ** One tick stays within the reachable states *)

Lemma handle_input_reachable (now : Q) (events : list Event) :
  forall s s', reachable s -> handle_input now events s = Ok s' ->
               reachable s'.
Proof.
  unfold handle_input.
  induction events as [|ev events IH]; intros s s' Hs Hrun; cbn in Hrun.
  - now injection Hrun as <-.
  - apply bind_ok in Hrun as (s1 & Hev & Hrest).
    apply (IH s1 s'); [|exact Hrest].
    destruct ev; cbn in Hev.
    + discriminate.
    + eapply reach_key; eassumption.
    + now injection Hev as <-.
Qed.

Lemma tick_reachable (events : list Event) (s s' : Game) (e e' : Env) :
  reachable s -> tick events (s, e) = Ok (s', e') -> reachable s'.
Proof.
  intros Hs Hrun. unfold tick, time_time in Hrun.
  apply bind_ok in Hrun as (s1 & Hin & Hrun).
  apply bind_ok in Hrun as ([s2 e2] & Hgr & Hrab).
  eapply reach_rabbits; [|exact Hrab].
  eapply reach_growth; [|exact Hgr].
  eapply handle_input_reachable; eassumption.
Qed.

Lemma run_reachable (arrivals : list (list Event)) :
  forall pending s s' e e',
    reachable s -> run arrivals pending (s, e) = Ok (s', e') -> reachable s'.
Proof.
  induction arrivals as [|a rest IH]; intros pending s s' e e' Hs Hrun;
    cbn [run] in Hrun.
  - now injection Hrun as <- <-.
  - apply bind_ok in Hrun as ([s1 e1] & Htick & Hrest).
    eapply IH; [|exact Hrest]. eapply tick_reachable; eassumption.
Qed.

(** ** No exception from a reachable state *)






(** ** Stage 3 in terms of elapsed time *)

Lemma new_stage_spec (now : Q) (c : CropType) (t : Tile) :
  (0 < grow_time c)%Q -> (0 <= now - planted_at t)%Q ->
  new_stage now c t = spec_stage (grow_time c) (now - planted_at t).
Proof.
  intros Hg Ht. unfold new_stage, spec_stage.
  now rewrite py_int_floor by (apply ratio_nonneg; assumption).
Qed.

(** Stage 3 is reached at three quarters of the growing time. *)
Lemma spec_stage_three (g t : Q) :
  (0 < g)%Q -> spec_stage g t = 3 <-> (3 / 4 * g <= t)%Q.
Proof.
  intros Hg. unfold spec_stage.
  assert (Hq : (3 <= t / g * 4 <-> 3 / 4 * g <= t)%Q).
  { split; intros H.
    - rewrite <- (Qmult_div_r t g) by lra.
      rewrite (Qmult_comm (3 / 4) g). apply Qmult_le_l; [exact Hg|].
      set (q := (t / g)%Q) in *. clearbody q.
      change (3 / 4)%Q with (3 # 4)%Q in *. lra.
    - assert (Hd : (3 / 4 <= t / g)%Q)
        by (apply Qle_shift_div_l; [exact Hg | exact H]).
      set (q := (t / g)%Q) in *. clearbody q.
      change (3 / 4)%Q with (3 # 4)%Q in *. lra. }
  split; intros H.
  - apply Hq. destruct (Qlt_le_dec (t / g * 4) 3) as [Hlt|Hge]; [|exact Hge].
    exfalso. pose proof (Qfloor_le (t / g * 4)) as Hfl.
    assert (Hz : (inject_Z (Qfloor (t / g * 4)) < inject_Z 3)%Q)
      by (change (inject_Z 3) with 3%Q; lra).
    rewrite <- Zlt_Qlt in Hz. lia.
  - apply Hq in H. apply Qfloor_resp_le in H.
    change (Qfloor 3) with 3 in H. lia.
Qed.

(** ** The growth update in closed form *)

Lemma update_growth_result (now : Q) (s : Game) (e : Env) :
  grid_ok (grid s) -> crops_grow (grid s) ->
  exists new e',
    update_growth now (s, e)
    = Ok (mkGame (List.map (List.map (grown now)) (grid s)) (x s) (y s)
            (selected s) (coins s) (harvest_log s) (rabbits s ++ new), e')
    /\ length new = ripening now (grid s)
    /\ Forall rabbit_in_field new.
Proof.
  intros Hok Hcg.
  destruct (update_growth_spec now s e Hok Hcg)
    as (s' & e' & Hrun & _ & _ & _ & (Hx & Hy & Hs & Hc & Hl)
        & new & Hnew & Hlen & Hin).
  exists new, e'. split; [|split; assumption].
  rewrite Hrun. f_equal. f_equal.
  pose proof (update_growth_grid now s s' e e' Hok Hcg Hrun) as Hg.
  destruct s'; cbn in *. congruence.
Qed.

Lemma length_one {A : Type} (l : list A) :
  length l = 1%nat -> exists a, l = [a].
Proof. destruct l as [|a [|b l]]; try discriminate. eauto. Qed.

(** One growth update, seen from one tile. *)
Lemma update_growth_stage (now : Q) (s : Game) (e : Env) (a b : Z)
    (tile : Tile) (c : CropType) :
  grid_ok (grid s) -> crops_grow (grid s) -> in_field a b ->
  grid_get (grid s) a b = Ok tile -> crop tile = Some c ->
  (0 <= now - planted_at tile)%Q ->
  (stage tile = 3 ->
     exists t0, (t0 <= now - planted_at tile)%Q
                /\ spec_stage (grow_time c) t0 = 3) ->
  exists s' e' tile',
    update_growth now (s, e) = Ok (s', e')
    /\ grid_ok (grid s') /\ crops_grow (grid s')
    /\ grid_get (grid s') a b = Ok tile'
    /\ crop tile' = Some c
    /\ planted_at tile' = planted_at tile
    /\ stage tile' = spec_stage (grow_time c) (now - planted_at tile)
    /\ (stage tile = 3 -> tile' = tile).
Proof.
  intros Hok Hcg Hin Hget Hc Ht Hhist.
  assert (Hg : (0 < grow_time c)%Q)
    by (eapply (grid_get_Forall _ _ _ _ _ Hget Hcg); exact Hc).
  destruct (update_growth_spec now s e Hok Hcg)
    as (s' & e' & Hrun & Hok' & Hcells & HP & _).
  exists s', e', (grown now tile).
  split; [exact Hrun|]. split; [exact Hok'|]. split.
  { apply HP; [|exact Hcg]. intros t Hpos. cbv beta. intros c0.
    rewrite grown_crop. apply Hpos. }
  split; [now apply Hcells|]. split; [now rewrite grown_crop|].
  unfold grown. rewrite Hc.
  destruct (stage tile =? 3) eqn:Hst.
  - apply Z.eqb_eq in Hst. destruct (Hhist Hst) as (t0 & Ht0 & H3).
    repeat split; auto.
    rewrite Hst. symmetry. apply Z.le_antisymm.
    + apply Z.le_min_r.
    + rewrite <- H3. now apply spec_stage_mono.
  - apply Z.eqb_neq in Hst. cbn [stage planted_at].
    repeat split; auto.
    + now apply new_stage_spec.
    + intros H. contradiction.
Qed.

(** ** Scenario states *)

(** The field with tile [t] under the cursor at [(0, 0)] and every other
    tile empty. *)
Definition field_with (t : Tile) : list (list Tile) :=
  (t :: replicate 5 Tile0) :: replicate 7 (replicate 6 Tile0).

(** [init] after selecting seed ["4"] and planting at time 0. *)
Definition bean_planted : Game :=
  {| grid := field_with (planted Bean 0 Tile0);
     x := 0; y := 0; selected := Bean; coins := 22;
     harvest_log := List.map (fun c => (c, 0)) CROPS;
     rabbits := [] |}.

(** The same field with the bean at stage 3 and rabbits [rs]. *)
Definition bean_ripe (rs : list Rabbit) : Game :=
  {| grid := field_with (mkTile (Some Bean) 0 3 false (0 + 0.3) 0);
     x := 0; y := 0; selected := Bean; coins := 22;
     harvest_log := List.map (fun c => (c, 0)) CROPS;
     rabbits := rs |}.

(** A generator that always answers 0 and a clock stopped at 0. *)
Definition quiet : Env := mkEnv (fun _ => 0) (fun _ => 0%Q).

(** A generator that always answers 3 and a clock stopped at 149. *)
Definition elsewhere : Env := mkEnv (fun _ => 3) (fun _ => 149%Q).

Lemma field_with_ok (t : Tile) : grid_ok (field_with t).
Proof. split; [reflexivity | repeat constructor]. Qed.

Lemma field_with_grows (t : Tile) :
  (forall c, crop t = Some c -> (0 < grow_time c)%Q) ->
  crops_grow (field_with t).
Proof.
  intros Ht. unfold crops_grow, field_with. cbn.
  repeat (constructor; try (intros c H; discriminate)). exact Ht.
Qed.

(** A crop with a growing time of 200 seconds (none of [CROPS]). *)
Definition crop200 : CropType := mkCrop "7" "Slow" [] 200 1 1.

(** A field with that crop under the cursor, planted at time 0, not
    fertilized, its stored stage being [st]. *)
Definition slow_planted (st : Z) : Game :=
  {| grid := field_with (mkTile (Some crop200) 0 st false (0 + 0.3) 0);
     x := 0; y := 0; selected := crop200; coins := 25;
     harvest_log := [(crop200, 0)];
     rabbits := [] |}.

(** The stage of that tile, possibly fertilized and with [planted_at]
    shifted to [p], after a growth update at [now]. *)
Lemma slow_growth (s : Game) (st : Z) (p fl sp : Q) (f : bool) (now : Q)
    (e : Env) :
  grid s = field_with (mkTile (Some crop200) p st f fl sp) ->
  st <> 3 -> (0 <= now - p)%Q ->
  exists s2 e2 t2,
    update_growth now (s, e) = Ok (s2, e2)
    /\ grid_get (grid s2) 0 0 = Ok t2
    /\ (stage t2 = 3 <-> (150 <= now - p)%Q).
Proof.
  intros Hg Hst Hp.
  set (t := mkTile (Some crop200) p st f fl sp) in *.
  destruct (update_growth_spec now s e) as (s2 & e2 & Hrun & _ & Hcells & _).
  { rewrite Hg. apply field_with_ok. }
  { rewrite Hg. apply field_with_grows. intros c [= <-]. reflexivity. }
  exists s2, e2, (grown now t). split; [exact Hrun|]. split.
  - apply Hcells; [unfold in_field, COLS, ROWS; lia | now rewrite Hg].
  - unfold grown. cbn [crop t stage].
    destruct (st =? 3) eqn:E; [apply Z.eqb_eq in E; contradiction|].
    cbn [stage]. rewrite new_stage_spec; [|reflexivity | exact Hp].
    cbn [grow_time crop200 planted_at t].
    rewrite spec_stage_three by reflexivity.
    change (3 / 4)%Q with (3 # 4)%Q. split; intros H; lra.
Qed.

(* ================================================================== *)
(** * The claims *)

(** C1.  Growth rule.  Take any tile of a well-formed grid that holds a crop
    [c] (growing times positive), with elapsed time [t = now - planted_at]
    non-negative, and whose stored stage, if it is already 3, was reached at
    an elapsed time not after [t].  Then [update_growth] returns and the
    tile's stage afterwards is [min(floor(t / grow_time * 4), 3)], a value
    between 0 and 3; a tile already at stage 3 is left exactly as it is.  A
    second update at a time [later >= now] again gives the stage of the
    rule, which is not below the stage after the first update, and leaves
    the tile as it was if that stage was 3.  As a function of the elapsed
    time the rule is non-decreasing. *)
Theorem C1_growth_rule (now later : Q) (s : Game) (e : Env) (a b : Z)
    (tile : Tile) (c : CropType) (t1 t2 : Q) :
  grid_ok (grid s) -> crops_grow (grid s) -> in_field a b ->
  grid_get (grid s) a b = Ok tile -> crop tile = Some c ->
  (0 <= now - planted_at tile)%Q ->
  (stage tile = 3 ->
     exists t0, (t0 <= now - planted_at tile)%Q
                /\ spec_stage (grow_time c) t0 = 3) ->
  (now <= later)%Q -> (t1 <= t2)%Q ->
  exists s' e' tile',
    update_growth now (s, e) = Ok (s', e')
    /\ grid_get (grid s') a b = Ok tile'
    /\ crop tile' = Some c
    /\ planted_at tile' = planted_at tile
    /\ stage tile' = spec_stage (grow_time c) (now - planted_at tile)
    /\ 0 <= stage tile' <= 3
    /\ (stage tile = 3 -> tile' = tile)
    /\ spec_stage (grow_time c) t1 <= spec_stage (grow_time c) t2
    /\ exists s'' e'' tile'',
         update_growth later (s', e') = Ok (s'', e'')
         /\ grid_get (grid s'') a b = Ok tile''
         /\ stage tile''
            = spec_stage (grow_time c) (later - planted_at tile)
         /\ stage tile' <= stage tile''
         /\ (stage tile' = 3 -> tile'' = tile').
Proof.
  intros Hok Hcg Hin Hget Hc Ht Hhist Hlater Ht12.
  assert (Hg : (0 < grow_time c)%Q)
    by (eapply (grid_get_Forall _ _ _ _ _ Hget Hcg); exact Hc).
  destruct (update_growth_stage now s e a b tile c Hok Hcg Hin Hget Hc Ht Hhist)
    as (s' & e' & tile' & Hrun & Hok' & Hcg' & Hget' & Hc' & Hp' & Hst' & Hfix).
  destruct (update_growth_stage later s' e' a b tile' c Hok' Hcg' Hin Hget' Hc')
    as (s'' & e'' & tile'' & Hrun2 & _ & _ & Hget2 & _ & _ & Hst2 & Hfix2).
  { rewrite Hp'. lra. }
  { intros H3. exists (now - planted_at tile)%Q. split; [rewrite Hp'; lra|].
    rewrite <- Hst'. exact H3. }
  exists s', e', tile'. repeat split; auto.
  - rewrite Hst'. now apply spec_stage_range.
  - rewrite Hst'. now apply spec_stage_range.
  - now apply spec_stage_mono.
  - exists s'', e'', tile''. split; [exact Hrun2|]. split; [exact Hget2|].
    rewrite Hp' in Hst2. split; [exact Hst2|]. split; [|exact Hfix2].
    rewrite Hst', Hst2. apply spec_stage_mono; [exact Hg | lra].
Qed.

(** C1, instance: the bean planted at time 0, updated at times 100 and
    120. *)
Lemma C1_growth_rule_witness :
  exists s' e' tile' s'' e'' tile'',
    update_growth 100 (bean_planted, quiet) = Ok (s', e')
    /\ grid_get (grid s') 0 0 = Ok tile'
    /\ stage tile' = spec_stage 150 (100 - 0)
    /\ update_growth 120 (s', e') = Ok (s'', e'')
    /\ grid_get (grid s'') 0 0 = Ok tile''
    /\ stage tile' <= stage tile''.
Proof.
  destruct (C1_growth_rule 100 120 bean_planted quiet 0 0
              (planted Bean 0 Tile0) Bean 100 120)
    as (s' & e' & tile' & H1 & H2 & _ & _ & H3 & _ & _ & _
        & s'' & e'' & tile'' & H4 & H5 & _ & H6 & _).
  - apply field_with_ok.
  - apply field_with_grows. intros c [= <-]. reflexivity.
  - unfold in_field, COLS, ROWS. lia.
  - reflexivity.
  - reflexivity.
  - vm_compute. discriminate.
  - cbn. intros H. discriminate.
  - vm_compute. discriminate.
  - vm_compute. discriminate.
  - exists s', e', tile', s'', e'', tile''. repeat split; assumption.
Defined.



(** C3.  Plant-or-harvest action.  With the cursor on a tile of a
    well-formed grid:
    - if the tile holds crop [c] at stage 3 (and [c] has a counter [n]), the
      action adds exactly [reward c] coins, makes the counter [n + 1], keeps
      the counters of the other crops and resets the tile to [Tile()];
    - if the tile is empty, the action is the plant action: it plants when
      the seed is affordable and does nothing otherwise, and in neither case
      touches the harvest log;
    - if the tile holds a crop at a stage below 3, the state is unchanged. *)
Theorem C3_action_harvest (now : Q) (s : Game) (tile : Tile) :
  grid_ok (grid s) -> in_field (x s) (y s) ->
  grid_get (grid s) (x s) (y s) = Ok tile ->
  (forall c n, crop tile = Some c -> stage tile = 3 ->
     dict_get (harvest_log s) c = Ok n ->
     exists s', handle_action now s = Ok s'
       /\ coins s' = coins s + reward c
       /\ dict_get (harvest_log s') c = Ok (n + 1)
       /\ (forall c', crop_eqb c c' = false ->
             dict_get (harvest_log s') c' = dict_get (harvest_log s) c')
       /\ grid_get (grid s') (x s) (y s) = Ok Tile0)
  /\ (crop tile = None ->
      (seed_cost (selected s) <= coins s ->
         exists s', handle_action now s = Ok s'
           /\ grid_get (grid s') (x s) (y s)
              = Ok (planted (selected s) now tile)
           /\ coins s' = coins s - seed_cost (selected s)
           /\ harvest_log s' = harvest_log s)
      /\ (coins s < seed_cost (selected s) -> handle_action now s = Ok s))
  /\ (forall c, crop tile = Some c -> stage tile < 3 ->
        handle_action now s = Ok s).
Proof.
  intros Hok Hcur Hget. split; [|split].
  - intros c n Hc Hst Hn.
    destruct (harvest_ripe now s tile Hok Hcur Hget c n Hc Hst Hn)
      as (s' & H1 & H2 & H3 & H4 & H5 & _).
    exists s'. auto.
  - intros Hc. split.
    + intros Hle.
      destruct (plant_affordable now s tile Hok Hcur Hget Hc Hle)
        as (s' & H1 & H2 & H3 & H4 & _).
      exists s'. auto.
    + intros Hlt. eapply plant_unaffordable; eassumption.
  - intros c Hc Hst. eapply action_unripe; [eassumption.. | lia].
Qed.

(** C3, instance: harvesting the ripe bean. *)
Lemma C3_action_harvest_witness :
  exists s', handle_action 150 (bean_ripe []) = Ok s'
    /\ coins s' = 22 + 8
    /\ dict_get (harvest_log s') Bean = Ok 1
    /\ grid_get (grid s') 0 0 = Ok Tile0.
Proof.
  destruct (C3_action_harvest 150 (bean_ripe [])
              (mkTile (Some Bean) 0 3 false (0 + 0.3) 0))
    as (H & _).
  - apply field_with_ok.
  - unfold in_field, COLS, ROWS. cbn. lia.
  - reflexivity.
  - destruct (H Bean 0) as (s' & H1 & H2 & H3 & _ & H5);
      [reflexivity | reflexivity | reflexivity |].
    exists s'. repeat split; assumption.
Defined.

(** C4 as stated fails on an occupied tile.  Plant the bean at time 0 and
    let it grow until time 149 (the rabbit it triggers lands on tile
    [(3, 3)]): the same command on the now occupied tile harvests it, so
    coins, harvest log and grid all change. *)
Lemma C4_counterexample :
  exists s e' t c s',
    update_growth 149 (bean_planted, elsewhere) = Ok (s, e')
    /\ grid_get (grid s) (x s) (y s) = Ok t
    /\ crop t = Some c
    /\ handle_action 150 s = Ok s'
    /\ coins s' <> coins s
    /\ grid s' <> grid s
    /\ harvest_log s' <> harvest_log s.
Proof.
  eexists _, _, _, _, _. split; [vm_compute; reflexivity|].
  split; [reflexivity|]. split; [reflexivity|].
  split; [reflexivity|]. repeat split; vm_compute; discriminate.
Qed.

(** C4, amended.  With the cursor on a tile of a well-formed grid:
    - an empty tile and [coins >= seed_cost]: the action takes exactly the
      seed cost and the tile holds the selected crop at stage 0, planted at
      [now], not fertilized;
    - an empty tile and [coins < seed_cost]: the state is unchanged;
    - a tile holding a crop at a stage other than 3: the state is
      unchanged. *)
Theorem C4_plant (now : Q) (s : Game) (tile : Tile) :
  grid_ok (grid s) -> in_field (x s) (y s) ->
  grid_get (grid s) (x s) (y s) = Ok tile ->
  (crop tile = None -> seed_cost (selected s) <= coins s ->
     exists s' tile',
       handle_action now s = Ok s'
       /\ coins s' = coins s - seed_cost (selected s)
       /\ grid_get (grid s') (x s) (y s) = Ok tile'
       /\ crop tile' = Some (selected s)
       /\ stage tile' = 0
       /\ fertilized tile' = false
       /\ planted_at tile' = now
       /\ harvest_log s' = harvest_log s
       /\ same_but_cursor_tile s s')
  /\ (crop tile = None -> coins s < seed_cost (selected s) ->
        handle_action now s = Ok s)
  /\ (forall c, crop tile = Some c -> stage tile <> 3 ->
        handle_action now s = Ok s).
Proof.
  intros Hok Hcur Hget. split; [|split].
  - intros Hc Hle.
    destruct (plant_affordable now s tile Hok Hcur Hget Hc Hle)
      as (s' & H1 & H2 & H3 & H4 & H5).
    exists s', (planted (selected s) now tile). repeat split; auto; apply H5.
  - intros Hc Hlt. eapply plant_unaffordable; eassumption.
  - intros c Hc Hst. eapply action_unripe; eassumption.
Qed.

(** C4, instance: planting corn on the initial field. *)
Lemma C4_plant_witness :
  exists s' tile',
    handle_action 0 init = Ok s'
    /\ coins s' = 25 - 5
    /\ grid_get (grid s') 0 0 = Ok tile'
    /\ stage tile' = 0 /\ fertilized tile' = false.
Proof.
  destruct (C4_plant 0 init Tile0) as (H & _).
  - split; [reflexivity | cbn; repeat constructor].
  - unfold in_field, COLS, ROWS. cbn. lia.
  - reflexivity.
  - destruct H as (s' & tile' & H1 & H2 & H3 & _ & H5 & H6 & _);
      [reflexivity | cbn; lia |].
    exists s', tile'. repeat split; assumption.
Defined.

(** C5 as stated fails for a rabbit that is due to hop.  A rabbit with the
    default [next_move = 0.0] sits on the ripe bean when the tick at time 150
    starts; it hops to [(0, 5)] before it looks at the tile under it, and the
    bean is still there, at stage 3, when the tick ends. *)
Lemma C5_counterexample :
  exists r t s' e' t',
    let s := bean_ripe [mkRabbit 0 0 0] in
    let e := mkEnv (fun _ => 0) (fun _ => 150%Q) in
    rabbits s = [r]
    /\ grid_get (grid s) (rabbit_x r) (rabbit_y r) = Ok t
    /\ ripe t = true
    /\ tick [] (s, e) = Ok (s', e')
    /\ update_rabbits 150 (s, e) = Ok (s', rng_next e)
    /\ rabbits s' = [mkRabbit 0 5 (150 + RABBIT_MOVE_INT)]
    /\ grid_get (grid s') (rabbit_x r) (rabbit_y r) = Ok t'
    /\ ripe t' = true.
Proof.
  eexists _, _, _, _, _. cbn zeta.
  split; [reflexivity|]. split; [reflexivity|]. split; [reflexivity|].
  split; [vm_compute; reflexivity|].
  split; [vm_compute; reflexivity|].
  split; [vm_compute; reflexivity|].
  split; vm_compute; reflexivity.
Qed.

(** C5, amended.  On a well-formed grid with all rabbits in the field, let a
    rabbit that is not due to hop ([now < next_move]) stand on a tile that
    holds a crop at stage 3.  Then [update_rabbits] returns, the rabbit has
    not moved, its tile is [Tile()] afterwards, and coins and harvest log are
    unchanged; no rabbit, hopped or not, stands on a stage-3 crop when the
    update ends.  The same holds for a whole tick without player events that
    starts in such a state at clock reading [now]. *)
Theorem C5_rabbit_eats (now : Q) (s : Game) (e : Env) (i : nat) (r : Rabbit)
    (t : Tile) :
  grid_ok (grid s) -> crops_grow (grid s) ->
  Forall rabbit_in_field (rabbits s) ->
  rabbits s !! i = Some r ->
  grid_get (grid s) (rabbit_x r) (rabbit_y r) = Ok t ->
  crop t <> None -> stage t = 3 ->
  (now < next_move r)%Q ->
  (exists s' e',
     update_rabbits now (s, e) = Ok (s', e')
     /\ rabbits s' !! i = Some r
     /\ grid_get (grid s') (rabbit_x r) (rabbit_y r) = Ok Tile0
     /\ coins s' = coins s
     /\ harvest_log s' = harvest_log s
     /\ (forall r' t', r' ∈ rabbits s' ->
           grid_get (grid s') (rabbit_x r') (rabbit_y r') = Ok t' ->
           ripe t' = false))
  /\ (wall e O = now ->
      exists s' e',
        tick [] (s, e) = Ok (s', e')
        /\ rabbits s' !! i = Some r
        /\ grid_get (grid s') (rabbit_x r) (rabbit_y r) = Ok Tile0
        /\ coins s' = coins s
        /\ harvest_log s' = harvest_log s).
Proof.
  intros Hok Hcg Hrs Hi Hget Hcrop Hst Hdue.
  assert (Hb : Qle_bool (next_move r) now = false).
  { destruct (Qle_bool (next_move r) now) eqn:E; [|reflexivity].
    apply Qle_bool_iff in E. lra. }
  assert (Hripe : ripe t = true).
  { unfold ripe. destruct (crop t); [now apply Z.eqb_eq | contradiction]. }
  split.
  - destruct (rabbits_loop_spec now (rabbits s) Hrs (grid s) e Hok)
      as (rs' & g' & e' & Hrun & _ & _ & _ & _ & _ & Hstill & Hnone).
    destruct (Hstill i r Hi Hb) as [Hsame Heat].
    exists (with_rabbits (with_grid s g') rs'), e'.
    unfold update_rabbits. rewrite Hrun. cbn [bind].
    split; [reflexivity|]. split; [exact Hsame|].
    split; [exact (Heat t Hget Hripe)|]. repeat split. exact Hnone.
  - intros Hnow. unfold tick, time_time. rewrite Hnow.
    cbn [handle_input for_each bind].
    destruct (update_growth_spec now s (wall_next e) Hok Hcg)
      as (s2 & e2 & Hrun2 & Hok2 & Hcells & _ & (Hx & Hy & Hs & Hc & Hl)
          & new & Hnew & _ & Hin).
    rewrite Hrun2. cbn [bind].
    assert (Hin_r : rabbit_in_field r).
    { rewrite Forall_forall in Hrs. apply Hrs.
      eapply list_elem_of_lookup_2; eassumption. }
    assert (Hrs2 : Forall rabbit_in_field (rabbits s2))
      by (rewrite Hnew; now apply Forall_app).
    assert (Hi2 : rabbits s2 !! i = Some r)
      by (rewrite Hnew; now apply lookup_app_l_Some).
    assert (Hget2 : grid_get (grid s2) (rabbit_x r) (rabbit_y r) = Ok t).
    { rewrite (Hcells _ _ t Hin_r Hget). f_equal. unfold grown.
      destruct (crop t); [|reflexivity].
      now rewrite (proj2 (Z.eqb_eq _ _) Hst). }
    destruct (rabbits_loop_spec now (rabbits s2) Hrs2 (grid s2) e2 Hok2)
      as (rs' & g' & e' & Hrun & _ & _ & _ & _ & _ & Hstill & _).
    destruct (Hstill i r Hi2 Hb) as [Hsame Heat].
    exists (with_rabbits (with_grid s2 g') rs'), e'.
    unfold update_rabbits. rewrite Hrun. cbn [bind].
    split; [reflexivity|]. split; [exact Hsame|].
    split; [exact (Heat t Hget2 Hripe)|]. split; assumption.
Qed.

(** C5, instance: a rabbit resting on the ripe bean until time 151. *)
Lemma C5_rabbit_eats_witness :
  exists s' e',
    update_rabbits 150 (bean_ripe [mkRabbit 0 0 151], quiet) = Ok (s', e')
    /\ grid_get (grid s') 0 0 = Ok Tile0
    /\ coins s' = 22.
Proof.
  destruct (C5_rabbit_eats 150 (bean_ripe [mkRabbit 0 0 151]) quiet O
              (mkRabbit 0 0 151) (mkTile (Some Bean) 0 3 false (0 + 0.3) 0))
    as ((s' & e' & H1 & _ & H3 & H4 & _) & _).
  - apply field_with_ok.
  - apply field_with_grows. intros c [= <-]. reflexivity.
  - repeat constructor; cbn; unfold COLS, ROWS; lia.
  - reflexivity.
  - reflexivity.
  - discriminate.
  - reflexivity.
  - reflexivity.
  - exists s', e'. repeat split; assumption.
Defined.

(** C6 as stated fails at its first check.  Select the bean (growing time
    150, seed cost 3, reward 8) on the 8 x 6 field, plant it at time 0 and
    update the growth at time 149: the stage is 3, not 2, and the rabbit has
    been spawned already. *)
Lemma C6_counterexample :
  exists s e' t,
    handle_key 0 (K_other "4") init = Ok (with_selected init Bean)
    /\ handle_action 0 (with_selected init Bean) = Ok bean_planted
    /\ update_growth 149 (bean_planted, elsewhere) = Ok (s, e')
    /\ grid_get (grid s) 0 0 = Ok t
    /\ stage t = 3
    /\ stage t <> 2
    /\ length (rabbits s) = 1%nat.
Proof.
  eexists _, _, _. split; [reflexivity|]. split; [reflexivity|].
  split; [vm_compute; reflexivity|]. split; [reflexivity|].
  split; [reflexivity|]. split; [discriminate | reflexivity].
Qed.

(** C6, amended.  In the scenario (bean selected on the initial 8 x 6 field
    and planted at time 0, 3 coins paid), whatever the random draws:
    - a growth update at time 112 leaves the bean at stage 2, with no rabbit;
    - a growth update at time 149 puts the bean at stage 3 and spawns
      exactly one rabbit; a further update at time 150 changes nothing, so at
      time 150 the stage is 3 and exactly one rabbit has been spawned;
      harvesting at time 150 then adds exactly 8 coins, takes the bean
      counter from 0 to 1 and empties the tile;
    - a first growth update at time 150 gives the same state. *)
Theorem C6_bean_scenario (e : Env) :
  handle_key 0 (K_other "4") init = Ok (with_selected init Bean)
  /\ handle_action 0 (with_selected init Bean) = Ok bean_planted
  /\ coins bean_planted = coins init - 3
  /\ (exists s e' t,
        update_growth 112 (bean_planted, e) = Ok (s, e')
        /\ grid_get (grid s) 0 0 = Ok t /\ stage t = 2 /\ rabbits s = [])
  /\ (exists r e1,
        update_growth 149 (bean_planted, e) = Ok (bean_ripe [r], e1)
        /\ (exists e2,
              update_growth 150 (bean_ripe [r], e1) = Ok (bean_ripe [r], e2))
        /\ (exists s3,
              handle_action 150 (bean_ripe [r]) = Ok s3
              /\ coins s3 = coins (bean_ripe [r]) + 8
              /\ dict_get (harvest_log (bean_ripe [r])) Bean = Ok 0
              /\ dict_get (harvest_log s3) Bean = Ok 1
              /\ grid_get (grid s3) 0 0 = Ok Tile0
              /\ rabbits s3 = [r]))
  /\ (exists r e1,
        update_growth 150 (bean_planted, e) = Ok (bean_ripe [r], e1)).
Proof.
  assert (Hok : forall t, grid_ok (field_with t)) by apply field_with_ok.
  assert (Hcg : forall st, crops_grow
                  (field_with (mkTile (Some Bean) 0 st false (0 + 0.3) 0))).
  { intros st. apply field_with_grows. intros c [= <-]. reflexivity. }
  split; [reflexivity|]. split; [reflexivity|]. split; [reflexivity|].
  split; [|split].
  - destruct (update_growth_result 112 bean_planted e (Hok _) (Hcg 0))
      as (new & e' & Hrun & Hlen & _).
    destruct new; [|discriminate].
    eexists _, e', _. split; [exact Hrun|].
    split; [reflexivity|]. split; reflexivity.
  - destruct (update_growth_result 149 bean_planted e (Hok _) (Hcg 0))
      as (new & e1 & Hrun & Hlen & _).
    apply length_one in Hlen as [r ->].
    exists r, e1. split; [exact Hrun|]. split.
    + destruct (update_growth_result 150 (bean_ripe [r]) e1 (Hok _) (Hcg 3))
        as (new & e2 & Hrun2 & Hlen2 & _).
      destruct new; [|discriminate].
      exists e2. exact Hrun2.
    + eexists. split; [reflexivity|]. repeat split; reflexivity.
  - destruct (update_growth_result 150 bean_planted e (Hok _) (Hcg 0))
      as (new & e1 & Hrun & Hlen & _).
    apply length_one in Hlen as [r ->].
    exists r, e1. exact Hrun.
Qed.

(** C7 as stated fails on when stage 3 is reached.  The crop of growing time
    200 is planted at time 0 and stands at stage 2 at time 100; fertilized at
    time 100 it is at stage 3 at the growth update of that same time 100, not
    at time 150. *)
Lemma C7_counterexample :
  exists s1 s2 e2 t2,
    handle_fertilizer 100 (slow_planted 2) = Ok s1
    /\ update_growth 100 (s1, quiet) = Ok (s2, e2)
    /\ grid_get (grid s2) 0 0 = Ok t2
    /\ stage t2 = 3.
Proof.
  eexists _, _, _, _. split; [reflexivity|].
  split; [vm_compute; reflexivity|]. split; reflexivity.
Qed.

(** C7, amended.  The crop of growing time 200 is planted at time 0 and has
    not reached stage 3 when it is fertilized at time 100 (remaining time
    100).  Then 5 coins are paid, the remaining time to the full growing time
    is exactly 50 (the elapsed time equals the growing time at time 150
    instead of 200), and the tile is at stage 3 after a growth update at any
    time [now >= 100]; without fertilizer it is at stage 3 after an update
    exactly when [now >= 150]. *)
Theorem C7_fertilized_scenario (st : Z) (now : Q) (e : Env) :
  st <> 3 -> (100 <= now)%Q ->
  exists s1 t1,
    handle_fertilizer 100 (slow_planted st) = Ok s1
    /\ coins s1 = 25 - 5
    /\ grid_get (grid s1) 0 0 = Ok t1
    /\ fertilized t1 = true
    /\ (grow_time crop200 - (100 - planted_at t1) == 50)%Q
    /\ (150 - planted_at t1 == grow_time crop200)%Q
    /\ (exists s2 e2 t2,
          update_growth now (s1, e) = Ok (s2, e2)
          /\ grid_get (grid s2) 0 0 = Ok t2
          /\ stage t2 = 3)
    /\ (exists s2 e2 t2,
          update_growth now (slow_planted st, e) = Ok (s2, e2)
          /\ grid_get (grid s2) 0 0 = Ok t2
          /\ (stage t2 = 3 <-> (150 <= now)%Q)).
Proof.
  intros Hst Hnow.
  eexists _, _. split; [reflexivity|]. split; [reflexivity|].
  split; [reflexivity|]. split; [reflexivity|].
  split; [reflexivity|]. split; [reflexivity|]. split.
  - set (p := (0 - py_max (grow_time crop200 - (100 - 0)) 0 / 2)%Q).
    assert (Hp : (p == -50)%Q) by reflexivity.
    match goal with
    | |- exists s2 e2 t2, update_growth _ (?s1, _) = _ /\ _ =>
        destruct (slow_growth s1 st p (0 + 0.3) 100 true now e eq_refl Hst)
          as (s2 & e2 & t2 & Hrun & Hget & H3); [lra|]
    end.
    exists s2, e2, t2. split; [exact Hrun|]. split; [exact Hget|].
    apply H3. lra.
  - destruct (slow_growth (slow_planted st) st 0 (0 + 0.3) 0 false now e
                eq_refl Hst)
      as (s2 & e2 & t2 & Hrun & Hget & H3); [lra|].
    exists s2, e2, t2. split; [exact Hrun|]. split; [exact Hget|].
    rewrite H3. split; intros H; lra.
Qed.

(** C7, instance: stored stage 2, growth update at time 100. *)
Lemma C7_fertilized_scenario_witness :
  exists s1 s2 e2 t2,
    handle_fertilizer 100 (slow_planted 2) = Ok s1
    /\ update_growth 100 (s1, quiet) = Ok (s2, e2)
    /\ grid_get (grid s2) 0 0 = Ok t2
    /\ stage t2 = 3.
Proof.
  destruct (C7_fertilized_scenario 2 100 quiet)
    as (s1 & t1 & H1 & _ & _ & _ & _ & _ & (s2 & e2 & t2 & H2 & H3 & H4) & _).
  - lia.
  - vm_compute. discriminate.
  - exists s1, s2, e2, t2. repeat split; assumption.
Defined.



(** C9.  Coins never go negative.  In every state reachable from [__init__]
    by key presses (plant, harvest, fertilize, cursor moves, seed
    selection), growth updates and rabbit updates, at any times and with any
    random draws, the coin balance is at least 0; hence it is still at least
    0 after any single such operation and after any whole tick. *)
Theorem C9_coins_nonneg (s : Game) :
  reachable s ->
  0 <= coins s
  /\ (forall now k s', handle_key now k s = Ok s' -> 0 <= coins s')
  /\ (forall now e s' e', update_growth now (s, e) = Ok (s', e') ->
        0 <= coins s')
  /\ (forall now e s' e', update_rabbits now (s, e) = Ok (s', e') ->
        0 <= coins s')
  /\ (forall events e s' e', tick events (s, e) = Ok (s', e') ->
        0 <= coins s').
Proof.
  intros Hs. split; [apply inv_coins, reachable_Inv, Hs|].
  split; [|split; [|split]].
  - intros now k s' H. eapply inv_coins, reachable_Inv, reach_key; eassumption.
  - intros now e s' e' H.
    eapply inv_coins, reachable_Inv, reach_growth; eassumption.
  - intros now e s' e' H.
    eapply inv_coins, reachable_Inv, reach_rabbits; eassumption.
  - intros events e s' e' H.
    eapply inv_coins, reachable_Inv, tick_reachable; eassumption.
Qed.

(** C9, instance: the state after selecting the bean and planting it. *)
Lemma C9_coins_nonneg_witness : 0 <= coins bean_planted.
Proof.
  apply (C9_coins_nonneg bean_planted).
  apply (reach_key 0 K_SPACE (with_selected init Bean)); [|reflexivity].
  apply (reach_key 0 (K_other "4") init); [|reflexivity].
  apply reach_init.
Defined.

(** C10.  Frame of a key press.  On a well-formed grid with the cursor in
    the field (and a counter for the crop under the cursor, if any), every
    key is handled without exception and leaves unchanged: the rabbit list,
    every tile other than the one under the cursor, and the counter of every
    crop other than the one that was under the cursor. *)
Theorem C10_command_frame (now : Q) (k : Key) (s : Game) :
  grid_ok (grid s) -> in_field (x s) (y s) ->
  (forall t c, grid_get (grid s) (x s) (y s) = Ok t -> crop t = Some c ->
     exists n, dict_get (harvest_log s) c = Ok n) ->
  exists s',
    handle_key now k s = Ok s'
    /\ rabbits s' = rabbits s
    /\ (forall a b, in_field a b -> (a, b) <> (x s, y s) ->
          grid_get (grid s') a b = grid_get (grid s) a b)
    /\ (forall c',
          (forall t c, grid_get (grid s) (x s) (y s) = Ok t ->
             crop t = Some c -> crop_eqb c c' = false) ->
          dict_get (harvest_log s') c' = dict_get (harvest_log s) c').
Proof.
  intros Hok Hcur Hlog.
  assert (Hid : exists s', Ok s = Ok s'
            /\ rabbits s' = rabbits s
            /\ (forall a b, in_field a b -> (a, b) <> (x s, y s) ->
                  grid_get (grid s') a b = grid_get (grid s) a b)
            /\ (forall c',
                  (forall t c, grid_get (grid s) (x s) (y s) = Ok t ->
                     crop t = Some c -> crop_eqb c c' = false) ->
                  dict_get (harvest_log s') c' = dict_get (harvest_log s) c'))
    by (exists s; auto).
  destruct (grid_get_total _ _ _ Hok Hcur) as [t Ht].
  destruct k; cbn [handle_key]; try (eexists; repeat split; reflexivity).
  - destruct (crop t) as [c|] eqn:Hc.
    + destruct (decide (stage t = 3)) as [Hst|Hst].
      * destruct (Hlog t c Ht Hc) as [n Hn].
        destruct (harvest_ripe now s t Hok Hcur Ht c n Hc Hst Hn)
          as (s' & H1 & _ & _ & Hne & _ & (_ & _ & _ & Hr & _ & Hframe)).
        exists s'. repeat split; auto.
        intros c' Hc'. apply Hne. now apply (Hc' t c).
      * rewrite (action_unripe now s t Ht c Hc Hst). exact Hid.
    + destruct (decide (seed_cost (selected s) <= coins s)) as [Hle|Hgt].
      * destruct (plant_affordable now s t Hok Hcur Ht Hc Hle)
          as (s' & H1 & _ & _ & Hl & (_ & _ & _ & Hr & _ & Hframe)).
        exists s'. repeat split; auto. intros c' _. now rewrite Hl.
      * rewrite (plant_unaffordable now s t Ht Hc) by lia. exact Hid.
  - destruct (decide (coins s < 5)) as [Hpoor|Hrich].
    { rewrite (fertilize_poor now s Hpoor). exact Hid. }
    destruct (crop t) as [c|] eqn:Hc.
    2:{ rewrite (fertilize_empty now s t Ht Hc). exact Hid. }
    destruct (fertilized t) eqn:Hf.
    { rewrite (fertilize_again now s t Ht Hf). exact Hid. }
    destruct (fertilize_fresh now s t Hok Hcur Ht c Hc Hf ltac:(lia))
      as (s' & H1 & _ & _ & Hl & (_ & _ & _ & Hr & _ & Hframe)).
    exists s'. repeat split; auto. intros c' _. now rewrite Hl.
  - destruct (CROP_BY_KEY key_name); [|exact Hid].
    eexists; repeat split; reflexivity.
Qed.

(** C10, instance: harvesting the ripe bean with a rabbit on tile (3, 3). *)
Lemma C10_command_frame_witness :
  exists s',
    handle_key 150 K_SPACE (bean_ripe [mkRabbit 3 3 151]) = Ok s'
    /\ rabbits s' = [mkRabbit 3 3 151]
    /\ grid_get (grid s') 3 3 = Ok Tile0
    /\ dict_get (harvest_log s') (selected init) = Ok 0.
Proof.
  destruct (C10_command_frame 150 K_SPACE (bean_ripe [mkRabbit 3 3 151]))
    as (s' & H1 & H2 & H3 & H4).
  - apply field_with_ok.
  - unfold in_field, COLS, ROWS. cbn. lia.
  - intros t c [= <-] [= <-]. exists 0. reflexivity.
  - exists s'. split; [exact H1|]. split; [exact H2|]. split.
    + rewrite H3; [reflexivity | unfold in_field, COLS, ROWS; lia |].
      cbn. intros [= ? ?].
    + rewrite H4; [reflexivity|]. intros t c [= <-] [= <-]. reflexivity.
Defined.

(* ================================================================== *)
(** * Further properties of the simulation *)

(** ** Cursor keys and seed selection *)

Lemma with_x_back (s : Game) (v : Z) : with_x (with_x s v) (x s) = s.
Proof. now destruct s. Qed.

Lemma with_y_back (s : Game) (v : Z) : with_y (with_y s v) (y s) = s.
Proof. now destruct s. Qed.

Lemma step_back_mod (v n : Z) :
  0 <= v < n -> ((v + 1) mod n - 1) mod n = v /\ ((v - 1) mod n + 1) mod n = v.
Proof.
  intros H. split.
  - rewrite Zminus_mod_idemp_l. replace (v + 1 - 1) with v by lia.
    now apply Z.mod_small.
  - rewrite Zplus_mod_idemp_l. replace (v - 1 + 1) with v by lia.
    now apply Z.mod_small.
Qed.

(** X1.  Cursor keys.  With the cursor in the field, D and S move it one
    tile right and down and A and W one tile left and up, wrapping from the
    last column or row to the first and back; nothing but the cursor
    changes, the cursor stays in the field, and a move followed by the
    opposite move gives back the very same state. *)
Theorem X1_cursor_wraps (now : Q) (s : Game) :
  in_field (x s) (y s) ->
  handle_key now K_d s
    = Ok (with_x s (if x s =? COLS - 1 then 0 else x s + 1))
  /\ handle_key now K_a s
     = Ok (with_x s (if x s =? 0 then COLS - 1 else x s - 1))
  /\ handle_key now K_s s
     = Ok (with_y s (if y s =? ROWS - 1 then 0 else y s + 1))
  /\ handle_key now K_w s
     = Ok (with_y s (if y s =? 0 then ROWS - 1 else y s - 1))
  /\ (let* s1 := handle_key now K_d s in handle_key now K_a s1) = Ok s
  /\ (let* s1 := handle_key now K_a s in handle_key now K_d s1) = Ok s
  /\ (let* s1 := handle_key now K_s s in handle_key now K_w s1) = Ok s
  /\ (let* s1 := handle_key now K_w s in handle_key now K_s s1) = Ok s.
Proof.
  intros [Hx Hy]. cbn [handle_key bind with_x with_y x y].
  pose proof (step_back_mod (x s) COLS Hx) as [Hx1 Hx2].
  pose proof (step_back_mod (y s) ROWS Hy) as [Hy1 Hy2].
  unfold COLS, ROWS in *.
  repeat split.
  - do 2 f_equal. destruct (Z.eqb_spec (x s) (8 - 1)) as [->|Hne];
      [reflexivity | apply Z.mod_small; lia].
  - do 2 f_equal. destruct (Z.eqb_spec (x s) 0) as [->|Hne];
      [reflexivity | apply Z.mod_small; lia].
  - do 2 f_equal. destruct (Z.eqb_spec (y s) (6 - 1)) as [->|Hne];
      [reflexivity | apply Z.mod_small; lia].
  - do 2 f_equal. destruct (Z.eqb_spec (y s) 0) as [->|Hne];
      [reflexivity | apply Z.mod_small; lia].
  - rewrite Hx1. f_equal. apply with_x_back.
  - rewrite Hx2. f_equal. apply with_x_back.
  - rewrite Hy1. f_equal. apply with_y_back.
  - rewrite Hy2. f_equal. apply with_y_back.
Qed.

(** X1, instance: from the last column of the initial field. *)
Lemma X1_cursor_wraps_witness :
  handle_key 0 K_d (with_x init 7) = Ok (with_x init 0)
  /\ handle_key 0 K_a init = Ok (with_x init 7).
Proof.
  destruct (X1_cursor_wraps 0 (with_x init 7)) as (H1 & _).
  { unfold in_field, COLS, ROWS. cbn. lia. }
  destruct (X1_cursor_wraps 0 init) as (_ & H2 & _).
  { unfold in_field, COLS, ROWS. cbn. lia. }
  split; [exact H1 | exact H2].
Defined.

Lemma CROP_BY_KEY_key (k : string) (c : CropType) :
  CROP_BY_KEY k = Some c -> key c = k.
Proof.
  unfold CROP_BY_KEY. intros H. apply find_some in H as [_ H].
  now apply String.eqb_eq.
Qed.

Lemma CROP_BY_KEY_of_crop (c : CropType) :
  c ∈ CROPS -> CROP_BY_KEY (key c) = Some c.
Proof.
  unfold CROPS. rewrite !elem_of_cons, elem_of_nil.
  intros H. repeat destruct H as [->|H]; try contradiction; reflexivity.
Qed.

(** X2.  Seed selection.  A key whose name is the [key] of a crop of
    [CROPS] makes that crop the selected one and changes nothing else; a key
    with any other name (and none of W, A, S, D, SPACE, F, ESC) leaves the
    state as it is.  In both cases selecting is repeatable: pressing the same
    key again changes nothing more. *)
Theorem X2_select_seed (now : Q) (nm : string) (s : Game) :
  (forall c, c ∈ CROPS -> key c = nm ->
     handle_key now (K_other nm) s = Ok (with_selected s c))
  /\ ((forall c, c ∈ CROPS -> key c <> nm) ->
        handle_key now (K_other nm) s = Ok s)
  /\ (forall s', handle_key now (K_other nm) s = Ok s' ->
        handle_key now (K_other nm) s' = Ok s').
Proof.
  cbn [handle_key]. split; [|split].
  - intros c Hc <-. now rewrite CROP_BY_KEY_of_crop.
  - intros Hnone. destruct (CROP_BY_KEY nm) as [c|] eqn:E; [|reflexivity].
    exfalso. apply (Hnone c).
    + eapply CROP_BY_KEY_catalog; eassumption.
    + eapply CROP_BY_KEY_key; eassumption.
  - intros s' H. destruct (CROP_BY_KEY nm) as [c|]; injection H as <-;
      reflexivity.
Qed.

(** X2, instance: key "3" selects the tomato, F1 selects nothing. *)
Lemma X2_select_seed_witness :
  handle_key 0 (K_other "3") init = Ok (with_selected init Tomato)
  /\ handle_key 0 (K_other "f1") init = Ok init.
Proof.
  destruct (X2_select_seed 0 "3" init) as (H1 & _).
  destruct (X2_select_seed 0 "f1" init) as (_ & H2 & _).
  split.
  - apply H1; [|reflexivity].
    unfold CROPS. rewrite !elem_of_cons. auto.
  - apply H2. unfold CROPS. intros c. rewrite !elem_of_cons, elem_of_nil.
    intros H. repeat destruct H as [->|H]; try contradiction; discriminate.
Defined.

(** ** Exceptions of the main loop *)








(** ** Invariants of the reachable states *)

(** X5.  Well-formed states.  In every reachable state the grid has 8
    columns of 6 tiles, the cursor and every rabbit are inside the field,
    the selected seed is a crop of [CROPS], and so the tile under the cursor
    and the tile under every rabbit can be read without an [IndexError]. *)
Theorem X5_reachable_well_formed (s : Game) :
  reachable s ->
  length (grid s) = 8%nat
  /\ Forall (fun col => length col = 6%nat) (grid s)
  /\ in_field (x s) (y s)
  /\ selected s ∈ CROPS
  /\ (exists t, grid_get (grid s) (x s) (y s) = Ok t)
  /\ Forall (fun r => in_field (rabbit_x r) (rabbit_y r)
                      /\ exists t, grid_get (grid s) (rabbit_x r) (rabbit_y r)
                                   = Ok t) (rabbits s).
Proof.
  intros Hs. destruct (reachable_Inv s Hs) as [_ Hgrid Hcur Hsel _ _ Hrab].
  split; [apply Hgrid|]. split; [apply Hgrid|]. split; [exact Hcur|].
  split; [exact Hsel|]. split; [now apply grid_get_total|].
  eapply Forall_impl; [exact Hrab|]. intros r Hr.
  split; [exact Hr | now apply grid_get_total].
Qed.

(** X5, instance: the state after planting the bean. *)
Lemma X5_reachable_well_formed_witness :
  in_field (x bean_planted) (y bean_planted)
  /\ exists t, grid_get (grid bean_planted) 0 0 = Ok t.
Proof.
  destruct (X5_reachable_well_formed bean_planted) as (_ & _ & H1 & _ & H2 & _).
  - apply (reach_key 0 K_SPACE (with_selected init Bean)); [|reflexivity].
    apply (reach_key 0 (K_other "4") init); [|reflexivity].
    apply reach_init.
  - split; [exact H1 | exact H2].
Defined.

(** What a key press does to the harvest log: nothing, or one counter that
    exists goes up by one. *)
Lemma handle_key_log (now : Q) (k : Key) (s s' : Game) :
  handle_key now k s = Ok s' ->
  harvest_log s' = harvest_log s
  \/ exists c n, dict_get (harvest_log s) c = Ok n
                 /\ harvest_log s' = dict_set (harvest_log s) c (n + 1).
Proof.
  destruct k; cbn [handle_key]; intros H;
    try (injection H as <-; now left).
  - unfold handle_action in H. apply bind_ok in H as (t & _ & H).
    destruct (crop t) as [c|].
    + destruct (stage t =? 3); [|injection H as <-; now left].
      cbn [harvest_log with_coins] in H.
      apply bind_ok in H as (n & Hn & H).
      apply bind_ok in H as (g & _ & H). injection H as <-.
      right. exists c, n. split; [exact Hn | reflexivity].
    + destruct (seed_cost (selected s) <=? coins s);
        [|injection H as <-; now left].
      apply bind_ok in H as (g & _ & H). injection H as <-. now left.
  - unfold handle_fertilizer in H.
    destruct (coins s <? 5); [injection H as <-; now left|].
    apply bind_ok in H as (t & _ & H).
    destruct (crop t) as [c|]; [|injection H as <-; now left].
    destruct (negb (fertilized t)); [|injection H as <-; now left].
    apply bind_ok in H as (g & _ & H). injection H as <-. now left.
  - destruct (CROP_BY_KEY key_name); injection H as <-; now left.
Qed.

Lemma update_rabbits_player (now : Q) (s s' : Game) (e e' : Env) :
  update_rabbits now (s, e) = Ok (s', e') -> same_player s s'.
Proof.
  unfold update_rabbits. intros H.
  apply bind_ok in H as ([[rs g] e1] & _ & H). injection H as <- <-.
  repeat split.
Qed.

Lemma dict_set_keys (d : list (CropType * Z)) (c : CropType) (n v : Z) :
  dict_get d c = Ok n -> List.map fst (dict_set d c v) = List.map fst d.
Proof.
  induction d as [|[k w] d IH]; cbn; [discriminate|].
  destruct (crop_eqb k c); cbn; [reflexivity|].
  intros H. f_equal. now apply IH.
Qed.

Lemma dict_get_In (d : list (CropType * Z)) (c : CropType) (n : Z) :
  dict_get d c = Ok n -> exists k, (k, n) ∈ d.
Proof.
  induction d as [|[k w] d IH]; cbn; [discriminate|].
  destruct (crop_eqb k c).
  - intros [= <-]. exists k. apply list_elem_of_here.
  - intros H. destruct (IH H) as [k' Hk']. exists k'.
    now apply list_elem_of_further.
Qed.

Lemma dict_set_Forall (P : Z -> Prop) (d : list (CropType * Z))
    (c : CropType) (v : Z) :
  Forall (fun kv => P (snd kv)) d -> P v ->
  Forall (fun kv => P (snd kv)) (dict_set d c v).
Proof.
  intros Hd Hv. induction Hd as [|[k w] d Hk Hd IH]; cbn.
  - constructor; [exact Hv | constructor].
  - destruct (crop_eqb k c); constructor; auto.
Qed.

(** X6.  The harvest log.  In every reachable state the keys of
    [harvest_log] are exactly the six crops of [CROPS], in that order, and
    every counter is a non-negative integer; looking up the counter of a
    catalog crop never raises [KeyError]. *)
Theorem X6_harvest_log_shape (s : Game) :
  reachable s ->
  List.map fst (harvest_log s) = CROPS
  /\ Forall (fun kv => 0 <= snd kv) (harvest_log s)
  /\ (forall c, c ∈ CROPS ->
        exists n, dict_get (harvest_log s) c = Ok n /\ 0 <= n).
Proof.
  intros Hs. split; [|split].
  - induction Hs as [|now k s s' Hs IH Hk|now s s' e e' Hs IH Hg
                     |now s s' e e' Hs IH Hr].
    + reflexivity.
    + destruct (handle_key_log now k s s' Hk) as [->|(c & n & Hn & ->)];
        [exact IH|].
      now rewrite (dict_set_keys _ c n _ Hn).
    + pose proof (reachable_Inv s Hs) as [_ Hgrid _ _ Htiles _ _].
      destruct (update_growth_spec now s e Hgrid (catalog_grows _ Htiles))
        as (s1 & e1 & Hrun & _ & _ & _ & (_ & _ & _ & _ & Hl) & _).
      rewrite Hg in Hrun. injection Hrun as <- <-. now rewrite Hl.
    + destruct (update_rabbits_player now s s' e e' Hr) as (_ & _ & _ & _ & Hl).
      now rewrite Hl.
  - induction Hs as [|now k s s' Hs IH Hk|now s s' e e' Hs IH Hg
                     |now s s' e e' Hs IH Hr].
    + cbn. repeat constructor; cbn; lia.
    + destruct (handle_key_log now k s s' Hk) as [->|(c & n & Hn & ->)];
        [exact IH|].
      apply (dict_set_Forall (fun v => 0 <= v)); [exact IH|].
      destruct (dict_get_In _ _ _ Hn) as [k0 Hk0].
      rewrite Forall_forall in IH. specialize (IH _ Hk0). cbn in IH. lia.
    + pose proof (reachable_Inv s Hs) as [_ Hgrid _ _ Htiles _ _].
      destruct (update_growth_spec now s e Hgrid (catalog_grows _ Htiles))
        as (s1 & e1 & Hrun & _ & _ & _ & (_ & _ & _ & _ & Hl) & _).
      rewrite Hg in Hrun. injection Hrun as <- <-. now rewrite Hl.
    + destruct (update_rabbits_player now s s' e e' Hr) as (_ & _ & _ & _ & Hl).
      now rewrite Hl.
  - apply inv_log, reachable_Inv, Hs.
Qed.

(** X6, instance: the log after planting the bean. *)
Lemma X6_harvest_log_shape_witness :
  List.map fst (harvest_log bean_planted) = CROPS.
Proof.
  apply (X6_harvest_log_shape bean_planted).
  apply (reach_key 0 K_SPACE (with_selected init Bean)); [|reflexivity].
  apply (reach_key 0 (K_other "4") init); [|reflexivity].
  apply reach_init.
Defined.

(** A property of tiles that planting and fertilizing at time [now] and
    resetting keep is kept by a key press at time [now]. *)
Lemma key_tiles (P : Tile -> Prop) (now : Q) (k : Key) (s s' : Game) :
  P Tile0 ->
  (forall c t, c ∈ CROPS -> P (planted c now t)) ->
  (forall c t, P t -> crop t = Some c -> P (fertilized_tile c now t)) ->
  Inv s -> Forall (Forall P) (grid s) ->
  handle_key now k s = Ok s' -> Forall (Forall P) (grid s').
Proof.
  intros H0 Hplant Hfert [_ Hgrid Hcur Hsel Htiles Hlog _] IH Hk.
  destruct (grid_get_total _ _ _ Hgrid Hcur) as [t Ht].
  pose proof (grid_get_Forall _ _ _ _ _ Ht IH) as HPt.
  destruct k; cbn [handle_key] in Hk;
    try (injection Hk as <-; exact IH).
  - destruct (crop t) as [c|] eqn:Hc.
    + destruct (decide (stage t = 3)) as [Hst|Hst].
      * destruct (Hlog c) as (n & Hn & _).
        { eapply (grid_get_Forall _ _ _ _ _ Ht Htiles). exact Hc. }
        destruct (harvest_ripe now s t Hgrid Hcur Ht c n Hc Hst Hn)
          as (s1 & H1 & _ & _ & _ & Hget & Hsame).
        rewrite Hk in H1. injection H1 as <-.
        eapply cursor_update_Forall; eauto.
      * rewrite (action_unripe now s t Ht c Hc Hst) in Hk.
        now injection Hk as <-.
    + destruct (decide (seed_cost (selected s) <= coins s)) as [Hle|Hgt].
      * destruct (plant_affordable now s t Hgrid Hcur Ht Hc Hle)
          as (s1 & H1 & _ & Hget & _ & Hsame).
        rewrite Hk in H1. injection H1 as <-.
        eapply cursor_update_Forall; eauto.
      * rewrite (plant_unaffordable now s t Ht Hc) in Hk by lia.
        now injection Hk as <-.
  - destruct (decide (coins s < 5)) as [Hpoor|Hrich].
    { rewrite (fertilize_poor now s Hpoor) in Hk. now injection Hk as <-. }
    destruct (crop t) as [c|] eqn:Hc.
    2:{ rewrite (fertilize_empty now s t Ht Hc) in Hk.
        now injection Hk as <-. }
    destruct (fertilized t) eqn:Hf.
    { rewrite (fertilize_again now s t Ht Hf) in Hk.
      now injection Hk as <-. }
    destruct (fertilize_fresh now s t Hgrid Hcur Ht c Hc Hf ltac:(lia))
      as (s1 & H1 & _ & Hget & _ & Hsame).
    rewrite Hk in H1. injection H1 as <-.
    eapply cursor_update_Forall; eauto.
  - destruct (CROP_BY_KEY key_name); injection Hk as <-; exact IH.
Qed.

Lemma growth_tiles (P : Tile -> Prop) (now : Q) (s s' : Game) (e e' : Env) :
  (forall t, P t -> P (grown now t)) ->
  Inv s -> Forall (Forall P) (grid s) ->
  update_growth now (s, e) = Ok (s', e') -> Forall (Forall P) (grid s').
Proof.
  intros Hgrow [_ Hgrid _ _ Htiles _ _] IH Hg.
  destruct (update_growth_spec now s e Hgrid (catalog_grows _ Htiles))
    as (s1 & e1 & Hrun & _ & _ & HP & _).
  rewrite Hg in Hrun. injection Hrun as <- <-. now apply HP.
Qed.

Lemma rabbits_tiles (P : Tile -> Prop) (now : Q) (s s' : Game) (e e' : Env) :
  P Tile0 -> Inv s -> Forall (Forall P) (grid s) ->
  update_rabbits now (s, e) = Ok (s', e') -> Forall (Forall P) (grid s').
Proof.
  intros H0 [_ Hgrid _ _ _ _ Hrab] IH Hr.
  destruct (rabbits_loop_spec now (rabbits s) Hrab (grid s) e Hgrid)
    as (rs' & g' & e1 & Hrun & _ & _ & HP & _).
  unfold update_rabbits in Hr. rewrite Hrun in Hr. cbn in Hr.
  injection Hr as <- <-. cbn. now apply HP.
Qed.

(** A property of tiles that planting, fertilizing, growing and resetting
    keep holds of every tile of every reachable state. *)
Lemma reachable_tiles (P : Tile -> Prop) :
  P Tile0 ->
  (forall c now t, c ∈ CROPS -> P (planted c now t)) ->
  (forall c now t, P t -> crop t = Some c -> P (fertilized_tile c now t)) ->
  (forall now t, P t -> P (grown now t)) ->
  forall s, reachable s -> Forall (Forall P) (grid s).
Proof.
  intros H0 Hplant Hfert Hgrow s Hs.
  induction Hs as [|now k s s' Hs IH Hk|now s s' e e' Hs IH Hg
                   |now s s' e e' Hs IH Hr].
  - cbn. repeat constructor; exact H0.
  - eapply (key_tiles P now); eauto using reachable_Inv.
  - eapply (growth_tiles P now); eauto using reachable_Inv.
  - eapply (rabbits_tiles P now); eauto using reachable_Inv.
Qed.

(** X7.  Tiles of reachable states.  Every tile of a reachable state has a
    stage of at most 3; if it holds a crop, the crop is one of [CROPS]; and
    if it holds none it is exactly the default [Tile()]: harvesting or
    eating a crop leaves no planting time, stage, fertilized flag or
    animation timer behind, and only an occupied tile is ever fertilized. *)
Theorem X7_reachable_tiles (s : Game) (a b : Z) (t : Tile) :
  reachable s -> grid_get (grid s) a b = Ok t ->
  stage t <= 3
  /\ (forall c, crop t = Some c -> c ∈ CROPS)
  /\ (crop t = None -> t = Tile0)
  /\ (fertilized t = true -> crop t <> None).
Proof.
  intros Hs Hget.
  assert (H : stage t <= 3 /\ (crop t = None -> t = Tile0)).
  { apply (grid_get_Forall
             (fun t => stage t <= 3 /\ (crop t = None -> t = Tile0))
             (grid s) a b t Hget).
    apply reachable_tiles; [| | | |exact Hs].
    - split; [cbn; lia | reflexivity].
    - intros c now t0 _. split; [cbn; lia | discriminate].
    - intros c now t0 [Hst _] Hc. split; [exact Hst|].
      cbn. rewrite Hc. discriminate.
    - intros now t0 [Hst Hnone]. unfold grown.
      destruct (crop t0) as [c|] eqn:Hc;
        [|split; [exact Hst | intros _; exact (Hnone eq_refl)]].
      destruct (stage t0 =? 3).
      + split; [exact Hst | intros H; rewrite Hc in H; discriminate].
      + cbn. split; [apply Z.le_min_r | discriminate]. }
  destruct H as [Hst Hnone].
  split; [exact Hst|]. split; [|split; [exact Hnone|]].
  - intros c Hc.
    eapply (grid_get_Forall catalog_crop (grid s) a b t Hget); [|exact Hc].
    apply inv_tiles, reachable_Inv, Hs.
  - intros Hf Hc. rewrite (Hnone Hc) in Hf. discriminate.
Qed.

(** X7, instance: the planted bean. *)
Lemma X7_reachable_tiles_witness :
  stage (planted Bean 0 Tile0) <= 3 /\ Bean ∈ CROPS.
Proof.
  destruct (X7_reachable_tiles bean_planted 0 0 (planted Bean 0 Tile0))
    as (H1 & H2 & _).
  - apply (reach_key 0 K_SPACE (with_selected init Bean)); [|reflexivity].
    apply (reach_key 0 (K_other "4") init); [|reflexivity].
    apply reach_init.
  - reflexivity.
  - split; [exact H1 | apply H2; reflexivity].
Defined.

(** ** Rabbits are never removed *)

Lemma handle_key_rabbits (now : Q) (k : Key) (s s' : Game) :
  handle_key now k s = Ok s' -> rabbits s' = rabbits s.
Proof.
  destruct k; cbn [handle_key]; intros H;
    try (injection H as <-; reflexivity).
  - unfold handle_action in H. apply bind_ok in H as (t & _ & H).
    destruct (crop t) as [c|].
    + destruct (stage t =? 3); [|now injection H as <-].
      apply bind_ok in H as (n & _ & H).
      apply bind_ok in H as (g & _ & H). now injection H as <-.
    + destruct (seed_cost (selected s) <=? coins s); [|now injection H as <-].
      apply bind_ok in H as (g & _ & H). now injection H as <-.
  - unfold handle_fertilizer in H.
    destruct (coins s <? 5); [now injection H as <-|].
    apply bind_ok in H as (t & _ & H).
    destruct (crop t) as [c|]; [|now injection H as <-].
    destruct (negb (fertilized t)); [|now injection H as <-].
    apply bind_ok in H as (g & _ & H). now injection H as <-.
  - destruct (CROP_BY_KEY key_name); now injection H as <-.
Qed.

Lemma handle_input_rabbits (now : Q) (events : list Event) :
  forall s s', handle_input now events s = Ok s' -> rabbits s' = rabbits s.
Proof.
  unfold handle_input.
  induction events as [|ev events IH]; intros s s' H; cbn [for_each] in H.
  - now injection H as <-.
  - apply bind_ok in H as (s1 & Hev & H). rewrite (IH _ _ H).
    destruct ev; cbn [handle_event] in Hev.
    + discriminate.
    + eapply handle_key_rabbits; eassumption.
    + now injection Hev as <-.
Qed.

Lemma rabbits_loop_length (now : Q) (rs : list Rabbit) :
  forall g e rs' g' e',
    rabbits_loop now rs g e = Ok (rs', g', e') -> length rs' = length rs.
Proof.
  induction rs as [|r rs IH]; intros g e rs' g' e' H; cbn [rabbits_loop] in H.
  - now injection H as <- _ _.
  - apply bind_ok in H as ([[r1 g1] e1] & _ & H).
    apply bind_ok in H as ([[rs1 g2] e2] & Hrest & H).
    injection H as <- _ _. cbn. f_equal. eapply IH; eassumption.
Qed.

Lemma update_rabbits_length (now : Q) (s s' : Game) (e e' : Env) :
  update_rabbits now (s, e) = Ok (s', e') ->
  length (rabbits s') = length (rabbits s).
Proof.
  unfold update_rabbits. intros H.
  apply bind_ok in H as ([[rs g] e1] & Hloop & H). injection H as <- _.
  cbn. eapply rabbits_loop_length; eassumption.
Qed.

(** X8.  Rabbits are indestructible.  From a reachable state, no key press
    changes the rabbit list, a growth update only appends to it, a rabbit
    update keeps its length, and so a whole tick never ends with fewer
    rabbits than it started with. *)
Theorem X8_rabbits_stay (s : Game) :
  reachable s ->
  (forall now k s', handle_key now k s = Ok s' -> rabbits s' = rabbits s)
  /\ (forall now e s' e', update_growth now (s, e) = Ok (s', e') ->
        exists new, rabbits s' = rabbits s ++ new)
  /\ (forall now e s' e', update_rabbits now (s, e) = Ok (s', e') ->
        length (rabbits s') = length (rabbits s))
  /\ (forall events e s' e', tick events (s, e) = Ok (s', e') ->
        (length (rabbits s) <= length (rabbits s'))%nat).
Proof.
  intros Hs.
  assert (Hgrow : forall s, reachable s ->
            forall now e s' e', update_growth now (s, e) = Ok (s', e') ->
            exists new, rabbits s' = rabbits s ++ new).
  { clear s Hs. intros s Hs now e s' e' H.
    pose proof (reachable_Inv s Hs) as [_ Hgrid _ _ Htiles _ _].
    destruct (update_growth_spec now s e Hgrid (catalog_grows _ Htiles))
      as (s1 & e1 & Hrun & _ & _ & _ & _ & new & Hnew & _).
    rewrite H in Hrun. injection Hrun as <- <-. eauto. }
  split; [|split; [|split]].
  - intros now k s'. apply handle_key_rabbits.
  - now apply Hgrow.
  - intros now e s' e'. apply update_rabbits_length.
  - intros events e s' e' H. unfold tick, time_time in H.
    apply bind_ok in H as (s1 & Hin & H).
    apply bind_ok in H as ([s2 e2] & Hgr & Hrab).
    pose proof (handle_input_reachable _ _ _ _ Hs Hin) as Hs1.
    destruct (Hgrow s1 Hs1 _ _ _ _ Hgr) as [new Hnew].
    rewrite (update_rabbits_length _ _ _ _ _ Hrab), Hnew, length_app.
    rewrite (handle_input_rabbits _ _ _ _ Hin). lia.
Qed.

(** X8, instance: one tick on the planted bean at clock reading 0. *)
Lemma X8_rabbits_stay_witness :
  exists s' e',
    tick [] (bean_planted, quiet) = Ok (s', e')
    /\ (length (rabbits bean_planted) <= length (rabbits s'))%nat.
Proof.
  destruct (X8_rabbits_stay bean_planted) as (_ & _ & _ & H).
  - apply (reach_key 0 K_SPACE (with_selected init Bean)); [|reflexivity].
    apply (reach_key 0 (K_other "4") init); [|reflexivity].
    apply reach_init.
  - eexists _, _. split; [vm_compute; reflexivity|].
    apply (H [] quiet _ (rng_next (wall_next quiet))).
    vm_compute. reflexivity.
Defined.

(** ** The growth update: what it changes, and doing it twice *)

Lemma grown_twice (now : Q) (t : Tile) : grown now (grown now t) = grown now t.
Proof.
  unfold grown. destruct (crop t) as [c|] eqn:Hc; cbv iota.
  - destruct (stage t =? 3) eqn:Hst; cbv iota.
    + now rewrite Hc, Hst.
    + cbn [crop stage planted_at fertilized flash_to sparkle_t].
      change (new_stage now c
                {| crop := Some c; planted_at := planted_at t;
                   stage := new_stage now c t; fertilized := fertilized t;
                   flash_to := flash_to t; sparkle_t := sparkle_t t |})
        with (new_stage now c t).
      destruct (new_stage now c t =? 3); reflexivity.
  - now rewrite Hc.
Qed.

Lemma ripens_grown (now : Q) (t : Tile) : ripens now (grown now t) = false.
Proof.
  unfold ripens, grown. destruct (crop t) as [c|] eqn:Hc; cbv iota.
  - destruct (stage t =? 3) eqn:Hst; cbv iota.
    + now rewrite Hc, Hst.
    + cbn [crop stage].
      change (new_stage now c
                {| crop := Some c; planted_at := planted_at t;
                   stage := new_stage now c t; fertilized := fertilized t;
                   flash_to := flash_to t; sparkle_t := sparkle_t t |})
        with (new_stage now c t).
      destruct (new_stage now c t =? 3); reflexivity.
  - now rewrite Hc.
Qed.

Lemma sum_over_zero (f : Z -> nat) (l : list Z) :
  (forall a, a ∈ l -> f a = O) -> sum_over f l = O.
Proof.
  induction l as [|a l IH]; intros H; cbn; [reflexivity|].
  rewrite (H a), IH; [reflexivity | | apply list_elem_of_here].
  intros b Hb. apply H. now apply list_elem_of_further.
Qed.

Lemma map_map_twice (now : Q) (g : list (list Tile)) :
  List.map (List.map (grown now)) (List.map (List.map (grown now)) g)
  = List.map (List.map (grown now)) g.
Proof.
  rewrite List.map_map. apply List.map_ext. intros col.
  rewrite List.map_map. apply List.map_ext. intros t. apply grown_twice.
Qed.

(** X9.  One rabbit per ripening tile, once.  On a well-formed grid whose
    crops have positive growing times, [update_growth] appends exactly as
    many rabbits as there are tiles that reach stage 3 at this time and
    removes none; a second [update_growth] at the same time changes nothing:
    no tile changes again and no further rabbit is spawned. *)
Theorem X9_growth_spawns_once (now : Q) (s : Game) (e : Env) :
  grid_ok (grid s) -> crops_grow (grid s) ->
  exists s' e' new,
    update_growth now (s, e) = Ok (s', e')
    /\ rabbits s' = rabbits s ++ new
    /\ length new = ripening now (grid s)
    /\ forall e2, exists e3, update_growth now (s', e2) = Ok (s', e3).
Proof.
  intros Hok Hcg.
  destruct (update_growth_result now s e Hok Hcg)
    as (new & e' & Hrun & Hlen & _).
  eexists _, e', new. split; [exact Hrun|]. split; [reflexivity|].
  split; [exact Hlen|]. intros e2.
  set (g' := List.map (List.map (grown now)) (grid s)).
  assert (Hok' : grid_ok g') by now apply grid_ok_map.
  assert (Hcg' : crops_grow g').
  { apply Forall_cells; [exact Hok'|]. intros a b t Hin Ht c.
    destruct (grid_get_total (grid s) a b Hok Hin) as [t0 Ht0].
    unfold g' in Ht. rewrite (grid_get_map _ _ _ _ _ Ht0) in Ht.
    injection Ht as <-. rewrite grown_crop.
    apply (grid_get_Forall _ _ _ _ _ Ht0 Hcg). }
  destruct (update_growth_result now
              (mkGame g' (x s) (y s) (selected s) (coins s) (harvest_log s)
                 (rabbits s ++ new)) e2 Hok' Hcg')
    as (new2 & e3 & Hrun2 & Hlen2 & _).
  exists e3. rewrite Hrun2. cbn [grid rabbits x y selected coins harvest_log].
  assert (Hz : ripening now g' = O).
  { unfold ripening. apply sum_over_zero. intros a Ha.
    apply sum_over_zero. intros b Hb. unfold ripens_at.
    assert (Hin : in_field a b) by (split; now apply range_elem).
    destruct (grid_get_total (grid s) a b Hok Hin) as [t0 Ht0].
    unfold g'. rewrite (grid_get_map _ _ _ _ _ Ht0).
    now rewrite ripens_grown. }
  cbn [grid] in Hlen2. rewrite Hz in Hlen2.
  destruct new2; [|discriminate].
  unfold g'. now rewrite map_map_twice, app_nil_r.
Qed.

(** X9, instance: the bean at time 149; one rabbit, and none at a second
    call. *)
Lemma X9_growth_spawns_once_witness :
  exists s' e' r,
    update_growth 149 (bean_planted, quiet) = Ok (s', e')
    /\ rabbits s' = [r]
    /\ exists e3, update_growth 149 (s', e') = Ok (s', e3).
Proof.
  destruct (X9_growth_spawns_once 149 bean_planted quiet)
    as (s' & e' & new & H1 & H2 & H3 & H4).
  - apply field_with_ok.
  - apply field_with_grows. intros c [= <-]. reflexivity.
  - destruct new as [|r [|r2 new]]; try discriminate.
    exists s', e', r. split; [exact H1|]. split; [exact H2 | apply H4].
Defined.

(** X10.  Frame of the growth update.  On a well-formed grid whose crops
    have positive growing times, [update_growth] changes no coins, harvest
    counter, cursor or selected seed, and of a tile nothing but its stage:
    crop, planting time, fertilized flag and both animation timers stay;
    an empty tile and a tile at stage 3 do not change at all. *)
Theorem X10_growth_frame (now : Q) (s : Game) (e : Env) (a b : Z) (t : Tile) :
  grid_ok (grid s) -> crops_grow (grid s) -> in_field a b ->
  grid_get (grid s) a b = Ok t ->
  exists s' e' t',
    update_growth now (s, e) = Ok (s', e')
    /\ coins s' = coins s /\ harvest_log s' = harvest_log s
    /\ x s' = x s /\ y s' = y s /\ selected s' = selected s
    /\ grid_get (grid s') a b = Ok t'
    /\ crop t' = crop t /\ planted_at t' = planted_at t
    /\ fertilized t' = fertilized t
    /\ flash_to t' = flash_to t /\ sparkle_t t' = sparkle_t t
    /\ (crop t = None \/ stage t = 3 -> t' = t).
Proof.
  intros Hok Hcg Hin Hget.
  destruct (update_growth_spec now s e Hok Hcg)
    as (s' & e' & Hrun & _ & Hcells & _ & (Hx & Hy & Hs & Hc & Hl) & _).
  exists s', e', (grown now t).
  split; [exact Hrun|]. repeat (split; [assumption|]).
  split; [now apply Hcells|].
  unfold grown. destruct (crop t) as [c|] eqn:Hcrop.
  - destruct (stage t =? 3) eqn:Hst.
    + repeat split; auto.
    + cbn. repeat split; auto.
      intros [H|H]; [discriminate | apply Z.eqb_neq in Hst; contradiction].
  - repeat split; auto.
Qed.

(** X10, instance: the planted bean at time 100. *)
Lemma X10_growth_frame_witness :
  exists s' e' t',
    update_growth 100 (bean_planted, quiet) = Ok (s', e')
    /\ coins s' = 22
    /\ grid_get (grid s') 0 0 = Ok t'
    /\ planted_at t' = planted_at (planted Bean 0 Tile0).
Proof.
  destruct (X10_growth_frame 100 bean_planted quiet 0 0 (planted Bean 0 Tile0))
    as (s' & e' & t' & H1 & H2 & _ & _ & _ & _ & H3 & _ & H4 & _).
  - apply field_with_ok.
  - apply field_with_grows. intros c [= <-]. reflexivity.
  - unfold in_field, COLS, ROWS. lia.
  - reflexivity.
  - exists s', e', t'. repeat split; assumption.
Defined.

(** ** Fertilizer at the edges *)

(** X11.  Fertilizer never delays, and can be wasted.  Fertilizing an
    occupied, not yet fertilized tile with at least 5 coins always takes the
    5 coins and sets the flag, leaves crop and stage alone, and never moves
    the planting time forward.  When no growing time remains
    ([now - planted_at >= grow_time]) the planting time does not move at
    all: the coins are spent for nothing.  With fewer than 5 coins, or on an
    empty tile, nothing happens. *)
Theorem X11_fertilizer_edges (now : Q) (s : Game) (tile : Tile) :
  grid_ok (grid s) -> in_field (x s) (y s) ->
  grid_get (grid s) (x s) (y s) = Ok tile ->
  (forall c, crop tile = Some c -> fertilized tile = false -> 5 <= coins s ->
     exists s' tile',
       handle_fertilizer now s = Ok s'
       /\ coins s' = coins s - 5
       /\ grid_get (grid s') (x s) (y s) = Ok tile'
       /\ fertilized tile' = true
       /\ crop tile' = Some c /\ stage tile' = stage tile
       /\ (planted_at tile' <= planted_at tile)%Q
       /\ ((grow_time c <= now - planted_at tile)%Q ->
             (planted_at tile' == planted_at tile)%Q))
  /\ (coins s < 5 -> handle_fertilizer now s = Ok s)
  /\ (crop tile = None -> handle_fertilizer now s = Ok s).
Proof.
  intros Hok Hcur Hget. split; [|split].
  - intros c Hc Hf Hcoins.
    destruct (fertilize_fresh now s tile Hok Hcur Hget c Hc Hf Hcoins)
      as (s' & Hrun & Hcoins' & Hget' & _).
    exists s', (fertilized_tile c now tile).
    split; [exact Hrun|]. split; [exact Hcoins'|]. split; [exact Hget'|].
    split; [reflexivity|]. split; [exact Hc|]. split; [reflexivity|].
    cbn [fertilized_tile planted_at]. unfold py_max.
    destruct (Qlt_le_dec (grow_time c - (now - planted_at tile)) 0) as [H|H].
    + unfold Qdiv. change (/ 2)%Q with (1 # 2)%Q. split; [lra|]. intros _. lra.
    + unfold Qdiv. change (/ 2)%Q with (1 # 2)%Q. split; [lra|]. intros H'. lra.
  - apply fertilize_poor.
  - intros Hc. eapply fertilize_empty; eassumption.
Qed.

(** X11, instance: the bean planted at time 0, fertilized at time 200. *)
Lemma X11_fertilizer_edges_witness :
  exists s' tile',
    handle_fertilizer 200 bean_planted = Ok s'
    /\ coins s' = 17
    /\ grid_get (grid s') 0 0 = Ok tile'
    /\ (planted_at tile' == 0)%Q.
Proof.
  destruct (X11_fertilizer_edges 200 bean_planted (planted Bean 0 Tile0))
    as (H & _).
  - apply field_with_ok.
  - unfold in_field, COLS, ROWS. cbn. lia.
  - reflexivity.
  - destruct (H Bean) as (s' & tile' & H1 & H2 & H3 & _ & _ & _ & _ & H4);
      [reflexivity | reflexivity | cbn; lia |].
    exists s', tile'. repeat split; try assumption.
    rewrite H4; [reflexivity | vm_compute; discriminate].
Defined.

(** ** How rabbits move and what they eat *)










(** [g'] is [g] where some tiles holding a stage-3 crop, each under a rabbit
    of [rs'], have been reset. *)
Definition eaten (rs' : list Rabbit) (g g' : list (list Tile)) : Prop :=
  forall a b, in_field a b ->
    grid_get g' a b = grid_get g a b
    \/ exists t r',
         grid_get g a b = Ok t /\ ripe t = true
         /\ grid_get g' a b = Ok Tile0
         /\ r' ∈ rs' /\ rabbit_x r' = a /\ rabbit_y r' = b.

Lemma rabbits_loop_eaten (now : Q) (rs : list Rabbit) :
  Forall rabbit_in_field rs ->
  forall g e rs' g' e',
    grid_ok g -> rabbits_loop now rs g e = Ok (rs', g', e') ->
    eaten rs' g g'.
Proof.
  induction 1 as [|r rs Hr Hrs IH]; intros g e rs' g' e' Hok H;
    cbn [rabbits_loop] in H.
  - injection H as <- <- _. intros a b _. now left.
  - apply bind_ok in H as ([[r1 g1] e1] & Hstep & H).
    apply bind_ok in H as ([[rs1 g2] e2] & Hrest & H).
    injection H as <- <- _.
    unfold rabbit_step in Hstep.
    pose proof (hop_in_field now r e Hr) as Hin1.
    destruct (hop now r e) as [r0 e0]. cbn [fst] in Hin1.
    apply bind_ok in Hstep as (g0 & Hm & Hstep). injection Hstep as <- <- _.
    destruct (grid_get_total g _ _ Hok Hin1) as [t1 Ht1].
    destruct (munch_spec r0 g t1 Hok Hin1 Ht1)
      as (g1 & Hm1 & Hok1 & Hget1 & Hframe1 & _).
    rewrite Hm in Hm1. injection Hm1 as <-.
    pose proof (IH g0 _ rs1 g2 e2 Hok1 Hrest) as Hrec.
    intros a b Hin.
    destruct (decide ((a, b) = (rabbit_x r0, rabbit_y r0))) as [[= -> ->]|Hne].
    + destruct (Hrec _ _ Hin) as [Heq|(t & r' & Ht & Hripe & _)].
      * rewrite Heq, Hget1, Ht1. destruct (ripe t1) eqn:E; [|now left].
        right. exists t1, r0. repeat split; auto. apply list_elem_of_here.
      * rewrite Hget1 in Ht. destruct (ripe t1) eqn:E; injection Ht as <-.
        -- discriminate.
        -- congruence.
    + destruct (Hrec _ _ Hin) as [Heq|(t & r' & Ht & Hripe & H0 & Hr' & Hxy)].
      * left. rewrite Heq. now apply Hframe1.
      * right. exists t, r'. rewrite <- (Hframe1 a b Hin Hne).
        repeat split; auto; try apply Hxy. now apply list_elem_of_further.
Qed.

(** X13.  Rabbits eat ripe crops only.  On a well-formed grid with all
    rabbits in the field, [update_rabbits] changes no coins, harvest
    counter, cursor or selected seed, and leaves every tile as it was except
    tiles that held a crop at stage 3 and have a rabbit standing on them
    when the update ends: those become the default [Tile()].  An empty tile
    or a crop below stage 3 is never touched. *)
Theorem X13_rabbits_eat_ripe_only (now : Q) (s : Game) (e : Env) (a b : Z)
    (t : Tile) :
  grid_ok (grid s) -> Forall rabbit_in_field (rabbits s) ->
  in_field a b -> grid_get (grid s) a b = Ok t ->
  exists s' e',
    update_rabbits now (s, e) = Ok (s', e')
    /\ same_player s s'
    /\ (grid_get (grid s') a b = Ok t
        \/ (ripe t = true
            /\ grid_get (grid s') a b = Ok Tile0
            /\ exists r', r' ∈ rabbits s'
                          /\ rabbit_x r' = a /\ rabbit_y r' = b))
    /\ (ripe t = false -> grid_get (grid s') a b = Ok t).
Proof.
  intros Hok Hrs Hin Hget.
  destruct (rabbits_loop_spec now (rabbits s) Hrs (grid s) e Hok)
    as (rs' & g' & e' & Hrun & _).
  pose proof (rabbits_loop_eaten now _ Hrs _ _ _ _ _ Hok Hrun a b Hin) as Heat.
  exists (with_rabbits (with_grid s g') rs'), e'.
  unfold update_rabbits. rewrite Hrun. cbn [bind grid rabbits with_rabbits
                                             with_grid].
  split; [reflexivity|]. split; [repeat split|].
  destruct Heat as [Heq|(t0 & r' & Ht0 & Hripe & H0 & Hr' & Hx & Hy)].
  - rewrite Heq. split; [now left | intros _; exact Hget].
  - assert (t0 = t) as -> by congruence. split.
    + right. split; [exact Hripe|]. split; [exact H0|]. eauto.
    + intros Hn. congruence.
Qed.

(** X13, instance: a resting rabbit next to the unripe bean. *)
Lemma X13_rabbits_eat_ripe_only_witness :
  exists s' e',
    update_rabbits 10 (with_rabbits bean_planted [mkRabbit 0 0 11], quiet)
    = Ok (s', e')
    /\ grid_get (grid s') 0 0 = Ok (planted Bean 0 Tile0).
Proof.
  destruct (X13_rabbits_eat_ripe_only 10
              (with_rabbits bean_planted [mkRabbit 0 0 11]) quiet 0 0
              (planted Bean 0 Tile0))
    as (s' & e' & H1 & _ & _ & H2).
  - apply field_with_ok.
  - repeat constructor; cbn; unfold COLS, ROWS; lia.
  - unfold in_field, COLS, ROWS. lia.
  - reflexivity.
  - exists s', e'. split; [exact H1 | apply H2; reflexivity].
Defined.

(** X14.  Eaten in the tick it ripens.  Let a rabbit that is not due to hop
    stand on a tile whose crop reaches stage 3 at clock reading [now].  A
    tick without player events at that reading raises nothing, spawns a
    rabbit for the tile and ends with the tile reset to [Tile()]: the crop
    is gone before any key press can harvest it, and the coins and harvest
    counters are what they were. *)
Theorem X14_eaten_when_ripening (s : Game) (e : Env) (i : nat) (r : Rabbit)
    (t : Tile) :
  grid_ok (grid s) -> crops_grow (grid s) ->
  Forall rabbit_in_field (rabbits s) ->
  rabbits s !! i = Some r ->
  grid_get (grid s) (rabbit_x r) (rabbit_y r) = Ok t ->
  ripens (wall e O) t = true ->
  (wall e O < next_move r)%Q ->
  exists s' e',
    tick [] (s, e) = Ok (s', e')
    /\ grid_get (grid s') (rabbit_x r) (rabbit_y r) = Ok Tile0
    /\ (length (rabbits s) < length (rabbits s'))%nat
    /\ coins s' = coins s
    /\ harvest_log s' = harvest_log s.
Proof.
  intros Hok Hcg Hrs Hi Hget Hrip Hdue.
  set (now := wall e O) in *.
  assert (Hb : Qle_bool (next_move r) now = false).
  { destruct (Qle_bool (next_move r) now) eqn:E; [|reflexivity].
    apply Qle_bool_iff in E. lra. }
  assert (Hin_r : rabbit_in_field r).
  { rewrite Forall_forall in Hrs. apply Hrs.
    eapply list_elem_of_lookup_2; eassumption. }
  unfold tick, time_time. fold now. cbn [handle_input for_each bind].
  destruct (update_growth_spec now s (wall_next e) Hok Hcg)
    as (s2 & e2 & Hrun2 & Hok2 & Hcells & _ & (Hx & Hy & Hs & Hc & Hl)
        & new & Hnew & Hlen & Hin).
  rewrite Hrun2. cbn [bind].
  assert (Hripe : ripe (grown now t) = true).
  { unfold ripens in Hrip. unfold ripe, grown.
    destruct (crop t) as [c|] eqn:Hcrop; [|discriminate].
    apply andb_true_iff in Hrip as [Hst H3].
    apply negb_true_iff in Hst. rewrite Hst. cbn. exact H3. }
  assert (Hpos : (0 < length new)%nat).
  { rewrite Hlen. unfold ripening.
    assert (Ha : rabbit_x r ∈ range COLS) by apply range_elem, Hin_r.
    assert (Hb' : rabbit_y r ∈ range ROWS) by apply range_elem, Hin_r.
    revert Ha. generalize (range COLS). intros cols.
    induction cols as [|a cols IH]; intros Ha; [now apply elem_of_nil in Ha|].
    cbn [sum_over]. apply elem_of_cons in Ha as [<-|Ha]; [|specialize (IH Ha); lia].
    assert (0 < sum_over
              (fun b => if ripens_at now (grid s) (rabbit_x r) b
                        then 1%nat else O) (range ROWS))%nat; [|lia].
    revert Hb'. generalize (range ROWS). intros rows.
    induction rows as [|b rows IHr]; intros Hb';
      [now apply elem_of_nil in Hb'|].
    cbn [sum_over]. apply elem_of_cons in Hb' as [<-|Hb'];
      [|specialize (IHr Hb'); lia].
    unfold ripens_at at 1. rewrite Hget, Hrip. lia. }
  assert (Hrs2 : Forall rabbit_in_field (rabbits s2))
    by (rewrite Hnew; now apply Forall_app).
  assert (Hi2 : rabbits s2 !! i = Some r)
    by (rewrite Hnew; now apply lookup_app_l_Some).
  destruct (rabbits_loop_spec now (rabbits s2) Hrs2 (grid s2) e2 Hok2)
    as (rs' & g' & e' & Hrun & _ & _ & _ & Hlen' & _ & Hstill & _).
  destruct (Hstill i r Hi2 Hb) as [_ Heat].
  exists (with_rabbits (with_grid s2 g') rs'), e'.
  unfold update_rabbits. rewrite Hrun. cbn [bind].
  split; [reflexivity|].
  split; [exact (Heat _ (Hcells _ _ t Hin_r Hget) Hripe)|].
  split; [|split; assumption].
  cbn [rabbits with_rabbits]. rewrite Hlen', Hnew, length_app. lia.
Qed.

(** X14, instance: a resting rabbit on the bean when it ripens at time
    149. *)
Lemma X14_eaten_when_ripening_witness :
  exists s' e',
    tick [] (with_rabbits bean_planted [mkRabbit 0 0 200], elsewhere)
    = Ok (s', e')
    /\ grid_get (grid s') 0 0 = Ok Tile0
    /\ coins s' = 22.
Proof.
  destruct (X14_eaten_when_ripening
              (with_rabbits bean_planted [mkRabbit 0 0 200]) elsewhere O
              (mkRabbit 0 0 200) (planted Bean 0 Tile0))
    as (s' & e' & H1 & H2 & _ & H3 & _).
  - apply field_with_ok.
  - apply field_with_grows. intros c [= <-]. reflexivity.
  - repeat constructor; cbn; unfold COLS, ROWS; lia.
  - reflexivity.
  - reflexivity.
  - reflexivity.
  - reflexivity.
  - exists s', e'. repeat split; assumption.
Defined.

(** ** From seed to harvest *)

(** X15.  Plant, grow, harvest.  On a well-formed grid, plant the selected
    crop (affordable, growing time [g > 0], counter [n]) on the empty tile
    under the cursor at time [t0], run a growth update at time [t1 >= t0],
    and press the action key again.  If [t1 - t0 >= 3/4 g] the second press
    harvests: the coins are the initial ones minus the seed cost plus the
    reward, the counter is [n + 1] and the tile is [Tile()] again.  If
    [t1 - t0 < 3/4 g] the second press does nothing. *)
Theorem X15_plant_grow_harvest (t0 t1 t2 : Q) (s : Game) (e : Env)
    (tile : Tile) (n : Z) :
  grid_ok (grid s) -> crops_grow (grid s) -> in_field (x s) (y s) ->
  grid_get (grid s) (x s) (y s) = Ok tile -> crop tile = None ->
  (0 < grow_time (selected s))%Q ->
  seed_cost (selected s) <= coins s ->
  dict_get (harvest_log s) (selected s) = Ok n ->
  (t0 <= t1)%Q ->
  exists s1 s2 e2,
    handle_action t0 s = Ok s1
    /\ update_growth t1 (s1, e) = Ok (s2, e2)
    /\ ((3 / 4 * grow_time (selected s) <= t1 - t0)%Q ->
          exists s3,
            handle_action t2 s2 = Ok s3
            /\ coins s3
               = coins s - seed_cost (selected s) + reward (selected s)
            /\ dict_get (harvest_log s3) (selected s) = Ok (n + 1)
            /\ grid_get (grid s3) (x s) (y s) = Ok Tile0)
    /\ ((t1 - t0 < 3 / 4 * grow_time (selected s))%Q ->
          handle_action t2 s2 = Ok s2).
Proof.
  intros Hok Hcg Hcur Hget Hnone Hg Hle Hn Ht.
  set (c := selected s) in *.
  destruct (plant_affordable t0 s tile Hok Hcur Hget Hnone Hle)
    as (s1 & Hrun1 & Hcoins1 & Hget1 & Hlog1 & Hsame1).
  pose proof Hsame1 as (Hx1 & Hy1 & _ & _ & Hok1 & _).
  assert (Hcg1 : crops_grow (grid s1)).
  { eapply cursor_update_Forall; eauto. intros c0 [= <-]. exact Hg. }
  destruct (update_growth_spec t1 s1 e Hok1 Hcg1)
    as (s2 & e2 & Hrun2 & Hok2 & Hcells & _ & (Hx2 & Hy2 & _ & Hc2 & Hl2) & _).
  exists s1, s2, e2. split; [exact Hrun1|]. split; [exact Hrun2|].
  assert (Hget2 : grid_get (grid s2) (x s2) (y s2)
                  = Ok (grown t1 (planted c t0 tile))).
  { rewrite Hx2, Hy2, Hx1, Hy1. now apply Hcells. }
  assert (Hst : stage (grown t1 (planted c t0 tile))
                = spec_stage (grow_time c) (t1 - t0)).
  { unfold grown. cbn [planted crop stage Z.eqb].
    apply new_stage_spec; [exact Hg | cbn; lra]. }
  assert (Hcrop : crop (grown t1 (planted c t0 tile)) = Some c)
    by now rewrite grown_crop.
  split.
  - intros H3. apply (spec_stage_three (grow_time c) (t1 - t0) Hg) in H3.
    assert (Hcur2 : in_field (x s2) (y s2)) by now rewrite Hx2, Hy2, Hx1, Hy1.
    assert (Hn2 : dict_get (harvest_log s2) c = Ok n) by now rewrite Hl2, Hlog1.
    destruct (harvest_ripe t2 s2 _ Hok2 Hcur2 Hget2 c n Hcrop
                ltac:(now rewrite Hst) Hn2)
      as (s3 & Hrun3 & Hcoins3 & Hlog3 & _ & Hget3 & _).
    exists s3. split; [exact Hrun3|]. split; [|split].
    + rewrite Hcoins3, Hc2, Hcoins1. reflexivity.
    + exact Hlog3.
    + rewrite Hx2, Hy2, Hx1, Hy1 in Hget3. exact Hget3.
  - intros Hlt. eapply (action_unripe t2 s2 _ Hget2 c Hcrop).
    rewrite Hst. intros H3.
    apply (spec_stage_three (grow_time c) (t1 - t0) Hg) in H3. lra.
Qed.

(** X15, instance: corn planted on the initial field at time 0, grown until
    time 180, harvested at time 181. *)
Lemma X15_plant_grow_harvest_witness :
  exists s1 s2 e2 s3,
    handle_action 0 init = Ok s1
    /\ update_growth 180 (s1, quiet) = Ok (s2, e2)
    /\ handle_action 181 s2 = Ok s3
    /\ coins s3 = 25 - 5 + 12
    /\ dict_get (harvest_log s3) Corn = Ok 1.
Proof.
  destruct (X15_plant_grow_harvest 0 180 181 init quiet Tile0 0)
    as (s1 & s2 & e2 & H1 & H2 & H3 & _).
  - split; [reflexivity | cbn; repeat constructor].
  - cbn. repeat (constructor; try (intros c H; discriminate)).
  - unfold in_field, COLS, ROWS. cbn. lia.
  - reflexivity.
  - reflexivity.
  - reflexivity.
  - cbn. lia.
  - reflexivity.
  - vm_compute. discriminate.
  - destruct H3 as (s3 & H4 & H5 & H6 & _); [vm_compute; discriminate|].
    exists s1, s2, e2, s3. repeat split; assumption.
Defined.

(** ** A clock that never runs backwards *)

(** States reachable when the successive values of [now] never decrease,
    starting at a non-negative clock reading; the index is the latest
    [now]. *)
Inductive reachable_at : Q -> Game -> Prop :=
| at_init (now : Q) : (0 <= now)%Q -> reachable_at now init
| at_key (now now' : Q) (k : Key) (s s' : Game) :
    reachable_at now s -> (now <= now')%Q ->
    handle_key now' k s = Ok s' -> reachable_at now' s'
| at_growth (now now' : Q) (s s' : Game) (e e' : Env) :
    reachable_at now s -> (now <= now')%Q ->
    update_growth now' (s, e) = Ok (s', e') -> reachable_at now' s'
| at_rabbits (now now' : Q) (s s' : Game) (e e' : Env) :
    reachable_at now s -> (now <= now')%Q ->
    update_rabbits now' (s, e) = Ok (s', e') -> reachable_at now' s'.

(** The tile is consistent with a clock that has reached [now]. *)
Definition timely (now : Q) (t : Tile) : Prop :=
  0 <= stage t <= 3
  /\ (forall c, crop t = Some c ->
        c ∈ CROPS /\ (planted_at t <= now)%Q)
  /\ (flash_to t <= now + 0.3)%Q.

(** The image [render] looks up for a tile: none for an empty tile,
    [crop_img_stage3[crop]] at stage 3 and [crop_img[(crop, stage)]]
    otherwise.  [__init__] fills the first dict for the crops of [CROPS] and
    the second for the pairs of a crop of [CROPS] and a stage of
    [range(3)]. *)
Definition crop_img_keys : list (CropType * Z) :=
  flat_map (fun c => List.map (fun st => (c, st)) (range 3)) CROPS.

Definition tile_image (t : Tile) : result (option (CropType * Z)) :=
  match crop t with
  | None => Ok None
  | Some c =>
      if stage t =? 3 then
        if existsb (crop_eqb c) CROPS then Ok (Some (c, 3))
        else Raise KeyError
      else
        if existsb (fun k => crop_eqb (fst k) c && (snd k =? stage t))
                   crop_img_keys
        then Ok (Some (c, stage t))
        else Raise KeyError
  end.


Lemma reachable_at_reachable (now : Q) (s : Game) :
  reachable_at now s -> reachable s.
Proof.
  induction 1; eauto using reach_init, reach_key, reach_growth, reach_rabbits.
Qed.

Lemma reachable_at_nonneg (now : Q) (s : Game) :
  reachable_at now s -> (0 <= now)%Q.
Proof. induction 1; [assumption | lra..]. Qed.

Lemma timely_later (now now' : Q) (g : list (list Tile)) :
  (now <= now')%Q ->
  Forall (Forall (timely now)) g -> Forall (Forall (timely now')) g.
Proof.
  intros Hle Hg. eapply Forall_impl; [exact Hg|]. intros col Hcol.
  eapply Forall_impl; [exact Hcol|].
  intros t (Hst & Hc & Hf). split; [exact Hst|]. split.
  - intros c Hcrop. destruct (Hc c Hcrop) as [Hin Hp]. split; [exact Hin | lra].
  - lra.
Qed.

Lemma timely_Tile0 (now : Q) : (0 <= now)%Q -> timely now Tile0.
Proof.
  intros H. split; [cbn; lia|]. split; [discriminate|]. cbn. lra.
Qed.

Lemma timely_planted (now : Q) (c : CropType) (t : Tile) :
  c ∈ CROPS -> timely now (planted c now t).
Proof.
  intros Hc. split; [cbn; lia|]. split.
  - intros c0 [= <-]. split; [exact Hc | cbn; lra].
  - cbn. lra.
Qed.

Lemma timely_fertilized (now : Q) (c : CropType) (t : Tile) :
  timely now t -> crop t = Some c -> timely now (fertilized_tile c now t).
Proof.
  intros (Hst & Hc & Hf) Hcrop. split; [exact Hst|]. split; [|exact Hf].
  intros c0 Hc0. cbn in Hc0. destruct (Hc c0 Hc0) as [Hin Hp].
  split; [exact Hin|]. cbn [fertilized_tile planted_at]. unfold py_max.
  destruct (Qlt_le_dec (grow_time c - (now - planted_at t)) 0) as [H|H];
    unfold Qdiv; change (/ 2)%Q with (1 # 2)%Q; lra.
Qed.

Lemma timely_grown (now : Q) (t : Tile) : timely now t -> timely now (grown now t).
Proof.
  intros Ht. pose proof Ht as (Hst & Hc & Hf). unfold grown.
  destruct (crop t) as [c|] eqn:Hcrop; [|exact Ht].
  destruct (stage t =? 3); [exact Ht|].
  destruct (Hc c eq_refl) as [Hin Hp].
  split; [|split; [intros c0 Hc0; cbn in Hc0; now apply Hc | exact Hf]].
  cbn [stage]. rewrite new_stage_spec; [|now apply CROPS_positive | lra].
  apply spec_stage_range; [now apply CROPS_positive | lra].
Qed.

Lemma reachable_at_tiles (now : Q) (s : Game) :
  reachable_at now s -> Forall (Forall (timely now)) (grid s).
Proof.
  induction 1 as [now H0|now now' k s s' Hs IH Hle Hk
                  |now now' s s' e e' Hs IH Hle Hg
                  |now now' s s' e e' Hs IH Hle Hr].
  - cbn. repeat (constructor; try (now apply timely_Tile0)).
  - pose proof (reachable_at_nonneg _ _ Hs) as H0.
    eapply (key_tiles (timely now') now'); [| | | | |exact Hk].
    + apply timely_Tile0. lra.
    + intros c t. apply timely_planted.
    + intros c t. apply timely_fertilized.
    + eapply reachable_Inv, reachable_at_reachable; eassumption.
    + eapply timely_later; eassumption.
  - eapply (growth_tiles (timely now') now'); [| | |exact Hg].
    + apply timely_grown.
    + eapply reachable_Inv, reachable_at_reachable; eassumption.
    + eapply timely_later; eassumption.
  - pose proof (reachable_at_nonneg _ _ Hs) as H0.
    eapply (rabbits_tiles (timely now') now'); [| | |exact Hr].
    + apply timely_Tile0. lra.
    + eapply reachable_Inv, reachable_at_reachable; eassumption.
    + eapply timely_later; eassumption.
Qed.

Lemma existsb_crop (c : CropType) : c ∈ CROPS -> existsb (crop_eqb c) CROPS = true.
Proof.
  intros H. apply existsb_exists. exists c.
  split; [now apply list_elem_of_In | apply crop_eqb_refl].
Qed.

(** X16.  Stages stay in range under a monotone clock.  In every state
    reached with clock readings that never decrease, every tile has a stage
    from 0 to 3, every crop was planted no later than the latest reading,
    and [render] finds the pre-rendered image of every tile: its lookup in
    [crop_img] or [crop_img_stage3] raises no [KeyError]. *)
Theorem X16_stage_in_range (now : Q) (s : Game) (a b : Z) (t : Tile) :
  reachable_at now s -> grid_get (grid s) a b = Ok t ->
  0 <= stage t <= 3
  /\ (forall c, crop t = Some c -> (planted_at t <= now)%Q)
  /\ exists img, tile_image t = Ok img.
Proof.
  intros Hs Hget.
  pose proof (grid_get_Forall _ _ _ _ _ Hget (reachable_at_tiles now s Hs))
    as (Hst & Hc & _).
  split; [exact Hst|]. split; [intros c Hcrop; exact (proj2 (Hc c Hcrop))|].
  unfold tile_image. destruct (crop t) as [c|]; [|eauto].
  destruct (Hc c eq_refl) as [Hin _].
  destruct (stage t =? 3) eqn:E.
  - rewrite existsb_crop by assumption. eauto.
  - apply Z.eqb_neq in E.
    assert (Hk : existsb (fun k => crop_eqb (fst k) c && (snd k =? stage t))
                   crop_img_keys = true); [|rewrite Hk; eauto].
    apply existsb_exists. exists (c, stage t). split.
    + unfold crop_img_keys. apply in_flat_map. exists c.
      split; [now apply list_elem_of_In|].
      apply in_map, list_elem_of_In, range_elem. lia.
    + cbn. now rewrite crop_eqb_refl, Z.eqb_refl.
Qed.

(** X16, instance: the bean planted at time 0 and grown until time 100. *)
Lemma X16_stage_in_range_witness :
  exists s e' t,
    update_growth 100 (bean_planted, quiet) = Ok (s, e')
    /\ grid_get (grid s) 0 0 = Ok t
    /\ 0 <= stage t <= 3.
Proof.
  assert (Hrun : exists s e' t,
            update_growth 100 (bean_planted, quiet) = Ok (s, e')
            /\ grid_get (grid s) 0 0 = Ok t).
  { eexists _, _, _. split; [vm_compute; reflexivity | reflexivity]. }
  destruct Hrun as (s & e' & t & Hg & Ht).
  exists s, e', t. split; [exact Hg|]. split; [exact Ht|].
  apply (X16_stage_in_range 100 s 0 0 t); [|exact Ht].
  apply (at_growth 0 100 bean_planted s quiet e');
    [|vm_compute; discriminate | exact Hg].
  apply (at_key 0 0 K_SPACE (with_selected init Bean));
    [|vm_compute; discriminate | reflexivity].
  apply (at_key 0 0 (K_other "4") init);
    [|vm_compute; discriminate | reflexivity].
  apply at_init. vm_compute. discriminate.
Defined.



(** With a clock that steps back the stage can leave the range: corn
    planted at time 100 and updated at time 0 gets stage -1, for which
    [render] has no image. *)
Lemma backward_clock_stage :
  exists s1 s2 e2 t,
    handle_action 100 init = Ok s1
    /\ update_growth 0 (s1, quiet) = Ok (s2, e2)
    /\ grid_get (grid s2) 0 0 = Ok t
    /\ stage t = -1
    /\ tile_image t = Raise KeyError.
Proof.
  eexists _, _, _, _. split; [reflexivity|].
  split; [vm_compute; reflexivity|]. split; [reflexivity|].
  split; reflexivity.
Qed.

(** ** The sidebar *)

Definition TILE : Z := 64.
Definition FIELD_H : Z := ROWS * TILE.
Definition WIN_H : Z := FIELD_H.
Definition SEED_TITLE_PAD_Y : Z := 20.
Definition SEED_START_Y : Z := SEED_TITLE_PAD_Y + 24.
Definition SEED_ROW_H : Z := 40.

(** [harvest_title_y] of [render]. *)
Definition harvest_title_y : Z :=
  SEED_START_Y + Z.of_nat (length CROPS) * SEED_ROW_H + 30.

(** The loop of [render] over [enumerate(CROPS)] that draws the harvest
    totals, from index [i] on: the rows it draws, each with its crop, its
    [y] and the counter it prints.  The loop stops at the first row with
    [y > WIN_H - 20]. *)
Fixpoint harvest_rows (log : list (CropType * Z)) (i : Z)
    (crops : list CropType) : result (list (CropType * Z * Z)) :=
  match crops with
  | [] => Ok []
  | c :: crops' =>
      let y := harvest_title_y + 30 + i * 20 in
      if WIN_H - 20 <? y then Ok []
      else
        let* n := dict_get log c in
        let* rows := harvest_rows log (i + 1) crops' in
        Ok ((c, y, n) :: rows)
  end.

(** The seed rows [render] highlights: those of the crops equal to the
    selected one. *)
Definition highlighted (s : Game) : list CropType :=
  List.filter (fun c => crop_eqb c (selected s)) CROPS.

(** X18.  Harvest totals on screen.  In every reachable state the loop of
    [render] that draws the harvest totals raises no [KeyError] and draws
    exactly two rows, for corn at [y = 344] and for potato at [y = 364],
    each with its current counter; the third row would start at
    [y = 384 > WIN_H - 20], so the counters of tomato, bean, cabbage and
    broccoli are never drawn. *)
Theorem X18_harvest_rows (s : Game) :
  reachable s ->
  exists n1 n2,
    dict_get (harvest_log s) Corn = Ok n1
    /\ dict_get (harvest_log s) Potato = Ok n2
    /\ harvest_rows (harvest_log s) 0 CROPS
       = Ok [(Corn, 344, n1); (Potato, 364, n2)].
Proof.
  intros Hs. pose proof (inv_log s (reachable_Inv s Hs)) as Hlog.
  destruct (Hlog Corn) as (n1 & H1 & _);
    [unfold CROPS; rewrite !elem_of_cons; auto|].
  destruct (Hlog Potato) as (n2 & H2 & _);
    [unfold CROPS; rewrite !elem_of_cons; auto|].
  exists n1, n2. split; [exact H1|]. split; [exact H2|].
  unfold CROPS. cbn [harvest_rows].
  change (WIN_H - 20 <? harvest_title_y + 30 + 0 * 20) with false.
  change (WIN_H - 20 <? harvest_title_y + 30 + (0 + 1) * 20) with false.
  change (WIN_H - 20 <? harvest_title_y + 30 + (0 + 1 + 1) * 20) with true.
  cbv iota. rewrite H1. cbn [bind]. rewrite H2. reflexivity.
Qed.

(** X18, instance: the initial state. *)
Lemma X18_harvest_rows_witness :
  harvest_rows (harvest_log init) 0 CROPS
  = Ok [(Corn, 344, 0); (Potato, 364, 0)].
Proof.
  destruct (X18_harvest_rows init reach_init) as (n1 & n2 & H1 & H2 & H3).
  cbn in H1, H2. injection H1 as <-. injection H2 as <-. exact H3.
Defined.

(** X19.  The highlighted seed.  In every reachable state [render]
    highlights exactly one seed row, the one of the selected crop: the
    selected crop is a crop of [CROPS] and no two crops of [CROPS] are
    equal. *)
Theorem X19_one_seed_highlighted (s : Game) :
  reachable s -> highlighted s = [selected s].
Proof.
  intros Hs. pose proof (inv_selected s (reachable_Inv s Hs)) as Hsel.
  unfold highlighted. revert Hsel. generalize (selected s). intros c.
  unfold CROPS. rewrite !elem_of_cons, elem_of_nil.
  intros H. repeat destruct H as [->|H]; try contradiction; reflexivity.
Qed.

(** X19, instance: after selecting the bean. *)
Lemma X19_one_seed_highlighted_witness :
  highlighted (with_selected init Bean) = [Bean].
Proof.
  apply (X19_one_seed_highlighted (with_selected init Bean)).
  apply (reach_key 0 (K_other "4") init); [|reflexivity].
  apply reach_init.
Defined.

(** ** The economy of a key press *)

Lemma reachable_empty_tile (s : Game) (a b : Z) (t : Tile) :
  reachable s -> grid_get (grid s) a b = Ok t -> crop t = None -> t = Tile0.
Proof.
  intros Hs Hget.
  apply (grid_get_Forall (fun t => crop t = None -> t = Tile0) _ _ _ _ Hget).
  apply reachable_tiles; [reflexivity | | | | exact Hs].
  - intros c now t0 _. discriminate.
  - intros c now t0 _ Hc H. cbn in H. congruence.
  - intros now t0 H0 H. rewrite grown_crop in H. now rewrite (H0 H).
Qed.

(** X20.  What a key press can do to coins and counters.  From a reachable
    state a key press has one of four effects on the economy: none; a
    planting, which takes exactly the seed cost of the selected crop from an
    affordable balance onto an empty tile; a fertilizing, which takes
    exactly 5 coins for an occupied, unfertilized tile; or a harvest of the
    stage-3 crop under the cursor, which adds exactly its reward and raises
    exactly its counter by one.  Coins therefore rise only by a harvest, and
    no counter ever falls. *)
Theorem X20_key_economy (now : Q) (k : Key) (s s' : Game) :
  reachable s -> handle_key now k s = Ok s' ->
  (coins s' = coins s /\ harvest_log s' = harvest_log s)
  \/ (k = K_SPACE
      /\ seed_cost (selected s) <= coins s
      /\ grid_get (grid s) (x s) (y s) = Ok Tile0
      /\ coins s' = coins s - seed_cost (selected s)
      /\ harvest_log s' = harvest_log s)
  \/ (k = K_f
      /\ 5 <= coins s
      /\ (exists t c, grid_get (grid s) (x s) (y s) = Ok t
                      /\ crop t = Some c /\ fertilized t = false)
      /\ coins s' = coins s - 5
      /\ harvest_log s' = harvest_log s)
  \/ (k = K_SPACE
      /\ exists t c n,
           grid_get (grid s) (x s) (y s) = Ok t
           /\ crop t = Some c /\ stage t = 3
           /\ dict_get (harvest_log s) c = Ok n
           /\ coins s' = coins s + reward c
           /\ dict_get (harvest_log s') c = Ok (n + 1)
           /\ forall c', crop_eqb c c' = false ->
                dict_get (harvest_log s') c' = dict_get (harvest_log s) c').
Proof.
  intros Hs Hk. pose proof (reachable_Inv s Hs) as [_ Hgrid Hcur _ Htiles Hlog _].
  destruct (grid_get_total _ _ _ Hgrid Hcur) as [t Ht].
  destruct k; cbn [handle_key] in Hk;
    try (injection Hk as <-; left; split; reflexivity).
  - destruct (crop t) as [c|] eqn:Hc.
    + destruct (decide (stage t = 3)) as [Hst|Hst].
      * destruct (Hlog c) as (n & Hn & _).
        { eapply (grid_get_Forall _ _ _ _ _ Ht Htiles). exact Hc. }
        destruct (harvest_ripe now s t Hgrid Hcur Ht c n Hc Hst Hn)
          as (s1 & H1 & Hcoins & Hlog1 & Hne & _).
        rewrite Hk in H1. injection H1 as <-.
        right. right. right. split; [reflexivity|].
        exists t, c, n. repeat split; assumption.
      * rewrite (action_unripe now s t Ht c Hc Hst) in Hk.
        injection Hk as <-. left. split; reflexivity.
    + destruct (decide (seed_cost (selected s) <= coins s)) as [Hle|Hgt].
      * destruct (plant_affordable now s t Hgrid Hcur Ht Hc Hle)
          as (s1 & H1 & Hcoins & _ & Hlog1 & _).
        rewrite Hk in H1. injection H1 as <-.
        right. left. split; [reflexivity|]. split; [exact Hle|].
        split; [|split; assumption].
        rewrite Ht. f_equal. eapply reachable_empty_tile; eassumption.
      * rewrite (plant_unaffordable now s t Ht Hc) in Hk by lia.
        injection Hk as <-. left. split; reflexivity.
  - destruct (decide (coins s < 5)) as [Hpoor|Hrich].
    { rewrite (fertilize_poor now s Hpoor) in Hk. injection Hk as <-.
      left. split; reflexivity. }
    destruct (crop t) as [c|] eqn:Hc.
    2:{ rewrite (fertilize_empty now s t Ht Hc) in Hk. injection Hk as <-.
        left. split; reflexivity. }
    destruct (fertilized t) eqn:Hf.
    { rewrite (fertilize_again now s t Ht Hf) in Hk. injection Hk as <-.
      left. split; reflexivity. }
    destruct (fertilize_fresh now s t Hgrid Hcur Ht c Hc Hf ltac:(lia))
      as (s1 & H1 & Hcoins & _ & Hlog1 & _).
    rewrite Hk in H1. injection H1 as <-.
    right. right. left. split; [reflexivity|]. split; [lia|].
    split; [eauto|]. split; assumption.
  - destruct (CROP_BY_KEY key_name); injection Hk as <-;
      left; split; reflexivity.
Qed.

(** X20, instance: planting corn on the initial field is the planting
    case. *)
Lemma X20_key_economy_witness :
  exists s', handle_key 0 K_SPACE init = Ok s' /\ coins s' = 20.
Proof.
  eexists. split; [reflexivity|].
  destruct (X20_key_economy 0 K_SPACE init _ reach_init eq_refl)
    as [[H _]|[(_ & _ & _ & H & _)|[(H & _)|(_ & t & c & n & Ht & Hc & _)]]].
  - discriminate.
  - exact H.
  - discriminate.
  - cbn in Ht. injection Ht as <-. discriminate.
Defined.

(** ** The main loop never crashes *)




